(** * keyteki: purge action and card-selection prompt

    A shallow embedding of two pieces of the rules engine:

    - [PurgeAction] (game action that purges a card, possibly nested in a
      leaves-play event), and
    - [SelectCardPrompt] (the prompt asking a player to pick cards under a
      cardinality bound, a stat cap and an eligibility predicate).

    JavaScript objects live in a store: a card or a player is a reference
    (a number) and the game state maps references to their current fields.
    Every method becomes a function that takes the state and returns the new
    one.  Caller-supplied callbacks are functions of the state as well. *)

From Stdlib Require Import ZArith String.
From stdpp Require Import base decidable option list functions strings pretty.

(** ** Data model *)

Definition CardRef := nat.
Definition PlayerRef := nat.

Module Card.
(** The fields of a card object that the two classes read or write.
    [getType] stands for the result of the method of the same name. *)
Record t := mk {
  getType : string;
  owner : PlayerRef;
  controller : PlayerRef;
  location : string;
  gigantic : bool;
  composedPart : option CardRef;
  purgedBy : option PlayerRef;
  selected : bool;
  opponentSelected : bool;
  selectable : bool
}.

Definition set_location (l : string) (c : t) : t :=
  mk (getType c) (owner c) (controller c) l (gigantic c) (composedPart c)
     (purgedBy c) (selected c) (opponentSelected c) (selectable c).
Definition set_purgedBy (p : option PlayerRef) (c : t) : t :=
  mk (getType c) (owner c) (controller c) (location c) (gigantic c)
     (composedPart c) p (selected c) (opponentSelected c) (selectable c).
Definition set_selected (b : bool) (c : t) : t :=
  mk (getType c) (owner c) (controller c) (location c) (gigantic c)
     (composedPart c) (purgedBy c) b (opponentSelected c) (selectable c).
Definition set_opponentSelected (b : bool) (c : t) : t :=
  mk (getType c) (owner c) (controller c) (location c) (gigantic c)
     (composedPart c) (purgedBy c) (selected c) b (selectable c).
Definition set_selectable (b : bool) (c : t) : t :=
  mk (getType c) (owner c) (controller c) (location c) (gigantic c)
     (composedPart c) (purgedBy c) (selected c) (opponentSelected c) b.
End Card.

Module Player.
Record t := mk { purgedCards : list CardRef }.
End Player.

Module Game.
(** [allCards] is the collection [game.allCards]; [cards] and [players] are
    the store that gives every reference its current fields. *)
Record t := mk {
  allCards : list CardRef;
  cards : CardRef -> Card.t;
  players : PlayerRef -> Player.t
}.

(** Assignments to fields of one card or one player. *)
Definition update_card (f : Card.t -> Card.t) (c : CardRef) (g : t) : t :=
  mk (allCards g) (alter f c (cards g)) (players g).
Definition update_player (f : Player.t -> Player.t) (p : PlayerRef) (g : t) : t :=
  mk (allCards g) (cards g) (alter f p (players g)).
End Game.

(** The resolution context handed to actions.  [context.game] is the state
    that every function below threads explicitly. *)
Module Context.
Record t := mk { player : PlayerRef; source : option CardRef }.
End Context.

(** The payload of the events raised here: the card and the context. *)
Module EventParams.
Record t := mk { card : CardRef; context : Context.t }.
End EventParams.

Module Event.
(** Modelled from the spec: the Event class is not part of the sources.  An
    event is a name, a payload and the handler that performs the mutation
    when the event resolves. *)
Record t := mk {
  name : string;
  params : EventParams.t;
  handler : Game.t -> Game.t
}.
End Event.

(** Modelled from the spec: [createEvent] of the action base class is not
    part of the sources.  It builds the event from its three parts. *)
Definition createEvent (name : string) (params : EventParams.t)
    (handler : Game.t -> Game.t) : Event.t :=
  Event.mk name params handler.

(** ** Reaction dispatch *)

Module Reaction.
(** Modelled from the spec: the ability registry is not part of the sources.
    A reaction is bound to an event name, has a trigger predicate and an
    effect. *)
Record t := mk {
  eventName : string;
  condition : EventParams.t -> Game.t -> bool;
  resolve : EventParams.t -> Game.t -> Game.t
}.
End Reaction.

(** Modelled from the spec: [game.raiseEvent] is not part of the sources.
    Raising an event freezes the registered reactions whose trigger matches,
    resolves them in registration order, and only then runs the handler. *)
Definition matching (reactions : list Reaction.t) (name : string)
    (params : EventParams.t) (g : Game.t) : list Reaction.t :=
  filter (fun r => Reaction.eventName r = name /\
                   Reaction.condition r params g = true) reactions.

Definition settle (reactions : list Reaction.t) (name : string)
    (params : EventParams.t) (g : Game.t) : Game.t :=
  foldl (fun g r => Reaction.resolve r params g) g
        (matching reactions name params g).

Definition dispatch (reactions : list Reaction.t) (name : string)
    (params : EventParams.t) (handler : Game.t -> Game.t) (g : Game.t) : Game.t :=
  handler (settle reactions name params g).

(** Modelled from the spec: [Player.moveCard] is not part of the sources.
    The simplest relocation primitive: the card's location becomes the
    target.  It serves to run [purge] on concrete games; the theorems about
    [purge] hold for every implementation of [moveCard]. *)
Definition relocate (owner : PlayerRef) (card : CardRef) (target : string)
    (g : Game.t) : Game.t :=
  Game.update_card (Card.set_location target) card g.



(** ** PurgeAction *)

Module PurgeAction.
Record t := mk {
  name : string;
  effectMsg : string;
  purgedBy : option PlayerRef
}.

(** [setup] followed by [setDefaultProperties]. *)
Definition new : t := mk "purge" "purge {0}" None.

(** The action once the property [purgedBy] has been given. *)
Definition with_purgedBy (p : PlayerRef) (this : t) : t :=
  mk (name this) (effectMsg this) (Some p).

(** [actor.purgedCards.push(card)] and [card.purgedBy = actor]. *)
Definition push_purged (actor : PlayerRef) (card : CardRef) (g : Game.t) : Game.t :=
  Game.update_player (fun p => Player.mk (Player.purgedCards p ++ [card])) actor g.

Definition stamp (actor : PlayerRef) (card : CardRef) (g : Game.t) : Game.t :=
  Game.update_card (Card.set_purgedBy (Some actor)) card g.


Section Engine.
(** [game.raiseEvent] and [owner.moveCard], supplied by the engine. *)
Variable raiseEvent :
  string -> EventParams.t -> (Game.t -> Game.t) -> Game.t -> Game.t.
Variable moveCard : PlayerRef -> CardRef -> string -> Game.t -> Game.t.

Definition purge (this : t) (card : CardRef) (g : Game.t) : Game.t :=
  let composedPart :=
    if Card.gigantic (Game.cards g card)
    then Card.composedPart (Game.cards g card) else None in
  let g := moveCard (Card.owner (Game.cards g card)) card "purged" g in
  match purgedBy this with
  | Some actor =>
      let g := push_purged actor card g in
      let g := stamp actor card g in
      match composedPart with
      | Some part => stamp actor part (push_purged actor part g)
      | None => g
      end
  | None => g
  end.

Definition getEvent (this : t) (card : CardRef) (context : Context.t) : Event.t :=
  createEvent "onCardPurged" (EventParams.mk card context) (fun g =>
    if String.eqb (Card.location (Game.cards g card)) "play area"
    then raiseEvent "onCardLeavesPlay" (EventParams.mk card context)
           (fun g => purge this card g) g
    else purge this card g).
End Engine.
End PurgeAction.


(** ** JavaScript values read out of the options object *)

(** What a property read can yield, as far as titles need it: the scalar
    values, [undefined], and everything else (functions, arrays, objects). *)
Inductive JsValue :=
| JUndefined
| JNumber (n : Z)
| JString (s : string)
| JBoolean (b : bool)
| JObject.

(** [a === b] on the values above; two reads of an object are never compared
    by the code, so [JObject] is only ever compared with scalars. *)
Definition strict_equal (a b : JsValue) : bool :=
  match a, b with
  | JUndefined, JUndefined => true
  | JNumber m, JNumber n => bool_decide (m = n)
  | JString s, JString t => String.eqb s t
  | JBoolean x, JBoolean y => Bool.eqb x y
  | _, _ => false
  end.

(** The string a value turns into under [+] with a string. *)
Definition to_string (v : JsValue) : string :=
  match v with
  | JUndefined => "undefined"
  | JNumber n => pretty n
  | JString s => s
  | JBoolean true => "true"
  | JBoolean false => "false"
  | JObject => "[object Object]"
  end.

(** [a || b] where both are strings or absent: the empty string is falsy. *)
Definition or_else (a : option string) (b : string) : string :=
  match a with
  | Some s => if String.eqb s EmptyString then b else s
  | None => b
  end.

Definition truthy (a : option string) : bool :=
  match a with
  | Some s => negb (String.eqb s EmptyString)
  | None => false
  end.

(** ** SelectCardPrompt *)

Module Button.
Record t := mk { text : string; arg : string }.
End Button.

Module Source.
Record t := mk { name : string }.
End Source.

(** The argument of [onSelect]: [selectedCards[0]] (undefined on an empty
    selection) or the array [selectedCards] itself. *)
Inductive CardParam :=
| Single (card : option CardRef)
| Collection (cards : list CardRef).

Inductive CardTypeSpec :=
| OneType (type : string)
| Types (types : list string).

(** What a method hands back: the code returns [false] on a rejected
    interaction and falls off the end (undefined) otherwise. *)
Inductive Returned := ReturnedFalse | ReturnedUndefined.

(** A call either returns or throws. *)
Inductive Completion (A : Type) :=
| Returns (a : A)
| Throws (error : string).
Arguments Returns {A} a.
Arguments Throws {A} error.

Module Options.
(** The properties object as the caller passes it: every property may be
    missing.  Stats are integers. *)
Record t := mk {
  numCards : option Z;
  multiSelect : bool;
  additionalButtons : option (list Button.t);
  activePromptTitle : option string;
  waitingPromptTitle : option string;
  maxStat : option (Game.t -> Z);
  cardStat : option (Game.t -> CardRef -> Z);
  cardCondition : option (Game.t -> CardRef -> bool);
  cardType : option CardTypeSpec;
  onSelect : option (PlayerRef -> CardParam -> Game.t -> bool * Game.t);
  onMenuCommand : option (PlayerRef -> string -> Game.t -> bool * Game.t);
  onCancel : option (PlayerRef -> Game.t -> Game.t);
  onCardToggle : option (PlayerRef -> CardRef -> Game.t -> Game.t);
  source : option Source.t
}.

(** An options object with nothing set. *)
Definition empty : t :=
  mk None false None None None None None None None None None None None None.
End Options.

Module Properties.
(** [this.properties]: the same object once the constructor has filled in
    the waiting title, the defaults and the card-type array. *)
Record t := mk {
  numCards : Z;
  multiSelect : bool;
  additionalButtons : list Button.t;
  activePromptTitle : option string;
  waitingPromptTitle : option string;
  maxStat : option (Game.t -> Z);
  cardStat : option (Game.t -> CardRef -> Z);
  cardCondition : Game.t -> CardRef -> bool;
  cardType : list string;
  onSelect : PlayerRef -> CardParam -> Game.t -> bool * Game.t;
  onMenuCommand : PlayerRef -> string -> Game.t -> bool * Game.t;
  onCancel : PlayerRef -> Game.t -> Game.t;
  onCardToggle : option (PlayerRef -> CardRef -> Game.t -> Game.t);
  source : option Source.t
}.

Definition present {A} (o : option A) : JsValue :=
  match o with Some _ => JObject | None => JUndefined end.

(** [properties[key]] for an arbitrary property name. *)
Definition get (p : t) (key : string) : JsValue :=
  if String.eqb key "numCards" then JNumber (numCards p)
  else if String.eqb key "multiSelect" then JBoolean (multiSelect p)
  else if String.eqb key "additionalButtons" then JObject
  else if String.eqb key "activePromptTitle"
    then from_option JString JUndefined (activePromptTitle p)
  else if String.eqb key "waitingPromptTitle"
    then from_option JString JUndefined (waitingPromptTitle p)
  else if String.eqb key "maxStat" then present (maxStat p)
  else if String.eqb key "cardStat" then present (cardStat p)
  else if String.eqb key "cardCondition" then JObject
  else if String.eqb key "cardType" then JObject
  else if String.eqb key "onSelect" then JObject
  else if String.eqb key "onMenuCommand" then JObject
  else if String.eqb key "onCancel" then JObject
  else if String.eqb key "onCardToggle" then present (onCardToggle p)
  else if String.eqb key "source" then present (source p)
  else JUndefined.
End Properties.

Module Selection.
(** An entry of [previouslySelectedCards]. *)
Record t := mk {
  card : CardRef;
  selected : bool;
  opponentSelected : bool
}.
End Selection.

(** What the deciding player is shown, and what everybody else is shown. *)
Module ActivePrompt.
Record t := mk {
  selectCard : bool;
  menuTitle : string;
  buttons : list Button.t;
  promptTitle : option string
}.
End ActivePrompt.

Module WaitingPrompt.
Record t := mk { menuTitle : string }.
End WaitingPrompt.

Module SelectCardPrompt.

(** The prompt object.  [cardCondition] is the closure stored by the
    constructor; the stat-limiting closure reads [this.selectedCards] when it
    is called, so the closure takes the current selection as an argument.
    [completed] is the flag of the [UiPrompt] base class. *)
Record t := mk {
  choosingPlayer : PlayerRef;
  properties : Properties.t;
  cardCondition : list CardRef -> Game.t -> CardRef -> bool;
  selectedCards : list CardRef;
  previouslySelectedCards : list Selection.t;
  completed : bool
}.

Definition set_selectedCards (l : list CardRef) (this : t) : t :=
  mk (choosingPlayer this) (properties this) (cardCondition this) l
     (previouslySelectedCards this) (completed this).
Definition set_previouslySelectedCards (l : list Selection.t) (this : t) : t :=
  mk (choosingPlayer this) (properties this) (cardCondition this)
     (selectedCards this) l (completed this).
Definition set_completed (b : bool) (this : t) : t :=
  mk (choosingPlayer this) (properties this) (cardCondition this)
     (selectedCards this) (previouslySelectedCards this) b.

Definition defaultProperties : Properties.t :=
  Properties.mk 1 false [] None None None None
    (fun _ _ => true)
    ["attachment"; "character"; "event"; "location"]
    (fun _ _ g => (true, g))
    (fun _ _ g => (true, g))
    (fun _ g => g)
    None None.

(** The first steps of the constructor: the waiting title derived from the
    source, [_.defaults] (which fills exactly the missing properties) and
    the wrapping of a lone card type into an array. *)
Definition resolve (properties : Options.t) : Properties.t :=
  let waitingPromptTitle :=
    match Options.source properties with
    | Some source =>
        if negb (truthy (Options.waitingPromptTitle properties))
        then Some ("Waiting for opponent to use " +:+ Source.name source)
        else Options.waitingPromptTitle properties
    | None => Options.waitingPromptTitle properties
    end in
  let d := defaultProperties in
  Properties.mk
    (default (Properties.numCards d) (Options.numCards properties))
    (Options.multiSelect properties)
    (default (Properties.additionalButtons d) (Options.additionalButtons properties))
    (Options.activePromptTitle properties)
    waitingPromptTitle
    (Options.maxStat properties)
    (Options.cardStat properties)
    (default (Properties.cardCondition d) (Options.cardCondition properties))
    (match Options.cardType properties with
     | Some (Types l) => l
     | Some (OneType s) => [s]
     | None => Properties.cardType d
     end)
    (default (Properties.onSelect d) (Options.onSelect properties))
    (default (Properties.onMenuCommand d) (Options.onMenuCommand properties))
    (default (Properties.onCancel d) (Options.onCancel properties))
    (Options.onCardToggle properties)
    (Options.source properties).

(** The closure built when both stat options are present; [maxStat] and
    [cardStat] are [properties.maxStat] and [properties.cardStat]. *)
Definition createMaxStatCardCondition (properties : Properties.t)
    (maxStat : Game.t -> Z) (cardStat : Game.t -> CardRef -> Z)
    : list CardRef -> Game.t -> CardRef -> bool :=
  fun selectedCards g card =>
    if negb (Properties.cardCondition properties g card) then false
    else
      let currentStatSum :=
        foldl (fun sum c => (sum + cardStat g c)%Z) 0%Z selectedCards in
      (cardStat g card + currentStatSum <=? maxStat g)%Z
      || bool_decide (card ∈ selectedCards).

Definition marked (c : Card.t) : bool :=
  Card.selected c || Card.opponentSelected c.

Definition unmark (c : Card.t) : Card.t :=
  Card.set_opponentSelected false (Card.set_selected false c).

Definition snapshot (g : Game.t) (card : CardRef) : Selection.t :=
  Selection.mk card (Card.selected (Game.cards g card))
               (Card.opponentSelected (Game.cards g card)).

Definition restore (s : Selection.t) (c : Card.t) : Card.t :=
  Card.set_opponentSelected (Selection.opponentSelected s)
    (Card.set_selected (Selection.selected s) c).

Definition savePreviouslySelectedCards (this : t) (g : Game.t) : t * Game.t :=
  let previously :=
    snapshot g <$> filter (fun card => marked (Game.cards g card)) (Game.allCards g) in
  (set_previouslySelectedCards previously this,
   foldl (fun g selection => Game.update_card unmark (Selection.card selection) g)
         g previously).

(** The constructor.  Nothing in it throws. *)
Definition new (game : Game.t) (choosingPlayer : PlayerRef)
    (properties : Options.t) : Completion (t * Game.t) :=
  let properties := resolve properties in
  let cardCondition :=
    match Properties.maxStat properties, Properties.cardStat properties with
    | Some maxStat, Some cardStat =>
        createMaxStatCardCondition properties maxStat cardStat
    | _, _ => fun _ => Properties.cardCondition properties
    end in
  let this := mk choosingPlayer properties cardCondition [] [] false in
  Returns (savePreviouslySelectedCards this game).

Definition callCardCondition (this : t) (g : Game.t) (card : CardRef) : bool :=
  cardCondition this (selectedCards this) g card.

Definition includes (l : list string) (s : string) : bool :=
  bool_decide (s ∈ l).

Definition highlightSelectableCards (this : t) (g : Game.t) : Game.t :=
  foldl (fun g card =>
           if includes (Properties.cardType (properties this))
                       (Card.getType (Game.cards g card))
           then Game.update_card
                  (Card.set_selectable (callCardCondition this g card)) card g
           else g)
        g (Game.allCards g).

(** Modelled from the spec: [UiPrompt] is not part of the sources.  Its
    [continue] reports whether the prompt is complete, and its [complete]
    marks the prompt as complete. *)
Definition isComplete (this : t) : bool := completed this.
Definition super_continue (this : t) : bool := isComplete this.
Definition super_complete (this : t) : t := set_completed true this.

Definition continue (this : t) (g : Game.t) : bool * Game.t :=
  let g := if negb (isComplete this) then highlightSelectableCards this g else g in
  (super_continue this, g).

Definition activeCondition (this : t) (player : PlayerRef) : bool :=
  bool_decide (player = choosingPlayer this).

Definition defaultActivePromptTitle (this : t) : string :=
  let numCard := Properties.get (properties this) "numCard" in
  if strict_equal numCard (JNumber 1) then "Select a card"
  else "Select " +:+ to_string numCard +:+ " cards".

Definition activePrompt (this : t) : ActivePrompt.t :=
  ActivePrompt.mk true
    (or_else (Properties.activePromptTitle (properties this))
             (defaultActivePromptTitle this))
    (Properties.additionalButtons (properties this) ++ [Button.mk "Done" "done"])
    (Source.name <$> Properties.source (properties this)).

Definition waitingPrompt (this : t) : WaitingPrompt.t :=
  WaitingPrompt.mk
    (or_else (Properties.waitingPromptTitle (properties this))
             "Waiting for opponent").

Definition checkCardCondition (this : t) (g : Game.t) (card : CardRef) : bool :=
  includes (Properties.cardType (properties this))
           (Card.getType (Game.cards g card))
  && callCardCondition this g card.

Definition selectCard (this : t) (card : CardRef) (g : Game.t)
    : bool * (t * Game.t) :=
  let numCards := Properties.numCards (properties this) in
  if negb (numCards =? 0)%Z
     && (numCards <=? Z.of_nat (length (selectedCards this)))%Z
     && negb (bool_decide (card ∈ selectedCards this))
  then (false, (this, g))
  else
    let g :=
      if negb (bool_decide (choosingPlayer this = Card.controller (Game.cards g card)))
      then Game.update_card
             (fun c => Card.set_opponentSelected (negb (Card.opponentSelected c)) c)
             card g
      else Game.update_card
             (fun c => Card.set_selected (negb (Card.selected c)) c) card g in
    let this :=
      if marked (Game.cards g card)
      then set_selectedCards (selectedCards this ++ [card]) this
      else set_selectedCards (filter (fun c => c <> card) (selectedCards this)) this in
    let g :=
      match Properties.onCardToggle (properties this) with
      | Some onCardToggle => onCardToggle (choosingPlayer this) card g
      | None => g
      end in
    (true, (this, g)).

Definition clearSelection (this : t) (g : Game.t) : t * Game.t :=
  let g := foldl (fun g card => Game.update_card unmark card g)
                 g (selectedCards this) in
  let this := set_selectedCards [] this in
  let g := foldl (fun g card => Game.update_card (Card.set_selectable false) card g)
                 g (Game.allCards g) in
  let g := foldl (fun g selection =>
                    Game.update_card (restore selection) (Selection.card selection) g)
                 g (previouslySelectedCards this) in
  (this, g).

Definition complete (this : t) (g : Game.t) : t * Game.t :=
  let '(this, g) := clearSelection this g in
  (super_complete this, g).

Definition cardParam (this : t) : CardParam :=
  if (Properties.numCards (properties this) =? 1)%Z
     && negb (Properties.multiSelect (properties this))
  then Single (head (selectedCards this))
  else Collection (selectedCards this).

Definition fireOnSelect (this : t) (g : Game.t) : t * Game.t :=
  let '(accepted, g) :=
    Properties.onSelect (properties this) (choosingPlayer this) (cardParam this) g in
  if accepted then complete this g else clearSelection this g.

Definition onCardClicked (this : t) (player : PlayerRef) (card : CardRef)
    (g : Game.t) : Returned * (t * Game.t) :=
  if negb (bool_decide (player = choosingPlayer this)) then (ReturnedFalse, (this, g))
  else if negb (checkCardCondition this g card) then (ReturnedFalse, (this, g))
  else
    let '(added, (this, g)) := selectCard this card g in
    if negb added then (ReturnedFalse, (this, g))
    else if (Properties.numCards (properties this) =? 1)%Z
            && bool_decide (length (selectedCards this) = 1)
            && negb (Properties.multiSelect (properties this))
    then (ReturnedUndefined, fireOnSelect this g)
    else (ReturnedUndefined, (this, g)).

Definition onMenuCommand (this : t) (player : PlayerRef) (arg : string)
    (g : Game.t) : Returned * (t * Game.t) :=
  if negb (bool_decide (player = choosingPlayer this)) then (ReturnedFalse, (this, g))
  else if negb (String.eqb arg "done") then
    let '(finished, g) :=
      Properties.onMenuCommand (properties this) player arg g in
    if finished then (ReturnedUndefined, complete this g)
    else (ReturnedUndefined, (this, g))
  else if bool_decide (0 < length (selectedCards this))
  then (ReturnedUndefined, fireOnSelect this g)
  else
    let g := Properties.onCancel (properties this) player g in
    (ReturnedUndefined, complete this g).

End SelectCardPrompt.


(** ** Loops that assign fields of cards *)

(** The shape of every [_.each] loop of the prompt: for each element [x]
    the card [K x] is updated by [F x]. *)
Definition update_loop {A : Type} (F : A -> Card.t -> Card.t) (K : A -> CardRef)
    (g : Game.t) (l : list A) : Game.t :=
  foldl (fun g x => Game.update_card (F x) (K x) g) g l.

(** ** The life of a prompt *)

Module Session.

(** What the engine does to a prompt on the stack: it forwards card clicks
    and menu commands and calls [continue] in between. *)
Inductive Interaction :=
| CardClicked (player : PlayerRef) (card : CardRef)
| MenuCommand (player : PlayerRef) (arg : string)
| Continue.

Definition step (i : Interaction) (s : SelectCardPrompt.t * Game.t)
    : SelectCardPrompt.t * Game.t :=
  match i with
  | CardClicked player card =>
      snd (SelectCardPrompt.onCardClicked (fst s) player card (snd s))
  | MenuCommand player arg =>
      snd (SelectCardPrompt.onMenuCommand (fst s) player arg (snd s))
  | Continue => (fst s, snd (SelectCardPrompt.continue (fst s) (snd s)))
  end.

Definition run (script : list Interaction) (s : SelectCardPrompt.t * Game.t)
    : SelectCardPrompt.t * Game.t :=
  foldl (fun s i => step i s) s script.

(** Whether a click reaches [fireOnSelect]: the click is taken, the card is
    toggled, and the single-card condition holds afterwards. *)
Definition delivers (this : SelectCardPrompt.t) (player : PlayerRef)
    (card : CardRef) (g : Game.t) : bool :=
  bool_decide (player = SelectCardPrompt.choosingPlayer this)
  && SelectCardPrompt.checkCardCondition this g card
  && (let '(added, (this, _)) := SelectCardPrompt.selectCard this card g in
      added
      && (Properties.numCards (SelectCardPrompt.properties this) =? 1)%Z
      && bool_decide (length (SelectCardPrompt.selectedCards this) = 1)
      && negb (Properties.multiSelect (SelectCardPrompt.properties this))).

(** The states a prompt goes through from its construction while the player
    is still picking: card clicks that do not deliver, and [continue]. *)
Inductive selecting (game : Game.t) (chooser : PlayerRef) (options : Options.t)
    : SelectCardPrompt.t -> Game.t -> Prop :=
| selecting_new this g :
    SelectCardPrompt.new game chooser options = Returns (this, g) ->
    selecting game chooser options this g
| selecting_click this g player card :
    selecting game chooser options this g ->
    delivers this player card g = false ->
    selecting game chooser options
      (fst (snd (SelectCardPrompt.onCardClicked this player card g)))
      (snd (snd (SelectCardPrompt.onCardClicked this player card g)))
| selecting_continue this g :
    selecting game chooser options this g ->
    selecting game chooser options this
      (snd (SelectCardPrompt.continue this g)).

(** Exactly one of the two stat options is present. *)
Definition half_configured (options : Options.t) : Prop :=
  (is_Some (Options.maxStat options) /\ Options.cardStat options = None)
  \/ (Options.maxStat options = None /\ is_Some (Options.cardStat options)).

(** The caller's eligibility predicate; a missing one accepts every card. *)
Definition eligible (options : Options.t) (g : Game.t) (card : CardRef) : bool :=
  match Options.cardCondition options with
  | Some cardCondition => cardCondition g card
  | None => true
  end.

(** The sum of the stat over a selection. *)
Definition stat_total (cardStat : Game.t -> CardRef -> Z) (g : Game.t)
    (selection : list CardRef) : Z :=
  foldr (fun c sum => (cardStat g c + sum)%Z) 0%Z selection.

(** The parts of a prompt that no method assigns after construction. *)
Definition same_configuration (this this' : SelectCardPrompt.t) : Prop :=
  SelectCardPrompt.choosingPlayer this' = SelectCardPrompt.choosingPlayer this
  /\ SelectCardPrompt.properties this' = SelectCardPrompt.properties this
  /\ SelectCardPrompt.cardCondition this' = SelectCardPrompt.cardCondition this
  /\ SelectCardPrompt.previouslySelectedCards this' =
     SelectCardPrompt.previouslySelectedCards this.

(** The cardinality test at the top of [selectCard]. *)
Definition blocked (this : SelectCardPrompt.t) (card : CardRef) : bool :=
  negb (Properties.numCards (SelectCardPrompt.properties this) =? 0)%Z
  && (Properties.numCards (SelectCardPrompt.properties this)
      <=? Z.of_nat (length (SelectCardPrompt.selectedCards this)))%Z
  && negb (bool_decide (card ∈ SelectCardPrompt.selectedCards this)).

(** The game once [selectCard] has flipped the card's marker. *)
Definition toggled (this : SelectCardPrompt.t) (card : CardRef) (g : Game.t) : Game.t :=
  if negb (bool_decide (SelectCardPrompt.choosingPlayer this =
                        Card.controller (Game.cards g card)))
  then Game.update_card
         (fun c => Card.set_opponentSelected (negb (Card.opponentSelected c)) c)
         card g
  else Game.update_card
         (fun c => Card.set_selected (negb (Card.selected c)) c) card g.

(** The selection once [selectCard] has followed the markers. *)
Definition relisted (this : SelectCardPrompt.t) (card : CardRef) (g : Game.t)
    : SelectCardPrompt.t :=
  if SelectCardPrompt.marked (Game.cards (toggled this card g) card)
  then SelectCardPrompt.set_selectedCards
         (SelectCardPrompt.selectedCards this ++ [card]) this
  else SelectCardPrompt.set_selectedCards
         (filter (fun c => c <> card) (SelectCardPrompt.selectedCards this)) this.

(** The game once the toggle callback, if any, has run. *)
Definition notified (this : SelectCardPrompt.t) (card : CardRef) (g : Game.t) : Game.t :=
  match Properties.onCardToggle (SelectCardPrompt.properties this) with
  | Some onCardToggle => onCardToggle (SelectCardPrompt.choosingPlayer this) card g
  | None => g
  end.

(** The marker [selectCard] toggles on a card is set and the other is not. *)
Definition own_marked (chooser : PlayerRef) (c : Card.t) : bool :=
  if bool_decide (chooser = Card.controller c)
  then Card.selected c && negb (Card.opponentSelected c)
  else Card.opponentSelected c && negb (Card.selected c).

(** A callback result [g'] carries the selection markers of [g]. *)
Definition markers_kept (g g' : Game.t) : Prop :=
  forall c,
    Card.selected (Game.cards g' c) = Card.selected (Game.cards g c)
    /\ Card.opponentSelected (Game.cards g' c) =
       Card.opponentSelected (Game.cards g c).

Definition controllers_kept (g g' : Game.t) : Prop :=
  forall c, Card.controller (Game.cards g' c) = Card.controller (Game.cards g c).

Definition collection_kept (g g' : Game.t) : Prop :=
  Game.allCards g' = Game.allCards g.

(** The caller's callbacks leave the selection markers and the card
    collection alone. *)
Record callbacks_keep_markers (p : Properties.t) : Prop := {
  onSelect_keeps : forall player param g,
    markers_kept g (snd (Properties.onSelect p player param g))
    /\ collection_kept g (snd (Properties.onSelect p player param g));
  onMenuCommand_keeps : forall player arg g,
    markers_kept g (snd (Properties.onMenuCommand p player arg g))
    /\ collection_kept g (snd (Properties.onMenuCommand p player arg g));
  onCancel_keeps : forall player g,
    markers_kept g (Properties.onCancel p player g)
    /\ collection_kept g (Properties.onCancel p player g);
  onCardToggle_keeps : forall f player card g,
    Properties.onCardToggle p = Some f ->
    markers_kept g (f player card g) /\ collection_kept g (f player card g)
}.

(** The toggle callback leaves markers and controllers alone. *)
Definition toggle_inert (options : Options.t) : Prop :=
  forall f player card g,
    Options.onCardToggle options = Some f ->
    markers_kept g (f player card g) /\ controllers_kept g (f player card g).

(** Every marked card is one of the game's cards. *)
Definition marked_in_collection (g : Game.t) : Prop :=
  forall c, SelectCardPrompt.marked (Game.cards g c) = true -> c ∈ Game.allCards g.

(** The markers of the cards of [before] are back in [after], nothing is
    highlighted, and no marker exists that [before] did not have. *)
Record restored (before after : Game.t) : Prop := {
  restored_markers : forall c, c ∈ Game.allCards before ->
    Card.selected (Game.cards after c) = Card.selected (Game.cards before c)
    /\ Card.opponentSelected (Game.cards after c) =
       Card.opponentSelected (Game.cards before c);
  restored_highlight : forall c, c ∈ Game.allCards before ->
    Card.selectable (Game.cards after c) = false;
  restored_residue : forall c,
    SelectCardPrompt.marked (Game.cards after c) = true ->
    SelectCardPrompt.marked (Game.cards before c) = true
}.

(** The working selection and the markers agree: no card is listed twice,
    the listed cards carry their own marker and nothing else, the other
    cards carry no marker, and a positive bound is respected. *)
Record consistent (this : SelectCardPrompt.t) (g : Game.t) : Prop := {
  consistent_nodup : NoDup (SelectCardPrompt.selectedCards this);
  consistent_members : forall c,
    c ∈ SelectCardPrompt.selectedCards this ->
    own_marked (SelectCardPrompt.choosingPlayer this) (Game.cards g c) = true;
  consistent_others : forall c,
    c ∉ SelectCardPrompt.selectedCards this ->
    SelectCardPrompt.marked (Game.cards g c) = false;
  consistent_bound :
    (0 < Properties.numCards (SelectCardPrompt.properties this))%Z ->
    (Z.of_nat (length (SelectCardPrompt.selectedCards this))
     <= Properties.numCards (SelectCardPrompt.properties this))%Z
}.

(** The snapshot the constructor takes of [before]. *)
Definition prior (before : Game.t) : list Selection.t :=
  SelectCardPrompt.snapshot before <$>
    filter (fun card => SelectCardPrompt.marked (Game.cards before card))
           (Game.allCards before).

(** The prompt still holds the snapshot of [before], the card collection is
    that of [before], and every marker present is a working marker of a
    selected card or was there in [before]. *)
Record tracked (before : Game.t) (this : SelectCardPrompt.t) (g : Game.t) : Prop := {
  tracked_previous : SelectCardPrompt.previouslySelectedCards this = prior before;
  tracked_collection : Game.allCards g = Game.allCards before;
  tracked_marks : forall c,
    SelectCardPrompt.marked (Game.cards g c) = true ->
    c ∈ SelectCardPrompt.selectedCards this
    \/ SelectCardPrompt.marked (Game.cards before c) = true
}.

End Session.

(** ** Concrete games used to run the code *)

Module Examples.

Definition blank (type : string) (controller : PlayerRef) : Card.t :=
  Card.mk type controller controller "play area" false None None false false false.

(** Card 0 sits in the play area with card 1 noted as its composed part,
    but card 0 is not flagged gigantic. *)
Definition composite_cards (c : CardRef) : Card.t :=
  match c with
  | 0 => Card.mk "creature" 0 0 "play area" false (Some 1) None false false false
  | _ => blank "creature" 0
  end.

Definition composite_game : Game.t :=
  Game.mk [0; 1; 2] composite_cards (fun _ => Player.mk []).

(** The same, with the gigantic flag set on card 0. *)
Definition gigantic_cards (c : CardRef) : Card.t :=
  match c with
  | 0 => Card.mk "creature" 0 0 "play area" true (Some 1) None false false false
  | _ => blank "creature" 0
  end.

Definition gigantic_game : Game.t :=
  Game.mk [0; 1; 2] gigantic_cards (fun _ => Player.mk []).

(** Card 0 lies in a discard pile. *)
Definition discarded_game : Game.t :=
  Game.update_card (Card.set_location "discard") 0 gigantic_game.

Definition purge_by (actor : PlayerRef) : PurgeAction.t :=
  PurgeAction.with_purgedBy actor PurgeAction.new.

Definition some_context : Context.t := Context.mk 5 None.

(** A reaction to leaves-play that copies the location it sees on the
    leaving card onto card 2. *)
Definition observer : Reaction.t :=
  Reaction.mk "onCardLeavesPlay" (fun _ _ => true)
    (fun params g =>
       Game.update_card
         (Card.set_location (Card.location (Game.cards g (EventParams.card params)))) 2 g).

(** Two characters of player 0; card 0 carries a marker left by the
    opponent's selection. *)
Definition table_cards (c : CardRef) : Card.t :=
  match c with
  | 0 => Card.mk "character" 0 0 "play area" false None None false true false
  | 1 => blank "character" 0
  | 2 => blank "character" 1
  | _ => blank "plot" 0
  end.

Definition table : Game.t :=
  Game.mk [0; 1; 2; 3] table_cards (fun _ => Player.mk []).

(** A stat bound without its extractor. *)
Definition capped_options : Options.t :=
  Options.mk None false None None None (Some (fun _ => 3%Z)) None None None
             None None None None None.

(** Printed power as the stat: the card's number. *)
Definition power (g : Game.t) (c : CardRef) : Z := Z.of_nat c.

Definition stat_options : Options.t :=
  Options.mk (Some 0%Z) false None None None (Some (fun _ => 3%Z)) (Some power)
             None None None None None None None.

(** One card wanted, delivered as an array, and a caller that turns every
    delivery down. *)
Definition refusing_options : Options.t :=
  Options.mk (Some 1%Z) true None None None None None None None
             (Some (fun _ _ g => (false, g))) None None None None.

Definition two_card_options : Options.t :=
  Options.mk (Some 2%Z) false None None None None None None None
             None None None None None.

Definition started (options : Options.t) : SelectCardPrompt.t * Game.t :=
  match SelectCardPrompt.new table 0 options with
  | Returns s => s
  | Throws _ => (SelectCardPrompt.mk 0 SelectCardPrompt.defaultProperties
                   (fun _ _ _ => true) [] [] false, table)
  end.

(** The prompt for two cards after clicks on card 1 (the chooser's own)
    and on card 2 (the opponent's). *)
Definition picked_one : SelectCardPrompt.t * Game.t :=
  snd (SelectCardPrompt.onCardClicked
         (fst (started two_card_options)) 0 1 (snd (started two_card_options))).

Definition picked_two : SelectCardPrompt.t * Game.t :=
  snd (SelectCardPrompt.onCardClicked (fst picked_one) 0 2 (snd picked_one)).

(** [continue], then clicks on cards 1 and 0; "done" comes next. *)
Definition picking : list Session.Interaction :=
  [Session.Continue; Session.CardClicked 0 1; Session.CardClicked 0 0].

(** The refusing prompt after a click on card 1, a refused "done" and a
    click on card 0, whose marker from before the prompt is back. *)
Definition after_refusal : SelectCardPrompt.t * Game.t :=
  Session.run
    [Session.CardClicked 0 1; Session.MenuCommand 0 "done"; Session.CardClicked 0 0]
    (started refusing_options).

End Examples.

(** ** Further notions used for the remaining methods *)

Module Frame.

(** Everything of a card but the three flags the prompt writes. *)
Definition fixed_part (c : Card.t)
    : string * PlayerRef * PlayerRef * string * bool * option CardRef
      * option PlayerRef :=
  (Card.getType c, Card.owner c, Card.controller c, Card.location c,
   Card.gigantic c, Card.composedPart c, Card.purgedBy c).

(** [g'] differs from [g] at most in the flags [selected],
    [opponentSelected] and [selectable] of cards. *)
Definition flags_only (g g' : Game.t) : Prop :=
  Game.allCards g' = Game.allCards g
  /\ (forall p, Game.players g' p = Game.players g p)
  /\ forall c, fixed_part (Game.cards g' c) = fixed_part (Game.cards g c).

(** [g'] differs from [g] at most in the flag [selectable] of cards. *)
Definition highlight_only (g g' : Game.t) : Prop :=
  Game.allCards g' = Game.allCards g
  /\ (forall p, Game.players g' p = Game.players g p)
  /\ forall c,
       Card.set_selectable false (Game.cards g' c) =
       Card.set_selectable false (Game.cards g c).

(** What [highlightSelectableCards] does for one card of the collection. *)
Definition visit (this : SelectCardPrompt.t) (g : Game.t) (card : CardRef) : Game.t :=
  if SelectCardPrompt.includes
       (Properties.cardType (SelectCardPrompt.properties this))
       (Card.getType (Game.cards g card))
  then Game.update_card
         (Card.set_selectable (SelectCardPrompt.callCardCondition this g card)) card g
  else g.

(** A condition on cards that does not look at [selectable] flags. *)
Definition ignores_highlight (condition : Game.t -> CardRef -> bool) : Prop :=
  forall g g' card, highlight_only g g' -> condition g' card = condition g card.

(** The caller's callbacks change at most the three flags. *)
Record callbacks_write_flags_only (p : Properties.t) : Prop := {
  onSelect_flags : forall player param g,
    flags_only g (snd (Properties.onSelect p player param g));
  onMenuCommand_flags : forall player arg g,
    flags_only g (snd (Properties.onMenuCommand p player arg g));
  onCancel_flags : forall player g,
    flags_only g (Properties.onCancel p player g);
  onCardToggle_flags : forall f player card g,
    Properties.onCardToggle p = Some f -> flags_only g (f player card g)
}.

(** [moveCard] leaves the purged lists and the gigantic flags alone. *)
Definition keeps_purged_lists
    (moveCard : PlayerRef -> CardRef -> string -> Game.t -> Game.t) : Prop :=
  forall owner card target g,
    (forall p, Player.purgedCards (Game.players (moveCard owner card target g) p) =
               Player.purgedCards (Game.players g p))
    /\ (forall c, Card.gigantic (Game.cards (moveCard owner card target g) c) =
                  Card.gigantic (Game.cards g c)).

(** An interaction by somebody who is not the deciding player. *)
Definition spectator (chooser : PlayerRef) (i : Session.Interaction) : Prop :=
  match i with
  | Session.CardClicked player _ => player <> chooser
  | Session.MenuCommand player _ => player <> chooser
  | Session.Continue => False
  end.

(** Whether [onSelect] takes the selection the prompt would deliver now. *)
Definition accepted (this : SelectCardPrompt.t) (g : Game.t) : bool :=
  fst (Properties.onSelect (SelectCardPrompt.properties this)
         (SelectCardPrompt.choosingPlayer this)
         (SelectCardPrompt.cardParam this) g).

(** Why a step completes a prompt: a click that delivers and is accepted;
    a command other than "done" that the caller's handler confirms; "done"
    with nothing selected; "done" with a selection that is accepted. *)
Definition completes (this : SelectCardPrompt.t) (g : Game.t)
    (i : Session.Interaction) : Prop :=
  match i with
  | Session.CardClicked player card =>
      Session.delivers this player card g = true
      /\ accepted (fst (snd (SelectCardPrompt.selectCard this card g)))
                  (snd (snd (SelectCardPrompt.selectCard this card g))) = true
  | Session.MenuCommand player arg =>
      player = SelectCardPrompt.choosingPlayer this
      /\ ((arg <> "done"
           /\ fst (Properties.onMenuCommand (SelectCardPrompt.properties this)
                     player arg g) = true)
          \/ (arg = "done" /\ SelectCardPrompt.selectedCards this = [])
          \/ (arg = "done" /\ SelectCardPrompt.selectedCards this <> []
              /\ accepted this g = true))
  | Session.Continue => False
  end.

(** The stat and the cap do not depend on the state of the game, and no
    stat is negative. *)
Record fixed_stats (maxStat : Game.t -> Z) (cardStat : Game.t -> CardRef -> Z)
    : Prop := {
  fixed_cap : forall g g', maxStat g' = maxStat g;
  fixed_stat : forall g g' c, cardStat g' c = cardStat g c;
  stat_nonneg : forall g c, (0 <= cardStat g c)%Z
}.

(** A non-empty selection stays within the cap. *)
Definition within_cap (maxStat : Game.t -> Z) (cardStat : Game.t -> CardRef -> Z)
    (this : SelectCardPrompt.t) (g : Game.t) : Prop :=
  SelectCardPrompt.selectedCards this <> [] ->
  (Session.stat_total cardStat g (SelectCardPrompt.selectedCards this) <= maxStat g)%Z.

(** The card types a prompt built from [options] lets through. *)
Definition listed_types (options : Options.t) : list string :=
  match Options.cardType options with
  | Some (Types l) => l
  | Some (OneType s) => [s]
  | None => ["attachment"; "character"; "event"; "location"]
  end.

(** No card carries a selection marker. *)
Definition unmarked (g : Game.t) : Prop :=
  forall c, SelectCardPrompt.marked (Game.cards g c) = false.

(** The caller's callbacks leave the selection markers and the controllers
    of all cards alone. *)
Record callbacks_inert (p : Properties.t) : Prop := {
  onSelect_inert : forall player param g,
    Session.markers_kept g (snd (Properties.onSelect p player param g))
    /\ Session.controllers_kept g (snd (Properties.onSelect p player param g));
  onMenuCommand_inert : forall player arg g,
    Session.markers_kept g (snd (Properties.onMenuCommand p player arg g))
    /\ Session.controllers_kept g (snd (Properties.onMenuCommand p player arg g));
  onCancel_inert : forall player g,
    Session.markers_kept g (Properties.onCancel p player g)
    /\ Session.controllers_kept g (Properties.onCancel p player g);
  onCardToggle_inert : forall f player card g,
    Properties.onCardToggle p = Some f ->
    Session.markers_kept g (f player card g)
    /\ Session.controllers_kept g (f player card g)
}.

(** A prompt built from [options] for [chooser] that has nothing to
    restore, with selection and markers in agreement. *)
Record steady (chooser : PlayerRef) (options : Options.t)
    (this : SelectCardPrompt.t) (g : Game.t) : Prop := {
  steady_properties :
    SelectCardPrompt.properties this = SelectCardPrompt.resolve options;
  steady_chooser : SelectCardPrompt.choosingPlayer this = chooser;
  steady_previous : SelectCardPrompt.previouslySelectedCards this = [];
  steady_consistent : Session.consistent this g
}.

End Frame.

Module MoreExamples.

(** A prompt on behalf of card "Foreign Legion" with two extra buttons and
    a title of its own. *)
Definition titled_options : Options.t :=
  Options.mk (Some 2%Z) false
    (Some [Button.mk "Skip" "skip"; Button.mk "Back" "back"])
    (Some "Choose two creatures") None None None None (Some (OneType "creature"))
    None None None None (Some (Source.mk "Foreign Legion")).

(** Cards 0 and 1 are creatures, card 2 is an artifact; card 1 is
    highlighted from before. *)
Definition board_cards (c : CardRef) : Card.t :=
  match c with
  | 0 => Card.mk "creature" 0 0 "play area" false None None false false false
  | 1 => Card.mk "creature" 1 1 "play area" false None None false false true
  | _ => Card.mk "artifact" 0 0 "play area" false None None false false true
  end.

Definition board : Game.t :=
  Game.mk [0; 1; 2] board_cards (fun _ => Player.mk [7]).

Definition titled : SelectCardPrompt.t * Game.t :=
  match SelectCardPrompt.new board 0 titled_options with
  | Returns s => s
  | Throws _ => (SelectCardPrompt.mk 0 SelectCardPrompt.defaultProperties
                   (fun _ _ _ => true) [] [] false, board)
  end.

(** Four characters, the odd ones controlled by player 1; no card carries
    a marker. *)
Definition plain : Game.t :=
  Game.mk [0; 1; 2; 3] (fun c => Examples.blank "character" (Nat.modulo c 2))
          (fun _ => Player.mk []).

(** A caller that turns every delivery down. *)
Definition refuse (player : PlayerRef) (param : CardParam) (g : Game.t)
    : bool * Game.t :=
  (false, g).

(** One card wanted as a single value, two cards wanted, and any number of
    cards under a stat cap of 3; each with the refusing caller. *)
Definition single_refusing : Options.t :=
  Options.mk None false None None None None None None None
             (Some refuse) None None None None.

Definition pair_refusing : Options.t :=
  Options.mk (Some 2%Z) false None None None None None None None
             (Some refuse) None None None None.

Definition capped_refusing : Options.t :=
  Options.mk (Some 0%Z) false None None None (Some (fun _ => 3%Z))
             (Some Examples.power) None None (Some refuse) None None None None.

(** A negative number of cards wanted. *)
Definition negative_options : Options.t :=
  Options.mk (Some (-1)%Z) false None None None None None None None
             None None None None None.

(** One card wanted as an array, with the refusing caller. *)
Definition array_refusing : Options.t :=
  Options.mk (Some 1%Z) true None None None None None None None
             (Some refuse) None None None None.

(** The prompt of player 0 on [plain]. *)
Definition begun (options : Options.t) : SelectCardPrompt.t * Game.t :=
  match SelectCardPrompt.new plain 0 options with
  | Returns s => s
  | Throws _ => (SelectCardPrompt.mk 0 SelectCardPrompt.defaultProperties
                   (fun _ _ _ => true) [] [] false, plain)
  end.

End MoreExamples.

(** * Properties *)

(** ** Store lemmas *)

Lemma cards_update_card f c g c' :
  Game.cards (Game.update_card f c g) c' =
  if decide (c = c') then f (Game.cards g c) else Game.cards g c'.
Proof.
  unfold Game.update_card; simpl. unfold alter, fn_alter.
  destruct (decide (c = c')); subst; reflexivity.
Qed.

Lemma players_update_player f p g p' :
  Game.players (Game.update_player f p g) p' =
  if decide (p = p') then f (Game.players g p) else Game.players g p'.
Proof.
  unfold Game.update_player; simpl. unfold alter, fn_alter.
  destruct (decide (p = p')); subst; reflexivity.
Qed.

(** ** PurgeAction *)

(** C1.  The handler of the event built by [getEvent] looks at the card's
    location when it runs.  In the play area it hands the purge to
    [game.raiseEvent] as the handler of an "onCardLeavesPlay" event carrying
    the card and the context, whatever [raiseEvent] is; with the dispatcher
    of the spec this means the purge runs on the state left by the reactions
    to that event.  Anywhere else the result is that of the purge alone, for
    every [raiseEvent]: no event is raised. *)
Theorem getEvent_resolution
    (moveCard : PlayerRef -> CardRef -> string -> Game.t -> Game.t)
    (this : PurgeAction.t) (card : CardRef) (context : Context.t) (g : Game.t) :
  let params := EventParams.mk card context in
  let resolved raiseEvent :=
    Event.handler (PurgeAction.getEvent raiseEvent moveCard this card context) g in
  (Card.location (Game.cards g card) = "play area" ->
     (forall raiseEvent,
        resolved raiseEvent =
        raiseEvent "onCardLeavesPlay" params (PurgeAction.purge moveCard this card) g)
     /\ (forall reactions,
        resolved (dispatch reactions) =
        PurgeAction.purge moveCard this card
          (settle reactions "onCardLeavesPlay" params g)))
  /\ (Card.location (Game.cards g card) <> "play area" ->
      forall raiseEvent, resolved raiseEvent = PurgeAction.purge moveCard this card g).
Proof.
  intros params resolved. subst resolved params. simpl. split.
  - intros Hloc. rewrite Hloc. simpl. split; reflexivity.
  - intros Hloc raiseEvent.
    destruct (String.eqb_spec (Card.location (Game.cards g card)) "play area");
      [contradiction | reflexivity].
Qed.

(** In the play area the reaction sees the card before it moves and the purge
    follows; from the discard pile the registered reaction never runs. *)
Lemma getEvent_resolution_witness :
  let in_play :=
    Event.handler
      (PurgeAction.getEvent (dispatch [Examples.observer]) relocate
         (Examples.purge_by 5) 0 Examples.some_context) Examples.gigantic_game in
  let elsewhere :=
    Event.handler
      (PurgeAction.getEvent (dispatch [Examples.observer]) relocate
         (Examples.purge_by 5) 0 Examples.some_context) Examples.discarded_game in
  (Card.location (Game.cards Examples.gigantic_game 0) = "play area"
   /\ in_play =
      PurgeAction.purge relocate (Examples.purge_by 5) 0
        (settle [Examples.observer] "onCardLeavesPlay"
           (EventParams.mk 0 Examples.some_context) Examples.gigantic_game)
   /\ Card.location (Game.cards in_play 2) = "play area"
   /\ Card.location (Game.cards in_play 0) = "purged")
  /\ (Card.location (Game.cards Examples.discarded_game 0) <> "play area"
      /\ elsewhere =
         PurgeAction.purge relocate (Examples.purge_by 5) 0 Examples.discarded_game).
Proof.
  intros in_play elsewhere.
  destruct (getEvent_resolution relocate (Examples.purge_by 5) 0
              Examples.some_context Examples.gigantic_game) as [Hplay _].
  destruct (getEvent_resolution relocate (Examples.purge_by 5) 0
              Examples.some_context Examples.discarded_game) as [_ Hother].
  split.
  - split; [reflexivity |].
    destruct (Hplay eq_refl) as [_ Hsettled].
    split; [exact (Hsettled [Examples.observer]) |].
    split; reflexivity.
  - assert (Hne : Card.location (Game.cards Examples.discarded_game 0) <> "play area")
      by (vm_compute; discriminate).
    split; [exact Hne | exact (Hother Hne (dispatch [Examples.observer]))].
Defined.

Lemma purged_by_stamp actor c g c' :
  Card.purgedBy (Game.cards (PurgeAction.stamp actor c g) c') =
  if decide (c = c') then Some actor else Card.purgedBy (Game.cards g c').
Proof.
  unfold PurgeAction.stamp. rewrite cards_update_card.
  destruct (decide (c = c')); subst; reflexivity.
Qed.

Lemma location_stamp actor c g c' :
  Card.location (Game.cards (PurgeAction.stamp actor c g) c') =
  Card.location (Game.cards g c').
Proof.
  unfold PurgeAction.stamp. rewrite cards_update_card.
  destruct (decide (c = c')); subst; reflexivity.
Qed.

Lemma cards_push_purged actor c g :
  Game.cards (PurgeAction.push_purged actor c g) = Game.cards g.
Proof. reflexivity. Qed.






(** ** SelectCardPrompt: construction and configuration *)

Lemma new_returns game chooser options :
  SelectCardPrompt.new game chooser options =
  Returns (SelectCardPrompt.savePreviouslySelectedCards
             (SelectCardPrompt.mk chooser (SelectCardPrompt.resolve options)
                match Options.maxStat options, Options.cardStat options with
                | Some maxStat, Some cardStat =>
                    SelectCardPrompt.createMaxStatCardCondition
                      (SelectCardPrompt.resolve options) maxStat cardStat
                | _, _ => fun _ => Properties.cardCondition (SelectCardPrompt.resolve options)
                end [] [] false) game).
Proof. reflexivity. Qed.

Lemma resolve_cardCondition options g card :
  Properties.cardCondition (SelectCardPrompt.resolve options) g card =
  Session.eligible options g card.
Proof.
  unfold Session.eligible, SelectCardPrompt.resolve. simpl.
  destruct (Options.cardCondition options); reflexivity.
Qed.

(** C3 as stated fails: with a maximum stat and no stat extractor the
    constructor returns a prompt; it does not throw. *)
Lemma half_configured_constructs :
  Session.half_configured Examples.capped_options
  /\ (forall error,
        SelectCardPrompt.new Examples.table 0 Examples.capped_options <> Throws error)
  /\ exists this g,
       SelectCardPrompt.new Examples.table 0 Examples.capped_options = Returns (this, g).
Proof.
  split; [left; split; [eexists |]; reflexivity |].
  split; [intros error; rewrite new_returns; discriminate |].
  eexists _, _. rewrite new_returns. reflexivity.
Qed.

(** C3, as amended.  When exactly one of [maxStat] and [cardStat] is
    present the constructor returns a prompt, and that prompt's card
    condition is the caller's eligibility predicate alone (every card when
    there is none), whatever cards are selected: no stat limit applies. *)
Theorem half_configured_ignored (game : Game.t) (chooser : PlayerRef)
    (options : Options.t) :
  Session.half_configured options ->
  exists this g,
    SelectCardPrompt.new game chooser options = Returns (this, g)
    /\ forall selection g' card,
         SelectCardPrompt.cardCondition this selection g' card =
         Session.eligible options g' card.
Proof.
  intros Hhalf. rewrite new_returns.
  destruct (SelectCardPrompt.savePreviouslySelectedCards _ game) as [this g] eqn:Hsave.
  exists this, g. split; [reflexivity |].
  intros selection g' card.
  unfold SelectCardPrompt.savePreviouslySelectedCards in Hsave.
  injection Hsave as <- _. simpl.
  destruct Hhalf as [[_ Hstat] | [Hmax _]].
  - rewrite Hstat. destruct (Options.maxStat options); apply resolve_cardCondition.
  - rewrite Hmax. apply resolve_cardCondition.
Qed.

Lemma half_configured_ignored_witness :
  Session.half_configured Examples.capped_options
  /\ exists this g,
       SelectCardPrompt.new Examples.table 0 Examples.capped_options = Returns (this, g)
       /\ forall selection g' card,
            SelectCardPrompt.cardCondition this selection g' card =
            Session.eligible Examples.capped_options g' card.
Proof.
  assert (H : Session.half_configured Examples.capped_options)
    by (left; split; [eexists |]; reflexivity).
  split; [exact H |].
  exact (half_configured_ignored Examples.table 0 Examples.capped_options H).
Defined.

Lemma stat_sum_foldl (cardStat : Game.t -> CardRef -> Z) g selection (acc : Z) :
  foldl (fun sum c => (sum + cardStat g c)%Z) acc selection =
  (acc + Session.stat_total cardStat g selection)%Z.
Proof.
  revert acc. induction selection as [| c selection IH]; intros acc; simpl.
  - lia.
  - rewrite IH. lia.
Qed.

Lemma createMaxStatCardCondition_spec properties maxStat cardStat selection g card :
  SelectCardPrompt.createMaxStatCardCondition properties maxStat cardStat
    selection g card = true <->
  Properties.cardCondition properties g card = true
  /\ ((cardStat g card + Session.stat_total cardStat g selection <= maxStat g)%Z
      \/ card ∈ selection).
Proof.
  unfold SelectCardPrompt.createMaxStatCardCondition.
  rewrite stat_sum_foldl, Z.add_0_l.
  destruct (Properties.cardCondition properties g card); simpl.
  - rewrite orb_true_iff, Z.leb_le, bool_decide_eq_true. tauto.
  - split; [discriminate | intros [? _]; discriminate].
Qed.

(** ** What the methods leave alone *)

Lemma same_configuration_refl this : Session.same_configuration this this.
Proof. repeat split. Qed.

Lemma same_configuration_trans a b c :
  Session.same_configuration a b -> Session.same_configuration b c ->
  Session.same_configuration a c.
Proof.
  unfold Session.same_configuration. intros (? & ? & ? & ?) (? & ? & ? & ?).
  repeat split; congruence.
Qed.

Lemma selectCard_configuration this card g :
  Session.same_configuration this (fst (snd (SelectCardPrompt.selectCard this card g))).
Proof.
  unfold SelectCardPrompt.selectCard.
  repeat match goal with |- context [if ?b then _ else _] => destruct b end;
    repeat split.
Qed.

Lemma clearSelection_configuration this g :
  Session.same_configuration this (fst (SelectCardPrompt.clearSelection this g)).
Proof. repeat split. Qed.

Lemma complete_configuration this g :
  Session.same_configuration this (fst (SelectCardPrompt.complete this g)).
Proof. repeat split. Qed.

Lemma fireOnSelect_configuration this g :
  Session.same_configuration this (fst (SelectCardPrompt.fireOnSelect this g)).
Proof.
  unfold SelectCardPrompt.fireOnSelect.
  destruct (Properties.onSelect _ _ _ g) as [[] g']; repeat split.
Qed.

Lemma onCardClicked_configuration this player card g :
  Session.same_configuration this
    (fst (snd (SelectCardPrompt.onCardClicked this player card g))).
Proof.
  unfold SelectCardPrompt.onCardClicked.
  destruct (negb (bool_decide _)); [apply same_configuration_refl |].
  destruct (negb (SelectCardPrompt.checkCardCondition _ _ _));
    [apply same_configuration_refl |].
  pose proof (selectCard_configuration this card g) as Hsel.
  destruct (SelectCardPrompt.selectCard this card g) as [added [this' g']].
  simpl in Hsel.
  destruct (negb added); [exact Hsel |].
  match goal with |- context [if ?b then _ else _] => destruct b end;
    [| exact Hsel].
  simpl. eapply same_configuration_trans; [exact Hsel |].
  apply fireOnSelect_configuration.
Qed.

Lemma onMenuCommand_configuration this player arg g :
  Session.same_configuration this
    (fst (snd (SelectCardPrompt.onMenuCommand this player arg g))).
Proof.
  unfold SelectCardPrompt.onMenuCommand.
  destruct (negb (bool_decide _)); [apply same_configuration_refl |].
  destruct (negb (String.eqb arg "done")).
  - destruct (Properties.onMenuCommand _ _ _ g) as [[] g'];
      [apply complete_configuration | apply same_configuration_refl].
  - destruct (bool_decide _);
      [apply fireOnSelect_configuration | apply complete_configuration].
Qed.

Lemma step_configuration i s :
  Session.same_configuration (fst s) (fst (Session.step i s)).
Proof.
  destruct i as [player card | player arg |]; simpl.
  - apply onCardClicked_configuration.
  - apply onMenuCommand_configuration.
  - apply same_configuration_refl.
Qed.

Lemma run_configuration script s :
  Session.same_configuration (fst s) (fst (Session.run script s)).
Proof.
  revert s. induction script as [| i script IH]; intros s; simpl.
  - apply same_configuration_refl.
  - eapply same_configuration_trans; [apply step_configuration | apply IH].
Qed.

Lemma new_configuration game chooser options this g :
  SelectCardPrompt.new game chooser options = Returns (this, g) ->
  SelectCardPrompt.choosingPlayer this = chooser
  /\ SelectCardPrompt.properties this = SelectCardPrompt.resolve options
  /\ SelectCardPrompt.selectedCards this = []
  /\ SelectCardPrompt.completed this = false.
Proof.
  rewrite new_returns. unfold SelectCardPrompt.savePreviouslySelectedCards.
  intros [= <- _]. repeat split.
Qed.

(** C4.  With both [maxStat] and [cardStat] configured, the card condition
    of the prompt, from construction on and after any interactions, accepts
    a card exactly when the caller's eligibility predicate accepts it and
    either its stat plus the stats of the cards selected at that moment is
    at most [maxStat()] as evaluated on the current state, or the card is
    among the selected cards.  A click is taken under the same condition
    when the card's type is one of the listed types. *)
Theorem stat_condition (game : Game.t) (chooser : PlayerRef) (options : Options.t)
    (maxStat : Game.t -> Z) (cardStat : Game.t -> CardRef -> Z)
    (this : SelectCardPrompt.t) (g1 : Game.t) :
  Options.maxStat options = Some maxStat ->
  Options.cardStat options = Some cardStat ->
  SelectCardPrompt.new game chooser options = Returns (this, g1) ->
  forall script g card,
    let now := fst (Session.run script (this, g1)) in
    let within :=
      Session.eligible options g card = true
      /\ ((cardStat g card
           + Session.stat_total cardStat g (SelectCardPrompt.selectedCards now)
           <= maxStat g)%Z
          \/ card ∈ SelectCardPrompt.selectedCards now) in
    (SelectCardPrompt.callCardCondition now g card = true <-> within)
    /\ (SelectCardPrompt.checkCardCondition now g card = true <->
        SelectCardPrompt.includes
          (Properties.cardType (SelectCardPrompt.properties now))
          (Card.getType (Game.cards g card)) = true
        /\ within).
Proof.
  intros Hmax Hstat Hnew script g card now within.
  assert (Hcall : SelectCardPrompt.callCardCondition now g card = true <-> within).
  { destruct (run_configuration script (this, g1)) as (_ & _ & Hcond & _).
    fold now in Hcond. simpl in Hcond.
    unfold SelectCardPrompt.callCardCondition. rewrite Hcond.
    rewrite new_returns in Hnew.
    unfold SelectCardPrompt.savePreviouslySelectedCards in Hnew.
    injection Hnew as <- _. simpl. rewrite Hmax, Hstat.
    rewrite createMaxStatCardCondition_spec, resolve_cardCondition. reflexivity. }
  split; [exact Hcall |].
  unfold SelectCardPrompt.checkCardCondition.
  rewrite andb_true_iff, Hcall. reflexivity.
Qed.

(** With a cap of 3 and the card number as stat: card 2 on top of card 1
    meets the cap exactly, card 3 on top of card 1 exceeds it, and card 3
    once selected stays eligible. *)
Lemma stat_condition_witness :
  (Options.maxStat Examples.stat_options = Some (fun _ => 3%Z)
   /\ Options.cardStat Examples.stat_options = Some Examples.power
   /\ SelectCardPrompt.new Examples.table 0 Examples.stat_options =
      Returns (Examples.started Examples.stat_options))
  /\ let now :=
       fst (Session.run [Session.CardClicked 0 1] (Examples.started Examples.stat_options)) in
     SelectCardPrompt.selectedCards now = [1]
     /\ SelectCardPrompt.callCardCondition now Examples.table 2 = true
     /\ SelectCardPrompt.callCardCondition now Examples.table 3 = false
     /\ SelectCardPrompt.callCardCondition
          (SelectCardPrompt.set_selectedCards [1; 3] now) Examples.table 3 = true.
Proof.
  split; [repeat split |].
  intros now.
  pose proof (stat_condition Examples.table 0 Examples.stat_options (fun _ => 3%Z)
                Examples.power (fst (Examples.started Examples.stat_options))
                (snd (Examples.started Examples.stat_options))
                eq_refl eq_refl eq_refl [Session.CardClicked 0 1] Examples.table 2)
    as [Hiff _].
  split; [reflexivity |].
  split; [| split; reflexivity].
  apply Hiff. split; [reflexivity |]. left. vm_compute. discriminate.
Defined.

(** ** SelectCardPrompt: card clicks *)

(** C8.  A click by a player other than the chooser, on a card whose type
    is not listed, or on a card the card condition turns down returns
    [false] and hands back the prompt and the game exactly as they were: no
    marker, no selection change, nothing thrown, and the prompt as complete
    or incomplete as before. *)
Theorem illegal_click_ignored (this : SelectCardPrompt.t) (player : PlayerRef)
    (card : CardRef) (g : Game.t) :
  player <> SelectCardPrompt.choosingPlayer this
  \/ SelectCardPrompt.includes (Properties.cardType (SelectCardPrompt.properties this))
       (Card.getType (Game.cards g card)) = false
  \/ SelectCardPrompt.callCardCondition this g card = false ->
  SelectCardPrompt.onCardClicked this player card g = (ReturnedFalse, (this, g))
  /\ Session.step (Session.CardClicked player card) (this, g) = (this, g).
Proof.
  intros Hbad.
  assert (Hclick : SelectCardPrompt.onCardClicked this player card g =
                   (ReturnedFalse, (this, g))).
  { unfold SelectCardPrompt.onCardClicked, SelectCardPrompt.checkCardCondition.
    destruct Hbad as [Hplayer | [Htype | Hcond]].
    - rewrite bool_decide_eq_false_2 by exact Hplayer. reflexivity.
    - rewrite Htype. simpl. destruct (negb (bool_decide _)); reflexivity.
    - rewrite Hcond, andb_false_r. simpl.
      destruct (negb (bool_decide _)); reflexivity. }
  split; [exact Hclick |].
  simpl. rewrite Hclick. reflexivity.
Qed.

(** Card 3 is a plot, which the default card types do not list; player 1 is
    not the chooser. *)
Lemma illegal_click_ignored_witness :
  let s := Examples.started Examples.two_card_options in
  (SelectCardPrompt.includes
     (Properties.cardType (SelectCardPrompt.properties (fst s)))
     (Card.getType (Game.cards (snd s) 3)) = false
   /\ SelectCardPrompt.onCardClicked (fst s) 0 3 (snd s) = (ReturnedFalse, s))
  /\ (1 <> SelectCardPrompt.choosingPlayer (fst s)
      /\ SelectCardPrompt.onCardClicked (fst s) 1 1 (snd s) = (ReturnedFalse, s)).
Proof.
  intros s.
  assert (Htype : SelectCardPrompt.includes
            (Properties.cardType (SelectCardPrompt.properties (fst s)))
            (Card.getType (Game.cards (snd s) 3)) = false) by reflexivity.
  assert (Hplayer : 1 <> SelectCardPrompt.choosingPlayer (fst s))
    by (vm_compute; discriminate).
  split.
  - split; [exact Htype |].
    exact (proj1 (illegal_click_ignored (fst s) 0 3 (snd s)
                    (or_intror (or_introl Htype)))).
  - split; [exact Hplayer |].
    exact (proj1 (illegal_click_ignored (fst s) 1 1 (snd s) (or_introl Hplayer))).
Defined.

(** ** SelectCardPrompt: titles *)

Lemma numCard_undefined properties :
  Properties.get properties "numCard" = JUndefined.
Proof. reflexivity. Qed.

(** C9.  A prompt built without [activePromptTitle] shows the menu title
    "Select undefined cards", whatever [numCards] is and at every moment of
    its life: the default title reads the property [numCard], which the
    options object does not have, so the comparison with 1 fails and
    [undefined] is spliced into the text. *)
Theorem default_title_undefined (game : Game.t) (chooser : PlayerRef)
    (options : Options.t) (this : SelectCardPrompt.t) (g1 : Game.t) :
  Options.activePromptTitle options = None ->
  SelectCardPrompt.new game chooser options = Returns (this, g1) ->
  forall script,
    ActivePrompt.menuTitle (SelectCardPrompt.activePrompt (fst (Session.run script (this, g1))))
    = "Select undefined cards".
Proof.
  intros Htitle Hnew script.
  destruct (run_configuration script (this, g1)) as (_ & Hprops & _).
  destruct (new_configuration _ _ _ _ _ Hnew) as (_ & Hresolved & _).
  simpl in Hprops.
  unfold SelectCardPrompt.activePrompt, SelectCardPrompt.defaultActivePromptTitle.
  simpl. rewrite Hprops, Hresolved. simpl.
  rewrite Htitle. reflexivity.
Qed.

(** The options ask for exactly one card, and the title still says
    "undefined". *)
Lemma default_title_undefined_witness :
  (Options.activePromptTitle Examples.refusing_options = None
   /\ Options.numCards Examples.refusing_options = Some 1%Z
   /\ SelectCardPrompt.new Examples.table 0 Examples.refusing_options =
      Returns (Examples.started Examples.refusing_options))
  /\ ActivePrompt.menuTitle (SelectCardPrompt.activePrompt
                  (fst (Examples.started Examples.refusing_options)))
     = "Select undefined cards".
Proof.
  split; [repeat split |].
  exact (default_title_undefined Examples.table 0 Examples.refusing_options
           (fst (Examples.started Examples.refusing_options))
           (snd (Examples.started Examples.refusing_options))
           eq_refl eq_refl []).
Defined.


(** ** Loops over cards *)

Lemma foldl_invariant {A S : Type} (Q : S -> Prop) (f : S -> A -> S) (l : list A) (s : S) :
  (forall s x, x ∈ l -> Q s -> Q (f s x)) -> Q s -> Q (foldl f s l).
Proof.
  revert s. induction l as [| a l IH]; intros s Hstep Hs; simpl; [exact Hs |].
  apply IH.
  - intros s' x Hx. apply Hstep. right. exact Hx.
  - apply Hstep; [left | exact Hs].
Qed.

Section UpdateLoop.
Context {A : Type} (F : A -> Card.t -> Card.t) (K : A -> CardRef).

Lemma update_loop_allCards g l :
  Game.allCards (update_loop F K g l) = Game.allCards g.
Proof.
  unfold update_loop.
  apply (foldl_invariant (fun g' => Game.allCards g' = Game.allCards g));
    [intros s x _ Hs; exact Hs | reflexivity].
Qed.

Lemma update_loop_players g l :
  Game.players (update_loop F K g l) = Game.players g.
Proof.
  unfold update_loop.
  apply (foldl_invariant (fun g' => Game.players g' = Game.players g));
    [intros s x _ Hs; exact Hs | reflexivity].
Qed.

(** A property of one card that every update of that card keeps. *)
Lemma update_loop_kept (P : Card.t -> Prop) (c : CardRef) g l :
  (forall x card, x ∈ l -> K x = c -> P card -> P (F x card)) ->
  P (Game.cards g c) -> P (Game.cards (update_loop F K g l) c).
Proof.
  intros Hkeep. unfold update_loop.
  apply (foldl_invariant (fun g' => P (Game.cards g' c))).
  intros s x Hx Hs. rewrite cards_update_card.
  destruct (decide (K x = c)) as [Heq | Hne]; [| exact Hs].
  rewrite Heq. apply (Hkeep x); assumption.
Qed.

(** A property of one card that every update of that card brings about. *)
Lemma update_loop_set (P : Card.t -> Prop) (c : CardRef) g l :
  (forall x card, x ∈ l -> K x = c -> P (F x card)) ->
  c ∈ (K <$> l) ->
  P (Game.cards (update_loop F K g l) c).
Proof.
  revert g. induction l as [| a l IH]; intros g Hset Hin.
  - apply elem_of_nil in Hin. contradiction.
  - change (P (Game.cards (update_loop F K (Game.update_card (F a) (K a) g) l) c)).
    destruct (decide (c ∈ (K <$> l))) as [Hlater | Hnot].
    + apply IH; [| exact Hlater].
      intros y card Hy. apply Hset. right. exact Hy.
    + rewrite fmap_cons in Hin. apply elem_of_cons in Hin.
      destruct Hin as [Hkey | Hin]; [| contradiction].
      apply update_loop_kept.
      * intros y card Hy Hy' _. apply Hset; [right; exact Hy | exact Hy'].
      * rewrite cards_update_card, decide_True by (symmetry; exact Hkey).
        apply Hset; [left | symmetry; exact Hkey].
Qed.

(** A card that no update targets is as before. *)
Lemma update_loop_other (c : CardRef) g l :
  (forall x, x ∈ l -> K x <> c) ->
  Game.cards (update_loop F K g l) c = Game.cards g c.
Proof.
  intros Hother.
  apply (update_loop_kept (fun card => card = Game.cards g c));
    [| reflexivity].
  intros x card Hx Hkey. exfalso. exact (Hother x Hx Hkey).
Qed.
End UpdateLoop.

(** ** Clearing and restoring markers *)

Lemma marked_false c :
  SelectCardPrompt.marked c = false <->
  Card.selected c = false /\ Card.opponentSelected c = false.
Proof. unfold SelectCardPrompt.marked. apply orb_false_iff. Qed.

Lemma prior_keys before c :
  c ∈ (Selection.card <$> Session.prior before) <->
  c ∈ Game.allCards before /\ SelectCardPrompt.marked (Game.cards before c) = true.
Proof.
  unfold Session.prior. rewrite <- list_fmap_compose.
  rewrite list_elem_of_fmap. split.
  - intros (c' & -> & Hin). simpl. apply list_elem_of_filter in Hin.
    destruct Hin as [Hmarked Hin]. split; [exact Hin |].
    apply Is_true_true. exact Hmarked.
  - intros [Hin Hmarked]. exists c. split; [reflexivity |].
    apply list_elem_of_filter. split; [apply Is_true_true; exact Hmarked | exact Hin].
Qed.

Lemma prior_entry before s :
  s ∈ Session.prior before -> s = SelectCardPrompt.snapshot before (Selection.card s).
Proof.
  unfold Session.prior. rewrite list_elem_of_fmap. intros (c & -> & _). reflexivity.
Qed.

Lemma savePreviouslySelectedCards_unfold this g :
  SelectCardPrompt.savePreviouslySelectedCards this g =
  (SelectCardPrompt.set_previouslySelectedCards (Session.prior g) this,
   update_loop (fun _ => SelectCardPrompt.unmark) Selection.card g (Session.prior g)).
Proof. reflexivity. Qed.

Lemma clearSelection_unfold this g :
  SelectCardPrompt.clearSelection this g =
  (SelectCardPrompt.set_selectedCards [] this,
   update_loop SelectCardPrompt.restore Selection.card
     (update_loop (fun _ => Card.set_selectable false) id
        (update_loop (fun _ => SelectCardPrompt.unmark) id g
           (SelectCardPrompt.selectedCards this))
        (Game.allCards g))
     (SelectCardPrompt.previouslySelectedCards this)).
Proof.
  unfold SelectCardPrompt.clearSelection.
  change (foldl (fun g card => Game.update_card SelectCardPrompt.unmark card g) g
            (SelectCardPrompt.selectedCards this))
    with (update_loop (fun _ : CardRef => SelectCardPrompt.unmark) id g
            (SelectCardPrompt.selectedCards this)).
  rewrite update_loop_allCards. reflexivity.
Qed.

Lemma clearSelection_allCards this g :
  Game.allCards (snd (SelectCardPrompt.clearSelection this g)) = Game.allCards g.
Proof. rewrite clearSelection_unfold. simpl. rewrite !update_loop_allCards. reflexivity. Qed.

Lemma clearSelection_selectable this g c :
  c ∈ Game.allCards g ->
  Card.selectable (Game.cards (snd (SelectCardPrompt.clearSelection this g)) c) = false.
Proof.
  intros Hin. rewrite clearSelection_unfold. simpl.
  apply (update_loop_kept _ _ (fun card => Card.selectable card = false)).
  { intros s card _ _ Hcard. exact Hcard. }
  apply (update_loop_set _ _ (fun card => Card.selectable card = false)).
  { intros x card _ _. reflexivity. }
  rewrite list_fmap_id. exact Hin.
Qed.

(** A card of the snapshot gets the marker values the snapshot recorded. *)
Lemma clearSelection_saved before this g c :
  SelectCardPrompt.previouslySelectedCards this = Session.prior before ->
  c ∈ Game.allCards before ->
  SelectCardPrompt.marked (Game.cards before c) = true ->
  let g' := snd (SelectCardPrompt.clearSelection this g) in
  Card.selected (Game.cards g' c) = Card.selected (Game.cards before c)
  /\ Card.opponentSelected (Game.cards g' c) =
     Card.opponentSelected (Game.cards before c).
Proof.
  intros Hprev Hin Hmarked g'. subst g'. rewrite clearSelection_unfold. simpl.
  rewrite Hprev.
  apply (update_loop_set _ _
           (fun card =>
              Card.selected card = Card.selected (Game.cards before c)
              /\ Card.opponentSelected card =
                 Card.opponentSelected (Game.cards before c))).
  - intros s card Hs Hkey. rewrite (prior_entry _ _ Hs), Hkey. split; reflexivity.
  - apply prior_keys. split; assumption.
Qed.

(** Any other card is unmarked if it was selected and untouched if not. *)
Lemma clearSelection_unsaved before this g c :
  SelectCardPrompt.previouslySelectedCards this = Session.prior before ->
  c ∉ (Selection.card <$> Session.prior before) ->
  let g' := snd (SelectCardPrompt.clearSelection this g) in
  SelectCardPrompt.marked (Game.cards g' c) = true ->
  (c ∉ SelectCardPrompt.selectedCards this)
  /\ SelectCardPrompt.marked (Game.cards g c) = true.
Proof.
  intros Hprev Hnot g'. subst g'. rewrite clearSelection_unfold. simpl.
  rewrite Hprev.
  rewrite update_loop_other
    by (intros s Hs Hkey; apply Hnot; rewrite <- Hkey;
        apply list_elem_of_fmap_2; exact Hs).
  set (g1 := update_loop (fun _ => SelectCardPrompt.unmark) id g
               (SelectCardPrompt.selectedCards this)).
  assert (Hhighlight :
    SelectCardPrompt.marked
      (Game.cards (update_loop (fun _ => Card.set_selectable false) id g1
                     (Game.allCards g)) c)
    = SelectCardPrompt.marked (Game.cards g1 c)).
  { apply (update_loop_kept _ _
             (fun card => SelectCardPrompt.marked card =
                          SelectCardPrompt.marked (Game.cards g1 c)));
      [| reflexivity].
    intros x card _ _ Hcard. exact Hcard. }
  rewrite Hhighlight. subst g1. intros Hmarked.
  destruct (decide (c ∈ SelectCardPrompt.selectedCards this)) as [Hsel | Hsel].
  - exfalso.
    assert (Hclear : SelectCardPrompt.marked
              (Game.cards (update_loop (fun _ => SelectCardPrompt.unmark) id g
                             (SelectCardPrompt.selectedCards this)) c) = false).
    { apply (update_loop_set _ _ (fun card => SelectCardPrompt.marked card = false)).
      - intros x card _ _. reflexivity.
      - rewrite list_fmap_id. exact Hsel. }
    congruence.
  - split; [exact Hsel |].
    rewrite update_loop_other in Hmarked; [exact Hmarked |].
    intros x Hx Hkey. apply Hsel. unfold id in Hkey. subst x. exact Hx.
Qed.

Lemma clearSelection_tracked before this g :
  Session.tracked before this g ->
  Session.tracked before (fst (SelectCardPrompt.clearSelection this g))
    (snd (SelectCardPrompt.clearSelection this g)).
Proof.
  intros [Hprev Hcoll Hmarks]. split.
  - exact Hprev.
  - rewrite clearSelection_allCards. exact Hcoll.
  - intros c Hmarked. right.
    destruct (decide (c ∈ (Selection.card <$> Session.prior before))) as [Hkey | Hkey].
    + apply prior_keys in Hkey. apply Hkey.
    + destruct (clearSelection_unsaved before this g c Hprev Hkey Hmarked)
        as [Hsel Hwas].
      destruct (Hmarks c Hwas) as [? | ?]; [contradiction | assumption].
Qed.

Lemma clearSelection_restored before this g :
  Session.tracked before this g ->
  Session.restored before (snd (SelectCardPrompt.clearSelection this g)).
Proof.
  intros [Hprev Hcoll Hmarks].
  assert (Hresidue : forall c,
    SelectCardPrompt.marked
      (Game.cards (snd (SelectCardPrompt.clearSelection this g)) c) = true ->
    SelectCardPrompt.marked (Game.cards before c) = true).
  { intros c Hmarked.
    destruct (decide (c ∈ (Selection.card <$> Session.prior before))) as [Hkey | Hkey].
    - apply prior_keys in Hkey. apply Hkey.
    - destruct (clearSelection_unsaved before this g c Hprev Hkey Hmarked)
        as [Hsel Hwas].
      destruct (Hmarks c Hwas) as [? | ?]; [contradiction | assumption]. }
  split.
  - intros c Hin.
    destruct (SelectCardPrompt.marked (Game.cards before c)) eqn:Hbefore.
    + apply clearSelection_saved; assumption.
    + destruct (SelectCardPrompt.marked
                  (Game.cards (snd (SelectCardPrompt.clearSelection this g)) c))
        eqn:Hafter.
      * apply Hresidue in Hafter. congruence.
      * apply marked_false in Hbefore, Hafter.
        destruct Hbefore as [-> ->], Hafter as [-> ->]. split; reflexivity.
  - intros c Hin. apply clearSelection_selectable. rewrite Hcoll. exact Hin.
  - exact Hresidue.
Qed.

(** ** Construction *)

Lemma new_unfold game chooser options this g :
  SelectCardPrompt.new game chooser options = Returns (this, g) ->
  SelectCardPrompt.previouslySelectedCards this = Session.prior game
  /\ g = update_loop (fun _ => SelectCardPrompt.unmark) Selection.card game
           (Session.prior game).
Proof.
  rewrite new_returns, savePreviouslySelectedCards_unfold.
  intros [= <- <-]. split; reflexivity.
Qed.

(** After construction the cards of the collection carry no marker and
    every other card is as it was. *)
Lemma new_cleared game chooser options this g :
  SelectCardPrompt.new game chooser options = Returns (this, g) ->
  Game.allCards g = Game.allCards game
  /\ (forall c, c ∈ Game.allCards game ->
        SelectCardPrompt.marked (Game.cards g c) = false)
  /\ (forall c, c ∉ Game.allCards game -> Game.cards g c = Game.cards game c)
  /\ (forall c, SelectCardPrompt.marked (Game.cards g c) = true ->
        SelectCardPrompt.marked (Game.cards game c) = true).
Proof.
  intros Hnew. destruct (new_unfold _ _ _ _ _ Hnew) as [_ ->].
  assert (Hin : forall c, c ∈ Game.allCards game ->
    SelectCardPrompt.marked
      (Game.cards (update_loop (fun _ => SelectCardPrompt.unmark) Selection.card
                     game (Session.prior game)) c) = false).
  { intros c Hc.
    destruct (SelectCardPrompt.marked (Game.cards game c)) eqn:Hmarked.
    - apply (update_loop_set _ _ (fun card => SelectCardPrompt.marked card = false)).
      + intros x card _ _. reflexivity.
      + apply prior_keys. split; assumption.
    - rewrite update_loop_other; [exact Hmarked |].
      intros s Hs Hkey.
      assert (Hk : c ∈ (Selection.card <$> Session.prior game))
        by (rewrite <- Hkey; apply list_elem_of_fmap_2; exact Hs).
      apply prior_keys in Hk. destruct Hk as [_ Hk]. congruence. }
  assert (Hout : forall c, c ∉ Game.allCards game ->
    Game.cards (update_loop (fun _ => SelectCardPrompt.unmark) Selection.card
                  game (Session.prior game)) c = Game.cards game c).
  { intros c Hc. apply update_loop_other. intros s Hs Hkey. apply Hc.
    assert (Hk : c ∈ (Selection.card <$> Session.prior game))
      by (rewrite <- Hkey; apply list_elem_of_fmap_2; exact Hs).
    apply prior_keys in Hk. apply Hk. }
  split; [apply update_loop_allCards |].
  split; [exact Hin |].
  split; [exact Hout |].
  intros c Hmarked.
  destruct (decide (c ∈ Game.allCards game)) as [Hc | Hc].
  - rewrite Hin in Hmarked by exact Hc. discriminate.
  - rewrite Hout in Hmarked by exact Hc. exact Hmarked.
Qed.

Lemma new_tracked game chooser options this g :
  SelectCardPrompt.new game chooser options = Returns (this, g) ->
  Session.tracked game this g.
Proof.
  intros Hnew.
  destruct (new_unfold _ _ _ _ _ Hnew) as [Hprev _].
  destruct (new_cleared _ _ _ _ _ Hnew) as (Hcoll & _ & _ & Hmarks).
  split; [exact Hprev | exact Hcoll |].
  intros c Hmarked. right. apply Hmarks. exact Hmarked.
Qed.

(** ** selectCard, step by step *)

Lemma selectCard_blocked this card g :
  Session.blocked this card = true ->
  SelectCardPrompt.selectCard this card g = (false, (this, g)).
Proof.
  unfold Session.blocked, SelectCardPrompt.selectCard. intros ->. reflexivity.
Qed.

Lemma selectCard_taken this card g :
  Session.blocked this card = false ->
  SelectCardPrompt.selectCard this card g =
  (true, (Session.relisted this card g,
          Session.notified this card (Session.toggled this card g))).
Proof.
  unfold Session.blocked, SelectCardPrompt.selectCard. intros ->.
  unfold Session.relisted, Session.notified, Session.toggled.
  destruct (negb (bool_decide _));
    match goal with |- context [SelectCardPrompt.marked ?c] =>
      destruct (SelectCardPrompt.marked c) end; reflexivity.
Qed.

Lemma selectCard_cases this card g :
  (Session.blocked this card = true
   /\ SelectCardPrompt.selectCard this card g = (false, (this, g)))
  \/ (Session.blocked this card = false
      /\ SelectCardPrompt.selectCard this card g =
         (true, (Session.relisted this card g,
                 Session.notified this card (Session.toggled this card g)))).
Proof.
  destruct (Session.blocked this card) eqn:Hblocked.
  - left. split; [reflexivity | apply selectCard_blocked; exact Hblocked].
  - right. split; [reflexivity | apply selectCard_taken; exact Hblocked].
Qed.

Lemma toggled_other this card g c :
  c <> card -> Game.cards (Session.toggled this card g) c = Game.cards g c.
Proof.
  intros Hne. unfold Session.toggled.
  destruct (negb (bool_decide _)); rewrite cards_update_card;
    rewrite decide_False by congruence; reflexivity.
Qed.

Lemma toggled_allCards this card g :
  Game.allCards (Session.toggled this card g) = Game.allCards g.
Proof. unfold Session.toggled. destruct (negb (bool_decide _)); reflexivity. Qed.

Lemma toggled_controller this card g c :
  Card.controller (Game.cards (Session.toggled this card g) c) =
  Card.controller (Game.cards g c).
Proof.
  unfold Session.toggled.
  destruct (negb (bool_decide _)); rewrite cards_update_card;
    destruct (decide (card = c)); subst; reflexivity.
Qed.

(** Toggling a card that carries exactly its own marker leaves it with no
    marker; toggling an unmarked card gives it exactly its own marker. *)
Lemma toggled_off this card g :
  Session.own_marked (SelectCardPrompt.choosingPlayer this) (Game.cards g card) = true ->
  SelectCardPrompt.marked (Game.cards (Session.toggled this card g) card) = false.
Proof.
  unfold Session.own_marked, Session.toggled, SelectCardPrompt.marked.
  destruct (bool_decide _); cbn [negb];
    rewrite cards_update_card, decide_True by reflexivity;
    simpl; destruct (Card.selected _), (Card.opponentSelected _); simpl;
    congruence.
Qed.

Lemma toggled_on this card g :
  SelectCardPrompt.marked (Game.cards g card) = false ->
  Session.own_marked (SelectCardPrompt.choosingPlayer this)
    (Game.cards (Session.toggled this card g) card) = true
  /\ SelectCardPrompt.marked (Game.cards (Session.toggled this card g) card) = true.
Proof.
  intros Hclean. apply marked_false in Hclean. destruct Hclean as [Hsel Hopp].
  pose proof (toggled_controller this card g card) as Hctrl.
  unfold Session.own_marked, SelectCardPrompt.marked. rewrite Hctrl.
  unfold Session.toggled.
  destruct (bool_decide _); cbn [negb];
    rewrite cards_update_card, decide_True by reflexivity;
    simpl; rewrite Hsel, Hopp; split; reflexivity.
Qed.

Lemma relisted_selection this card g :
  SelectCardPrompt.selectedCards (Session.relisted this card g) =
  if SelectCardPrompt.marked (Game.cards (Session.toggled this card g) card)
  then SelectCardPrompt.selectedCards this ++ [card]
  else filter (fun c => c <> card) (SelectCardPrompt.selectedCards this).
Proof.
  unfold Session.relisted.
  destruct (SelectCardPrompt.marked _); reflexivity.
Qed.

Lemma relisted_fields this card g :
  SelectCardPrompt.choosingPlayer (Session.relisted this card g) =
    SelectCardPrompt.choosingPlayer this
  /\ SelectCardPrompt.properties (Session.relisted this card g) =
     SelectCardPrompt.properties this
  /\ SelectCardPrompt.previouslySelectedCards (Session.relisted this card g) =
     SelectCardPrompt.previouslySelectedCards this
  /\ SelectCardPrompt.completed (Session.relisted this card g) =
     SelectCardPrompt.completed this.
Proof.
  unfold Session.relisted. destruct (SelectCardPrompt.marked _); repeat split.
Qed.

(** ** The selection follows the markers *)

Lemma own_marked_marked chooser c :
  Session.own_marked chooser c = true -> SelectCardPrompt.marked c = true.
Proof.
  unfold Session.own_marked, SelectCardPrompt.marked.
  destruct (bool_decide _), (Card.selected c), (Card.opponentSelected c);
    simpl; congruence.
Qed.

Lemma consistent_ext this g g' :
  Session.markers_kept g g' -> Session.controllers_kept g g' ->
  Session.consistent this g -> Session.consistent this g'.
Proof.
  intros Hmarkers Hcontrollers [Hnodup Hmembers Hothers Hbound].
  split; [exact Hnodup | | | exact Hbound].
  - intros c Hc. specialize (Hmembers c Hc).
    unfold Session.own_marked in *.
    destruct (Hmarkers c) as [-> ->]. rewrite Hcontrollers. exact Hmembers.
  - intros c Hc. specialize (Hothers c Hc).
    unfold SelectCardPrompt.marked in *.
    destruct (Hmarkers c) as [-> ->]. exact Hothers.
Qed.

Lemma blocked_false_room this card :
  Session.blocked this card = false ->
  card ∉ SelectCardPrompt.selectedCards this ->
  (0 < Properties.numCards (SelectCardPrompt.properties this))%Z ->
  (Z.of_nat (length (SelectCardPrompt.selectedCards this)) + 1
   <= Properties.numCards (SelectCardPrompt.properties this))%Z.
Proof.
  unfold Session.blocked. intros Hblocked Hnew Hpos.
  rewrite (bool_decide_eq_false_2 _ Hnew), andb_true_r in Hblocked.
  apply andb_false_iff in Hblocked. destruct Hblocked as [Hzero | Hfull].
  - apply negb_false_iff, Z.eqb_eq in Hzero. lia.
  - apply Z.leb_gt in Hfull. lia.
Qed.

Lemma relisted_consistent this card g :
  Session.blocked this card = false ->
  Session.consistent this g ->
  Session.consistent (Session.relisted this card g) (Session.toggled this card g).
Proof.
  intros Hblocked [Hnodup Hmembers Hothers Hbound].
  destruct (relisted_fields this card g) as (Hchooser & Hprops & _).
  destruct (decide (card ∈ SelectCardPrompt.selectedCards this)) as [Hin | Hout].
  - pose proof (toggled_off this card g (Hmembers card Hin)) as Hoff.
    split; rewrite ?Hchooser, ?Hprops, relisted_selection, Hoff.
    + apply NoDup_filter. exact Hnodup.
    + intros c Hc. apply list_elem_of_filter in Hc. destruct Hc as [Hne Hc].
      rewrite toggled_other by exact Hne. apply Hmembers. exact Hc.
    + intros c Hc. destruct (decide (c = card)) as [-> | Hne]; [exact Hoff |].
      rewrite toggled_other by exact Hne. apply Hothers.
      intros Hc'. apply Hc. apply list_elem_of_filter. split; assumption.
    + intros Hpos. specialize (Hbound Hpos).
      pose proof (length_filter (fun c => c <> card)
                    (SelectCardPrompt.selectedCards this)). lia.
  - destruct (toggled_on this card g (Hothers card Hout)) as [Hown Hon].
    split; rewrite ?Hchooser, ?Hprops, relisted_selection, Hon.
    + apply NoDup_app. split; [exact Hnodup |].
      split; [| apply NoDup_singleton].
      intros c Hc Hc'. apply list_elem_of_singleton in Hc'. subst c. contradiction.
    + intros c Hc. apply elem_of_app in Hc. destruct Hc as [Hc | Hc].
      * rewrite toggled_other by (intros ->; contradiction).
        apply Hmembers. exact Hc.
      * apply list_elem_of_singleton in Hc. subst c. exact Hown.
    + intros c Hc. apply not_elem_of_app in Hc. destruct Hc as [Hc Hne].
      rewrite toggled_other
        by (intros ->; apply Hne; apply list_elem_of_singleton; reflexivity).
      apply Hothers. exact Hc.
    + intros Hpos. rewrite length_app. simpl.
      pose proof (blocked_false_room this card Hblocked Hout Hpos). lia.
Qed.

Lemma notified_inert this card g :
  (forall f player card g,
     Properties.onCardToggle (SelectCardPrompt.properties this) = Some f ->
     Session.markers_kept g (f player card g)
     /\ Session.controllers_kept g (f player card g)) ->
  Session.markers_kept g (Session.notified this card g)
  /\ Session.controllers_kept g (Session.notified this card g).
Proof.
  intros Hinert. unfold Session.notified.
  destruct (Properties.onCardToggle _) as [f |] eqn:Hf.
  - apply Hinert. reflexivity.
  - split; intros c; [split |]; reflexivity.
Qed.

Lemma selectCard_consistent this card g :
  (forall f player card g,
     Properties.onCardToggle (SelectCardPrompt.properties this) = Some f ->
     Session.markers_kept g (f player card g)
     /\ Session.controllers_kept g (f player card g)) ->
  Session.consistent this g ->
  Session.consistent (fst (snd (SelectCardPrompt.selectCard this card g)))
    (snd (snd (SelectCardPrompt.selectCard this card g))).
Proof.
  intros Hinert Hconsistent.
  destruct (selectCard_cases this card g) as [[_ ->] | [Hblocked ->]]; simpl.
  - exact Hconsistent.
  - pose proof (relisted_consistent this card g Hblocked Hconsistent) as Hnext.
    destruct (notified_inert this card (Session.toggled this card g) Hinert)
      as [Hmarkers Hcontrollers].
    destruct Hnext as [Hnodup Hmembers Hothers Hbound].
    destruct (relisted_fields this card g) as (Hchooser & _).
    split; [exact Hnodup | | | exact Hbound].
    + intros c Hc. specialize (Hmembers c Hc).
      unfold Session.own_marked in *.
      destruct (Hmarkers c) as [-> ->]. rewrite Hcontrollers. exact Hmembers.
    + intros c Hc. specialize (Hothers c Hc).
      unfold SelectCardPrompt.marked in *.
      destruct (Hmarkers c) as [-> ->]. exact Hothers.
Qed.

(** A click that does not deliver either changes nothing or does what
    [selectCard] does. *)
Lemma quiet_click this player card g :
  Session.delivers this player card g = false ->
  snd (SelectCardPrompt.onCardClicked this player card g) = (this, g)
  \/ snd (SelectCardPrompt.onCardClicked this player card g) =
     snd (SelectCardPrompt.selectCard this card g).
Proof.
  unfold Session.delivers, SelectCardPrompt.onCardClicked.
  destruct (bool_decide (player = _)); simpl; [| left; reflexivity].
  destruct (SelectCardPrompt.checkCardCondition this g card); simpl;
    [| left; reflexivity].
  destruct (SelectCardPrompt.selectCard this card g) as [added [this' g']].
  destruct added; simpl; [| right; reflexivity].
  intros ->. right. reflexivity.
Qed.

(** A click that delivers does what [selectCard] does and then calls
    [fireOnSelect]. *)
Lemma delivering_click this player card g :
  Session.delivers this player card g = true ->
  snd (SelectCardPrompt.onCardClicked this player card g) =
  SelectCardPrompt.fireOnSelect
    (fst (snd (SelectCardPrompt.selectCard this card g)))
    (snd (snd (SelectCardPrompt.selectCard this card g))).
Proof.
  unfold Session.delivers, SelectCardPrompt.onCardClicked.
  destruct (bool_decide (player = _)); simpl; [| discriminate].
  destruct (SelectCardPrompt.checkCardCondition this g card); simpl;
    [| discriminate].
  destruct (SelectCardPrompt.selectCard this card g) as [added [this' g']].
  destruct added; simpl; [| discriminate].
  intros ->. reflexivity.
Qed.

Lemma highlight_frame this g :
  Game.allCards (SelectCardPrompt.highlightSelectableCards this g) = Game.allCards g
  /\ forall c,
       let c' := Game.cards (SelectCardPrompt.highlightSelectableCards this g) c in
       Card.selected c' = Card.selected (Game.cards g c)
       /\ Card.opponentSelected c' = Card.opponentSelected (Game.cards g c)
       /\ Card.controller c' = Card.controller (Game.cards g c).
Proof.
  unfold SelectCardPrompt.highlightSelectableCards.
  apply (foldl_invariant
           (fun g' => Game.allCards g' = Game.allCards g
                      /\ forall c,
                           Card.selected (Game.cards g' c) = Card.selected (Game.cards g c)
                           /\ Card.opponentSelected (Game.cards g' c) =
                              Card.opponentSelected (Game.cards g c)
                           /\ Card.controller (Game.cards g' c) =
                              Card.controller (Game.cards g c))).
  - intros s x _ [Hcoll Hcards].
    destruct (SelectCardPrompt.includes _ _); [| split; assumption].
    split; [exact Hcoll |].
    intros c. rewrite cards_update_card.
    destruct (decide (x = c)) as [-> | _]; [simpl |]; apply Hcards.
  - split; [reflexivity |]. intros c. repeat split.
Qed.

Lemma continue_frame this g :
  Session.markers_kept g (snd (SelectCardPrompt.continue this g))
  /\ Session.controllers_kept g (snd (SelectCardPrompt.continue this g))
  /\ Session.collection_kept g (snd (SelectCardPrompt.continue this g)).
Proof.
  unfold SelectCardPrompt.continue. simpl.
  destruct (negb (SelectCardPrompt.isComplete this)).
  - destruct (highlight_frame this g) as [Hcoll Hcards].
    split; [| split].
    + intros c. split; apply Hcards.
    + intros c. apply Hcards.
    + exact Hcoll.
  - split; [| split]; try intros c; repeat split.
Qed.

Lemma selecting_consistent game chooser options this g :
  Session.marked_in_collection game ->
  Session.toggle_inert options ->
  Session.selecting game chooser options this g ->
  SelectCardPrompt.properties this = SelectCardPrompt.resolve options
  /\ SelectCardPrompt.choosingPlayer this = chooser
  /\ Session.consistent this g.
Proof.
  intros Hclosed Hinert Hselecting.
  induction Hselecting as [this g Hnew | this g player card _ IH Hquiet | this g _ IH].
  - destruct (new_configuration _ _ _ _ _ Hnew) as (Hchooser & Hprops & Hsel & _).
    destruct (new_cleared _ _ _ _ _ Hnew) as (_ & Hin & _ & Hmarks).
    split; [exact Hprops |]. split; [exact Hchooser |].
    split; rewrite ?Hsel.
    + apply NoDup_nil. exact I.
    + intros c Hc. apply elem_of_nil in Hc. contradiction.
    + intros c _.
      destruct (SelectCardPrompt.marked (Game.cards g c)) eqn:Hmarked; [| reflexivity].
      rewrite <- (Hin c); [symmetry; exact Hmarked |].
      apply Hclosed, Hmarks. exact Hmarked.
    + simpl. lia.
  - destruct IH as (Hprops & Hchooser & Hconsistent).
    destruct (onCardClicked_configuration this player card g) as (Hc & Hp & _).
    split; [congruence |]. split; [congruence |].
    destruct (quiet_click this player card g Hquiet) as [-> | ->];
      [exact Hconsistent |].
    apply selectCard_consistent; [| exact Hconsistent].
    intros f player' card' g' Hf. apply (Hinert f).
    rewrite Hprops in Hf. exact Hf.
  - destruct IH as (Hprops & Hchooser & Hconsistent).
    split; [exact Hprops |]. split; [exact Hchooser |].
    destruct (continue_frame this g) as (Hmarkers & Hcontrollers & _).
    eapply consistent_ext; eassumption.
Qed.

(** C10.  While the player is still picking (from construction, through
    card clicks that do not deliver and calls of [continue]), no card occurs
    twice in [selectedCards], and a card is in [selectedCards] exactly when
    its [selected] or [opponentSelected] flag is set.  The game's marked
    cards all belong to [game.allCards], and the toggle callback leaves
    markers and controllers alone. *)
Theorem selection_matches_markers (game : Game.t) (chooser : PlayerRef)
    (options : Options.t) (this : SelectCardPrompt.t) (g : Game.t) :
  Session.marked_in_collection game ->
  Session.toggle_inert options ->
  Session.selecting game chooser options this g ->
  NoDup (SelectCardPrompt.selectedCards this)
  /\ forall c,
       c ∈ SelectCardPrompt.selectedCards this <->
       SelectCardPrompt.marked (Game.cards g c) = true.
Proof.
  intros Hclosed Hinert Hselecting.
  destruct (selecting_consistent _ _ _ _ _ Hclosed Hinert Hselecting)
    as (_ & _ & [Hnodup Hmembers Hothers _]).
  split; [exact Hnodup |].
  intros c. split.
  - intros Hc. eapply own_marked_marked. apply Hmembers. exact Hc.
  - intros Hmarked.
    destruct (decide (c ∈ SelectCardPrompt.selectedCards this)) as [Hc | Hc];
      [exact Hc |].
    rewrite (Hothers c Hc) in Hmarked. discriminate.
Qed.

Ltac listed := apply list_elem_of_In; simpl; tauto.
Ltac unlisted :=
  let H := fresh in
  intros H; apply list_elem_of_In in H; simpl in H; intuition discriminate.

Lemma table_marked_in_collection : Session.marked_in_collection Examples.table.
Proof.
  intros c. do 4 (destruct c as [| c]; [intros _; listed |]).
  discriminate.
Qed.

Lemma no_toggle_inert options :
  Options.onCardToggle options = None -> Session.toggle_inert options.
Proof. intros Hnone f player card g Hf. congruence. Qed.

Lemma picked_two_selecting :
  Session.selecting Examples.table 0 Examples.two_card_options
    (fst Examples.picked_two) (snd Examples.picked_two).
Proof.
  apply (Session.selecting_click _ _ _ (fst Examples.picked_one)
           (snd Examples.picked_one) 0 2); [| reflexivity].
  apply (Session.selecting_click _ _ _
           (fst (Examples.started Examples.two_card_options))
           (snd (Examples.started Examples.two_card_options)) 0 1); [| reflexivity].
  apply Session.selecting_new. reflexivity.
Qed.

Lemma selection_matches_markers_witness :
  (Session.marked_in_collection Examples.table
   /\ Session.toggle_inert Examples.two_card_options
   /\ Session.selecting Examples.table 0 Examples.two_card_options
        (fst Examples.picked_two) (snd Examples.picked_two))
  /\ SelectCardPrompt.selectedCards (fst Examples.picked_two) = [1; 2]
  /\ NoDup (SelectCardPrompt.selectedCards (fst Examples.picked_two))
  /\ forall c,
       c ∈ SelectCardPrompt.selectedCards (fst Examples.picked_two) <->
       SelectCardPrompt.marked (Game.cards (snd Examples.picked_two) c) = true.
Proof.
  split.
  - split; [exact table_marked_in_collection |].
    split; [apply no_toggle_inert; reflexivity | exact picked_two_selecting].
  - split; [reflexivity |].
    exact (selection_matches_markers Examples.table 0 Examples.two_card_options
             (fst Examples.picked_two) (snd Examples.picked_two)
             table_marked_in_collection
             (no_toggle_inert Examples.two_card_options eq_refl)
             picked_two_selecting).
Defined.

(** ** SelectCardPrompt: the cardinality bound *)

(** C5.  [selectCard] on a member does not always remove it.  One card is
    wanted and delivered as an array; card 0, controlled by the chooser,
    carried the opponent's marker before the prompt.  After a click on card
    1 and a refused delivery that marker is back on card 0 while the prompt
    is still on, and a click selects card 0.  The bound is met with card 0
    as the one member; [selectCard] on card 0 returns [true], and card 0 is
    not removed: it is listed twice. *)
Lemma member_not_removed :
  let s := Examples.after_refusal in
  let r := SelectCardPrompt.selectCard (fst s) 0 (snd s) in
  SelectCardPrompt.new Examples.table 0 Examples.refusing_options =
    Returns (Examples.started Examples.refusing_options)
  /\ Properties.numCards (SelectCardPrompt.properties (fst s)) = 1%Z
  /\ SelectCardPrompt.selectedCards (fst s) = [0]
  /\ fst r = true
  /\ SelectCardPrompt.selectedCards (fst (snd r)) = [0; 0].
Proof. vm_compute. repeat split. Qed.

(** ** SelectCardPrompt: delivery *)

Lemma fireOnSelect_unfold this g :
  SelectCardPrompt.fireOnSelect this g =
  let r := Properties.onSelect (SelectCardPrompt.properties this)
             (SelectCardPrompt.choosingPlayer this)
             (SelectCardPrompt.cardParam this) g in
  if fst r then SelectCardPrompt.complete this (snd r)
  else SelectCardPrompt.clearSelection this (snd r).
Proof.
  unfold SelectCardPrompt.fireOnSelect.
  destruct (Properties.onSelect _ _ _ g) as [accepted g']. reflexivity.
Qed.

(** C7.  A prompt for one card can hand over two.  One card is wanted and
    delivered as an array; card 0, controlled by the chooser, carried the
    opponent's marker before the prompt.  After a click on card 1, a refused
    "done" and two clicks on card 0 the prompt is still on and card 0 is
    listed twice.  "done" then calls [fireOnSelect], and [onSelect] is
    handed the array of selected cards: two elements, not one. *)
Lemma two_cards_delivered :
  let start := Examples.started Examples.refusing_options in
  let s := Session.run [Session.CardClicked 0 1; Session.MenuCommand 0 "done";
                        Session.CardClicked 0 0; Session.CardClicked 0 0] start in
  SelectCardPrompt.new Examples.table 0 Examples.refusing_options = Returns start
  /\ Properties.numCards (SelectCardPrompt.properties (fst s)) = 1%Z
  /\ Properties.multiSelect (SelectCardPrompt.properties (fst s)) = true
  /\ SelectCardPrompt.completed (fst s) = false
  /\ SelectCardPrompt.selectedCards (fst s) = [0; 0]
  /\ SelectCardPrompt.onMenuCommand (fst s) 0 "done" (snd s) =
     (ReturnedUndefined, SelectCardPrompt.fireOnSelect (fst s) (snd s))
  /\ SelectCardPrompt.fireOnSelect (fst s) (snd s) =
     (let r := Properties.onSelect (SelectCardPrompt.properties (fst s))
                 (SelectCardPrompt.choosingPlayer (fst s)) (Collection [0; 0]) (snd s) in
      if fst r then SelectCardPrompt.complete (fst s) (snd r)
      else SelectCardPrompt.clearSelection (fst s) (snd r)).
Proof.
  intros start s.
  do 5 (split; [reflexivity |]).
  split; [reflexivity |].
  rewrite fireOnSelect_unfold. reflexivity.
Qed.

(** ** Invariants of a whole session *)

Lemma selectCard_completed this card g :
  SelectCardPrompt.completed (fst (snd (SelectCardPrompt.selectCard this card g))) =
  SelectCardPrompt.completed this.
Proof.
  destruct (selectCard_cases this card g) as [[_ ->] | [_ ->]]; simpl;
    [reflexivity | apply relisted_fields].
Qed.

Section Stable.
(** A property of prompt and game that every building block of the methods
    keeps. *)
Variable Inv : SelectCardPrompt.t -> Game.t -> Prop.
Hypothesis Inv_selectCard : forall this card g,
  Inv this g ->
  Inv (fst (snd (SelectCardPrompt.selectCard this card g)))
      (snd (snd (SelectCardPrompt.selectCard this card g))).
Hypothesis Inv_onSelect : forall this param g,
  Inv this g ->
  Inv this (snd (Properties.onSelect (SelectCardPrompt.properties this)
                   (SelectCardPrompt.choosingPlayer this) param g)).
Hypothesis Inv_onMenuCommand : forall this player arg g,
  Inv this g ->
  Inv this (snd (Properties.onMenuCommand (SelectCardPrompt.properties this)
                   player arg g)).
Hypothesis Inv_onCancel : forall this player g,
  Inv this g ->
  Inv this (Properties.onCancel (SelectCardPrompt.properties this) player g).
Hypothesis Inv_clearSelection : forall this g,
  Inv this g ->
  Inv (fst (SelectCardPrompt.clearSelection this g))
      (snd (SelectCardPrompt.clearSelection this g)).
Hypothesis Inv_super_complete : forall this g,
  Inv this g -> Inv (SelectCardPrompt.super_complete this) g.
Hypothesis Inv_highlight : forall this g,
  Inv this g -> Inv this (SelectCardPrompt.highlightSelectableCards this g).

Lemma stable_complete this g :
  Inv this g ->
  Inv (fst (SelectCardPrompt.complete this g)) (snd (SelectCardPrompt.complete this g)).
Proof.
  intros H. unfold SelectCardPrompt.complete.
  pose proof (Inv_clearSelection this g H) as Hclear.
  destruct (SelectCardPrompt.clearSelection this g) as [this' g'].
  apply Inv_super_complete. exact Hclear.
Qed.

Lemma stable_fireOnSelect this g :
  Inv this g ->
  Inv (fst (SelectCardPrompt.fireOnSelect this g))
      (snd (SelectCardPrompt.fireOnSelect this g)).
Proof.
  intros H. rewrite fireOnSelect_unfold.
  pose proof (Inv_onSelect this (SelectCardPrompt.cardParam this) g H) as Hcb.
  cbv zeta. destruct (fst (Properties.onSelect _ _ _ _));
    [apply stable_complete | apply Inv_clearSelection]; exact Hcb.
Qed.

Lemma stable_step i s :
  Inv (fst s) (snd s) -> Inv (fst (Session.step i s)) (snd (Session.step i s)).
Proof.
  destruct s as [this g]. simpl. intros H.
  destruct i as [player card | player arg |]; simpl.
  - unfold SelectCardPrompt.onCardClicked.
    destruct (negb (bool_decide _)); [exact H |].
    destruct (negb (SelectCardPrompt.checkCardCondition _ _ _)); [exact H |].
    pose proof (Inv_selectCard this card g H) as Hsel.
    destruct (SelectCardPrompt.selectCard this card g) as [added [this' g']].
    simpl in Hsel.
    destruct (negb added); [exact Hsel |].
    match goal with |- context [if ?b then _ else _] => destruct b end;
      [| exact Hsel].
    apply stable_fireOnSelect. exact Hsel.
  - unfold SelectCardPrompt.onMenuCommand.
    destruct (negb (bool_decide _)); [exact H |].
    destruct (negb (String.eqb arg "done")).
    + pose proof (Inv_onMenuCommand this player arg g H) as Hcb.
      destruct (Properties.onMenuCommand _ _ _ g) as [[] g']; simpl in *;
        [apply stable_complete |]; exact Hcb.
    + destruct (bool_decide _); simpl.
      * apply stable_fireOnSelect. exact H.
      * apply stable_complete. apply Inv_onCancel. exact H.
  - unfold SelectCardPrompt.continue.
    destruct (negb (SelectCardPrompt.isComplete this)); simpl;
      [apply Inv_highlight |]; exact H.
Qed.

Lemma stable_run script s :
  Inv (fst s) (snd s) ->
  Inv (fst (Session.run script s)) (snd (Session.run script s)).
Proof.
  revert s. induction script as [| i script IH]; intros s H; simpl; [exact H |].
  apply IH. apply stable_step. exact H.
Qed.

Lemma fireOnSelect_exit this g :
  Inv this g ->
  SelectCardPrompt.completed this = false ->
  SelectCardPrompt.completed (fst (SelectCardPrompt.fireOnSelect this g)) = true ->
  exists x y,
    Inv x y
    /\ snd (SelectCardPrompt.fireOnSelect this g) =
       snd (SelectCardPrompt.clearSelection x y).
Proof.
  intros H Hopen. rewrite fireOnSelect_unfold.
  pose proof (Inv_onSelect this (SelectCardPrompt.cardParam this) g H) as Hcb.
  cbv zeta. destruct (fst (Properties.onSelect _ _ _ _)).
  - intros _. eexists this, _. split; [exact Hcb | reflexivity].
  - simpl. congruence.
Qed.

(** The step on which a prompt becomes complete ends with [clearSelection]
    on a prompt and game that satisfy the invariant. *)
Lemma exit_shape i this g :
  Inv this g ->
  SelectCardPrompt.completed this = false ->
  SelectCardPrompt.completed (fst (Session.step i (this, g))) = true ->
  exists x y,
    Inv x y
    /\ snd (Session.step i (this, g)) = snd (SelectCardPrompt.clearSelection x y).
Proof.
  intros H Hopen.
  destruct i as [player card | player arg |]; simpl.
  - unfold SelectCardPrompt.onCardClicked.
    destruct (negb (bool_decide _)); [simpl; congruence |].
    destruct (negb (SelectCardPrompt.checkCardCondition _ _ _)); [simpl; congruence |].
    pose proof (Inv_selectCard this card g H) as Hsel.
    pose proof (selectCard_completed this card g) as Hsame.
    destruct (SelectCardPrompt.selectCard this card g) as [added [this' g']].
    simpl in Hsel, Hsame.
    destruct (negb added); [simpl; congruence |].
    match goal with |- context [if ?b then _ else _] => destruct b end;
      [| simpl; congruence].
    simpl. apply fireOnSelect_exit; [exact Hsel | congruence].
  - unfold SelectCardPrompt.onMenuCommand.
    destruct (negb (bool_decide _)); [simpl; congruence |].
    destruct (negb (String.eqb arg "done")).
    + pose proof (Inv_onMenuCommand this player arg g H) as Hcb.
      destruct (Properties.onMenuCommand _ _ _ g) as [[] g']; simpl in *;
        [| congruence].
      intros _. eexists this, g'. split; [exact Hcb | reflexivity].
    + destruct (bool_decide _); simpl.
      * apply fireOnSelect_exit; assumption.
      * intros _. eexists this, _. split; [apply Inv_onCancel; exact H | reflexivity].
  - congruence.
Qed.
End Stable.

(** ** Snapshot and restoration over a session *)

Lemma tracked_ext before this g g' :
  Session.markers_kept g g' -> Session.collection_kept g g' ->
  Session.tracked before this g -> Session.tracked before this g'.
Proof.
  intros Hmarkers Hcoll [Hprev Hsame Hmarks].
  split; [exact Hprev | rewrite Hcoll; exact Hsame |].
  intros c Hmarked. apply Hmarks.
  unfold SelectCardPrompt.marked in *.
  destruct (Hmarkers c) as [<- <-]. exact Hmarked.
Qed.

Lemma relisted_tracked before this card g :
  Session.tracked before this g ->
  Session.tracked before (Session.relisted this card g) (Session.toggled this card g).
Proof.
  intros [Hprev Hcoll Hmarks].
  destruct (relisted_fields this card g) as (_ & _ & Hprev' & _).
  split; [congruence | rewrite toggled_allCards; exact Hcoll |].
  intros c Hmarked. rewrite relisted_selection.
  destruct (decide (c = card)) as [-> | Hne].
  - rewrite Hmarked. left. apply elem_of_app. right.
    apply list_elem_of_singleton. reflexivity.
  - rewrite toggled_other in Hmarked by exact Hne.
    destruct (Hmarks c Hmarked) as [Hc | Hc]; [left | right; exact Hc].
    destruct (SelectCardPrompt.marked
                (Game.cards (Session.toggled this card g) card)).
    + apply elem_of_app. left. exact Hc.
    + apply list_elem_of_filter. split; assumption.
Qed.

Lemma selectCard_tracked before this card g :
  Session.callbacks_keep_markers (SelectCardPrompt.properties this) ->
  Session.tracked before this g ->
  Session.tracked before (fst (snd (SelectCardPrompt.selectCard this card g)))
    (snd (snd (SelectCardPrompt.selectCard this card g))).
Proof.
  intros Hkeep Htracked.
  destruct (selectCard_cases this card g) as [[_ ->] | [_ ->]]; simpl;
    [exact Htracked |].
  pose proof (relisted_tracked before this card g Htracked) as Hnext.
  unfold Session.notified.
  destruct (Properties.onCardToggle _) as [f |] eqn:Hf; [| exact Hnext].
  destruct (Session.onCardToggle_keeps _ Hkeep f
              (SelectCardPrompt.choosingPlayer this) card
              (Session.toggled this card g) Hf) as [Hmarkers Hcoll].
  eapply tracked_ext; eassumption.
Qed.

Lemma highlight_tracked before this g :
  Session.tracked before this g ->
  Session.tracked before this (SelectCardPrompt.highlightSelectableCards this g).
Proof.
  destruct (highlight_frame this g) as [Hcoll Hcards].
  apply tracked_ext; [| exact Hcoll].
  intros c. split; apply Hcards.
Qed.

(** C6.  Construction records the markers of every marked card of
    [game.allCards] and clears both markers on every card of the
    collection.  On the step that completes the prompt (an accepted
    delivery, a cancellation, or a menu command that finishes it), every
    card that carried a marker before construction has both marker values
    back as they were, whatever the callbacks did.  When the callbacks leave
    markers and the card collection alone, every card of the collection has
    its markers as before construction, none is highlighted as selectable,
    and no card at all carries a marker it did not have before. *)
Theorem markers_saved_and_restored (game : Game.t) (chooser : PlayerRef)
    (options : Options.t) (this : SelectCardPrompt.t) (g1 : Game.t) :
  SelectCardPrompt.new game chooser options = Returns (this, g1) ->
  (forall c, c ∈ Game.allCards game ->
     Card.selected (Game.cards g1 c) = false
     /\ Card.opponentSelected (Game.cards g1 c) = false)
  /\ SelectCardPrompt.previouslySelectedCards this = Session.prior game
  /\ forall script i,
       let s := Session.run script (this, g1) in
       let s' := Session.step i s in
       SelectCardPrompt.completed (fst s) = false ->
       SelectCardPrompt.completed (fst s') = true ->
       (forall c, c ∈ Game.allCards game ->
          SelectCardPrompt.marked (Game.cards game c) = true ->
          Card.selected (Game.cards (snd s') c) = Card.selected (Game.cards game c)
          /\ Card.opponentSelected (Game.cards (snd s') c) =
             Card.opponentSelected (Game.cards game c))
       /\ (Session.callbacks_keep_markers (SelectCardPrompt.resolve options) ->
           Session.restored game (snd s')).
Proof.
  intros Hnew.
  destruct (new_cleared _ _ _ _ _ Hnew) as (_ & Hcleared & _).
  destruct (new_unfold _ _ _ _ _ Hnew) as [Hprev _].
  destruct (new_configuration _ _ _ _ _ Hnew) as (_ & Hprops & _).
  split; [intros c Hc; apply marked_false, Hcleared; exact Hc |].
  split; [exact Hprev |].
  intros script i s s' Hopen Hdone. subst s' s.
  destruct (Session.run script (this, g1)) as [now g] eqn:Hs. simpl in Hopen.
  split.
  - set (Inv := fun (x : SelectCardPrompt.t) (_ : Game.t) =>
                  SelectCardPrompt.previouslySelectedCards x = Session.prior game).
    assert (Hnow : Inv now g).
    { destruct (run_configuration script (this, g1)) as (_ & _ & _ & Hsame).
      unfold Inv. rewrite Hs in Hsame. simpl in Hsame. congruence. }
    destruct (exit_shape Inv) with (i := i) (this := now) (g := g)
      as (x & y & Hx & ->); try assumption; unfold Inv.
    + intros x card y Hx.
      destruct (selectCard_configuration x card y) as (_ & _ & _ & Hsame). congruence.
    + intros; assumption.
    + intros; assumption.
    + intros; assumption.
    + intros c Hc Hmarked. apply clearSelection_saved; assumption.
  - intros Hkeep.
    set (Inv := fun (x : SelectCardPrompt.t) (y : Game.t) =>
                  SelectCardPrompt.properties x = SelectCardPrompt.resolve options
                  /\ Session.tracked game x y).
    assert (Hstart : Inv this g1)
      by (split; [exact Hprops | eapply new_tracked; exact Hnew]).
    assert (Hselect : forall x card y, Inv x y ->
              Inv (fst (snd (SelectCardPrompt.selectCard x card y)))
                  (snd (snd (SelectCardPrompt.selectCard x card y)))).
    { intros x card y [Hp Ht]. split.
      - destruct (selectCard_configuration x card y) as (_ & Hsame & _). congruence.
      - apply selectCard_tracked; [rewrite Hp; exact Hkeep | exact Ht]. }
    assert (HonSelect : forall x param y, Inv x y ->
              Inv x (snd (Properties.onSelect (SelectCardPrompt.properties x)
                            (SelectCardPrompt.choosingPlayer x) param y))).
    { intros x param y [Hp Ht]. split; [exact Hp |]. rewrite Hp.
      destruct (Session.onSelect_keeps _ Hkeep (SelectCardPrompt.choosingPlayer x)
                  param y).
      eapply tracked_ext; eassumption. }
    assert (HonMenu : forall x player arg y, Inv x y ->
              Inv x (snd (Properties.onMenuCommand (SelectCardPrompt.properties x)
                            player arg y))).
    { intros x player arg y [Hp Ht]. split; [exact Hp |]. rewrite Hp.
      destruct (Session.onMenuCommand_keeps _ Hkeep player arg y).
      eapply tracked_ext; eassumption. }
    assert (HonCancel : forall x player y, Inv x y ->
              Inv x (Properties.onCancel (SelectCardPrompt.properties x) player y)).
    { intros x player y [Hp Ht]. split; [exact Hp |]. rewrite Hp.
      destruct (Session.onCancel_keeps _ Hkeep player y).
      eapply tracked_ext; eassumption. }
    assert (Hclear : forall x y, Inv x y ->
              Inv (fst (SelectCardPrompt.clearSelection x y))
                  (snd (SelectCardPrompt.clearSelection x y))).
    { intros x y [Hp Ht]. split; [exact Hp | apply clearSelection_tracked; exact Ht]. }
    assert (Hsuper : forall x y, Inv x y -> Inv (SelectCardPrompt.super_complete x) y).
    { intros x y [Hp [Ha Hb Hc]]. split; [exact Hp | split; assumption]. }
    assert (Hhighlight : forall x y, Inv x y ->
              Inv x (SelectCardPrompt.highlightSelectableCards x y)).
    { intros x y [Hp Ht]. split; [exact Hp | apply highlight_tracked; exact Ht]. }
    assert (Hnow : Inv now g).
    { pose proof (stable_run Inv Hselect HonSelect HonMenu HonCancel Hclear Hsuper
                    Hhighlight script (this, g1) Hstart) as Hrun.
      rewrite Hs in Hrun. exact Hrun. }
    destruct (exit_shape Inv Hselect HonSelect HonMenu HonCancel) with
      (i := i) (this := now) (g := g) as (x & y & [_ Hx] & ->); try assumption.
    apply clearSelection_restored. exact Hx.
Qed.

Lemma default_callbacks_keep options :
  Options.onSelect options = None ->
  Options.onMenuCommand options = None ->
  Options.onCancel options = None ->
  Options.onCardToggle options = None ->
  Session.callbacks_keep_markers (SelectCardPrompt.resolve options).
Proof.
  intros HonSelect HonMenu HonCancel Htoggle.
  split; simpl; rewrite ?HonSelect, ?HonMenu, ?HonCancel, ?Htoggle; simpl.
  - intros player param g. split; [intros c; split |]; reflexivity.
  - intros player arg g. split; [intros c; split |]; reflexivity.
  - intros player g. split; [intros c; split |]; reflexivity.
  - intros f player card g Hf. discriminate.
Qed.

(** Card 0 carries the opponent's marker before the prompt.  The prompt
    clears it, the chooser selects cards 1 and 0 and confirms, and card 0
    has the opponent's marker again and nothing else. *)
Lemma markers_saved_and_restored_witness :
  let start := Examples.started Examples.two_card_options in
  let s := Session.run Examples.picking start in
  let s' := Session.step (Session.MenuCommand 0 "done") s in
  (SelectCardPrompt.new Examples.table 0 Examples.two_card_options = Returns start
   /\ SelectCardPrompt.completed (fst s) = false
   /\ SelectCardPrompt.completed (fst s') = true
   /\ Session.callbacks_keep_markers
        (SelectCardPrompt.resolve Examples.two_card_options))
  /\ Card.opponentSelected (Game.cards Examples.table 0) = true
  /\ Card.opponentSelected (Game.cards (snd start) 0) = false
  /\ SelectCardPrompt.selectedCards (fst s) = [1; 0]
  /\ Card.selected (Game.cards (snd s) 0) = true
  /\ Card.selectable (Game.cards (snd s) 1) = true
  /\ Session.restored Examples.table (snd s').
Proof.
  intros start s s'.
  assert (Hkeep : Session.callbacks_keep_markers
                    (SelectCardPrompt.resolve Examples.two_card_options))
    by (apply default_callbacks_keep; reflexivity).
  split; [do 3 (split; [reflexivity |]); exact Hkeep |].
  do 5 (split; [reflexivity |]).
  destruct (markers_saved_and_restored Examples.table 0 Examples.two_card_options
              (fst start) (snd start) eq_refl) as (_ & _ & Hexit).
  destruct (Hexit Examples.picking (Session.MenuCommand 0 "done") eq_refl eq_refl)
    as [_ Hrestored].
  exact (Hrestored Hkeep).
Defined.

(** * Further properties of the same code *)

(** ** PurgeAction without a composed part *)

Lemma purge_no_actor moveCard this card g :
  PurgeAction.purgedBy this = None ->
  PurgeAction.purge moveCard this card g =
  moveCard (Card.owner (Game.cards g card)) card "purged" g.
Proof. intros H. unfold PurgeAction.purge. rewrite H. reflexivity. Qed.

Lemma purge_plain moveCard this card actor g :
  PurgeAction.purgedBy this = Some actor ->
  Card.gigantic (Game.cards g card) = false
  \/ Card.composedPart (Game.cards g card) = None ->
  PurgeAction.purge moveCard this card g =
  PurgeAction.stamp actor card
    (PurgeAction.push_purged actor card
       (moveCard (Card.owner (Game.cards g card)) card "purged" g)).
Proof.
  intros Hactor Hplain. unfold PurgeAction.purge. rewrite Hactor.
  destruct Hplain as [-> | ->]; [reflexivity |].
  destruct (Card.gigantic _); reflexivity.
Qed.

(** X1.  Without an initiating actor [purge] is [moveCard] and nothing
    more.  With an actor, and a card that is not gigantic or has no
    composed part, [purge] appends exactly the card to the actor's purged
    cards and stamps the card; every other player, every other card, all
    locations and the card collection are as [moveCard] returned them. *)
Theorem purge_without_part
    (moveCard : PlayerRef -> CardRef -> string -> Game.t -> Game.t)
    (this : PurgeAction.t) (card : CardRef) (g : Game.t) :
  let moved := moveCard (Card.owner (Game.cards g card)) card "purged" g in
  let g' := PurgeAction.purge moveCard this card g in
  (PurgeAction.purgedBy this = None -> g' = moved)
  /\ (forall actor,
        PurgeAction.purgedBy this = Some actor ->
        Card.gigantic (Game.cards g card) = false
        \/ Card.composedPart (Game.cards g card) = None ->
        Player.purgedCards (Game.players g' actor) =
          Player.purgedCards (Game.players moved actor) ++ [card]
        /\ Card.purgedBy (Game.cards g' card) = Some actor
        /\ (forall p, p <> actor -> Game.players g' p = Game.players moved p)
        /\ (forall c, c <> card -> Game.cards g' c = Game.cards moved c)
        /\ (forall c, Card.location (Game.cards g' c) =
                      Card.location (Game.cards moved c))
        /\ Game.allCards g' = Game.allCards moved).
Proof.
  intros moved g'. subst g'. split; [apply purge_no_actor |].
  intros actor Hactor Hplain. rewrite (purge_plain _ _ _ _ _ Hactor Hplain).
  fold moved. repeat split.
  - unfold PurgeAction.stamp, PurgeAction.push_purged. simpl.
    rewrite fn_lookup_alter. reflexivity.
  - rewrite purged_by_stamp, decide_True by reflexivity. reflexivity.
  - intros p Hp. unfold PurgeAction.stamp, PurgeAction.push_purged. simpl.
    rewrite fn_lookup_alter_ne by congruence. reflexivity.
  - intros c Hc. unfold PurgeAction.stamp, PurgeAction.push_purged. simpl.
    rewrite fn_lookup_alter_ne by congruence. reflexivity.
  - intros c. rewrite location_stamp, cards_push_purged. reflexivity.
Qed.

(** Card 0 with its part noted but no gigantic flag: purged by player 5
    it is listed alone; purged by nobody, nothing is listed. *)
Lemma purge_without_part_witness :
  let g := Examples.composite_game in
  (PurgeAction.purgedBy PurgeAction.new = None
   /\ PurgeAction.purgedBy (Examples.purge_by 5) = Some 5
   /\ Card.gigantic (Game.cards g 0) = false)
  /\ PurgeAction.purge relocate PurgeAction.new 0 g = relocate 0 0 "purged" g
  /\ Player.purgedCards
       (Game.players (PurgeAction.purge relocate (Examples.purge_by 5) 0 g) 5) = [0]
  /\ Card.purgedBy
       (Game.cards (PurgeAction.purge relocate (Examples.purge_by 5) 0 g) 1) = None.
Proof.
  intros g. split; [repeat split |].
  destruct (purge_without_part relocate PurgeAction.new 0 g) as [Hnone _].
  destruct (purge_without_part relocate (Examples.purge_by 5) 0 g) as [_ Hsome].
  destruct (Hsome 5 eq_refl (or_introl eq_refl)) as (Hlist & _ & _ & Hother & _).
  split; [exact (Hnone eq_refl) |].
  split; [exact Hlist |].
  rewrite (Hother 1) by discriminate. reflexivity.
Defined.

Lemma purge_gigantic_flag moveCard this card g c :
  Frame.keeps_purged_lists moveCard ->
  Card.gigantic (Game.cards (PurgeAction.purge moveCard this card g) c) =
  Card.gigantic (Game.cards g c).
Proof.
  intros Hkeeps.
  destruct (Hkeeps (Card.owner (Game.cards g card)) card "purged" g) as [_ Hflag].
  unfold PurgeAction.purge.
  assert (Hstamp : forall actor x y,
            Card.gigantic (Game.cards (PurgeAction.stamp actor x y) c) =
            Card.gigantic (Game.cards y c)).
  { intros actor x y. unfold PurgeAction.stamp. rewrite cards_update_card.
    destruct (decide (x = c)); subst; reflexivity. }
  destruct (PurgeAction.purgedBy this) as [actor |]; [| apply Hflag].
  destruct (if Card.gigantic (Game.cards g card)
            then Card.composedPart (Game.cards g card) else None);
    rewrite ?Hstamp, ?cards_push_purged, ?Hstamp, ?cards_push_purged; apply Hflag.
Qed.

(** X2.  [purge] has no guard against repetition.  With a [moveCard] that
    leaves the purged lists and the gigantic flags alone, purging the same
    card [n] times on behalf of an actor lists it [n] times more in the
    actor's purged cards. *)
Theorem purge_repeated
    (moveCard : PlayerRef -> CardRef -> string -> Game.t -> Game.t)
    (this : PurgeAction.t) (card : CardRef) (actor : PlayerRef) (n : nat)
    (g : Game.t) :
  Frame.keeps_purged_lists moveCard ->
  PurgeAction.purgedBy this = Some actor ->
  Card.gigantic (Game.cards g card) = false ->
  Player.purgedCards
    (Game.players (Nat.iter n (PurgeAction.purge moveCard this card) g) actor) =
  Player.purgedCards (Game.players g actor) ++ replicate n card.
Proof.
  intros Hkeeps Hactor Hflat.
  assert (Hflag : forall k,
            Card.gigantic
              (Game.cards (Nat.iter k (PurgeAction.purge moveCard this card) g) card)
            = false).
  { induction k as [| k IH]; [exact Hflat |].
    simpl. rewrite purge_gigantic_flag by exact Hkeeps. exact IH. }
  induction n as [| n IH]; simpl.
  - rewrite app_nil_r. reflexivity.
  - rewrite purge_plain with (actor := actor);
      [| exact Hactor | left; apply Hflag].
    unfold PurgeAction.stamp, PurgeAction.push_purged. simpl.
    rewrite fn_lookup_alter. simpl.
    destruct (Hkeeps
                (Card.owner
                   (Game.cards (Nat.iter n (PurgeAction.purge moveCard this card) g)
                      card))
                card "purged"
                (Nat.iter n (PurgeAction.purge moveCard this card) g)) as [Hlists _].
    rewrite Hlists, IH, <- app_assoc.
    change (card :: replicate n card) with (replicate (S n) card).
    rewrite replicate_S_end. reflexivity.
Qed.

Lemma relocate_keeps_purged_lists : Frame.keeps_purged_lists relocate.
Proof.
  intros owner card target g. split; [reflexivity |].
  intros c. unfold relocate. rewrite cards_update_card.
  destruct (decide (card = c)); subst; reflexivity.
Qed.

Lemma purge_repeated_witness :
  (Frame.keeps_purged_lists relocate
   /\ PurgeAction.purgedBy (Examples.purge_by 5) = Some 5
   /\ Card.gigantic (Game.cards Examples.composite_game 0) = false)
  /\ Player.purgedCards
       (Game.players
          (Nat.iter 3 (PurgeAction.purge relocate (Examples.purge_by 5) 0)
             Examples.composite_game) 5) = [0; 0; 0].
Proof.
  split; [split; [exact relocate_keeps_purged_lists | split; reflexivity] |].
  exact (purge_repeated relocate (Examples.purge_by 5) 0 5 3 Examples.composite_game
           relocate_keeps_purged_lists eq_refl eq_refl).
Defined.

(** ** SelectCardPrompt: what the players are shown *)

Lemma run_properties game chooser options this g1 script :
  SelectCardPrompt.new game chooser options = Returns (this, g1) ->
  SelectCardPrompt.properties (fst (Session.run script (this, g1))) =
    SelectCardPrompt.resolve options
  /\ SelectCardPrompt.choosingPlayer (fst (Session.run script (this, g1))) = chooser.
Proof.
  intros Hnew.
  destruct (run_configuration script (this, g1)) as (Hchooser & Hprops & _).
  destruct (new_configuration _ _ _ _ _ Hnew) as (Hc & Hp & _).
  simpl in Hchooser, Hprops. split; congruence.
Qed.

(** X3.  What the other players read, at every moment of the prompt's
    life: a non-empty [waitingPromptTitle] as given; without one (or with
    an empty one) "Waiting for opponent to use " followed by the name of
    the source when there is a source, and "Waiting for opponent" when
    there is none. *)
Theorem waiting_title (game : Game.t) (chooser : PlayerRef) (options : Options.t)
    (this : SelectCardPrompt.t) (g1 : Game.t) (script : list Session.Interaction) :
  SelectCardPrompt.new game chooser options = Returns (this, g1) ->
  let shown :=
    WaitingPrompt.menuTitle
      (SelectCardPrompt.waitingPrompt (fst (Session.run script (this, g1)))) in
  (forall title, Options.waitingPromptTitle options = Some title ->
     title <> EmptyString -> shown = title)
  /\ (forall source, Options.source options = Some source ->
        truthy (Options.waitingPromptTitle options) = false ->
        shown = "Waiting for opponent to use " +:+ Source.name source)
  /\ (Options.source options = None ->
      truthy (Options.waitingPromptTitle options) = false ->
      shown = "Waiting for opponent").
Proof.
  intros Hnew shown. subst shown.
  destruct (run_properties _ _ _ _ _ script Hnew) as [Hprops _].
  unfold SelectCardPrompt.waitingPrompt. simpl. rewrite Hprops.
  unfold SelectCardPrompt.resolve. simpl.
  split; [| split].
  - intros title Htitle Hne. rewrite Htitle.
    assert (Heqb : String.eqb title EmptyString = false)
      by (apply String.eqb_neq; exact Hne).
    destruct (Options.source options); simpl; rewrite ?Heqb; simpl;
      rewrite ?Heqb; reflexivity.
  - intros source -> Hfalsy. rewrite Hfalsy. reflexivity.
  - intros -> Hfalsy. unfold truthy, or_else in *.
    destruct (Options.waitingPromptTitle options) as [title |]; [| reflexivity].
    apply negb_false_iff in Hfalsy. rewrite Hfalsy. reflexivity.
Qed.

Lemma waiting_title_witness :
  (SelectCardPrompt.new MoreExamples.board 0 MoreExamples.titled_options =
     Returns MoreExamples.titled
   /\ Options.source MoreExamples.titled_options = Some (Source.mk "Foreign Legion")
   /\ truthy (Options.waitingPromptTitle MoreExamples.titled_options) = false)
  /\ WaitingPrompt.menuTitle
       (SelectCardPrompt.waitingPrompt (fst MoreExamples.titled))
     = "Waiting for opponent to use Foreign Legion".
Proof.
  split; [repeat split |].
  destruct (waiting_title MoreExamples.board 0 MoreExamples.titled_options
              (fst MoreExamples.titled) (snd MoreExamples.titled) [] eq_refl)
    as (_ & Hsource & _).
  exact (Hsource (Source.mk "Foreign Legion") eq_refl eq_refl).
Defined.

(** X4.  What the deciding player is shown, at every moment of the
    prompt's life: a non-empty [activePromptTitle] as the menu title and
    "Select undefined cards" for an empty one; the additional buttons in
    their order followed by the "Done" button, which is always last; and
    the name of the source, if any, as prompt title. *)
Theorem active_view (game : Game.t) (chooser : PlayerRef) (options : Options.t)
    (this : SelectCardPrompt.t) (g1 : Game.t) (script : list Session.Interaction) :
  SelectCardPrompt.new game chooser options = Returns (this, g1) ->
  let view := SelectCardPrompt.activePrompt (fst (Session.run script (this, g1))) in
  (forall title, Options.activePromptTitle options = Some title ->
     ActivePrompt.menuTitle view =
     if String.eqb title EmptyString then "Select undefined cards" else title)
  /\ ActivePrompt.buttons view =
     default [] (Options.additionalButtons options) ++ [Button.mk "Done" "done"]
  /\ last (ActivePrompt.buttons view) = Some (Button.mk "Done" "done")
  /\ ActivePrompt.promptTitle view = Source.name <$> Options.source options
  /\ ActivePrompt.selectCard view = true.
Proof.
  intros Hnew view. subst view.
  destruct (run_properties _ _ _ _ _ script Hnew) as [Hprops _].
  unfold SelectCardPrompt.activePrompt, SelectCardPrompt.defaultActivePromptTitle.
  simpl. rewrite Hprops. simpl.
  split; [intros title ->; reflexivity |].
  split; [reflexivity |].
  split; [apply last_snoc |].
  split; reflexivity.
Qed.

Lemma active_view_witness :
  let view := SelectCardPrompt.activePrompt (fst MoreExamples.titled) in
  (SelectCardPrompt.new MoreExamples.board 0 MoreExamples.titled_options =
     Returns MoreExamples.titled
   /\ Options.activePromptTitle MoreExamples.titled_options =
      Some "Choose two creatures")
  /\ ActivePrompt.menuTitle view = "Choose two creatures"
  /\ ActivePrompt.buttons view =
     [Button.mk "Skip" "skip"; Button.mk "Back" "back"; Button.mk "Done" "done"]
  /\ ActivePrompt.promptTitle view = Some "Foreign Legion".
Proof.
  intros view. split; [repeat split |].
  destruct (active_view MoreExamples.board 0 MoreExamples.titled_options
              (fst MoreExamples.titled) (snd MoreExamples.titled) [] eq_refl)
    as (Htitle & Hbuttons & _ & Hprompt & _).
  split; [exact (Htitle "Choose two creatures" eq_refl) |].
  split; [exact Hbuttons | exact Hprompt].
Defined.

(** ** SelectCardPrompt: the card-type filter *)

(** X5.  A click is taken only on a card whose type is let through: with
    [cardType] given as one string, only cards of exactly that type; with
    an array, only the types in the array; without [cardType], only
    attachments, characters, events and locations.  This holds at every
    moment of the prompt's life. *)
Theorem type_filter (game : Game.t) (chooser : PlayerRef) (options : Options.t)
    (this : SelectCardPrompt.t) (g1 : Game.t) (script : list Session.Interaction)
    (g : Game.t) (card : CardRef) :
  SelectCardPrompt.new game chooser options = Returns (this, g1) ->
  let now := fst (Session.run script (this, g1)) in
  (SelectCardPrompt.checkCardCondition now g card = true <->
   Card.getType (Game.cards g card) ∈ Frame.listed_types options
   /\ SelectCardPrompt.callCardCondition now g card = true)
  /\ (forall type, Options.cardType options = Some (OneType type) ->
        SelectCardPrompt.checkCardCondition now g card = true ->
        Card.getType (Game.cards g card) = type)
  /\ (Card.getType (Game.cards g card) ∉ Frame.listed_types options ->
      forall player,
        Session.step (Session.CardClicked player card) (now, g) = (now, g)).
Proof.
  intros Hnew now.
  destruct (run_properties _ _ _ _ _ script Hnew) as [Hprops _]. fold now in Hprops.
  assert (Hlisted : Properties.cardType (SelectCardPrompt.properties now) =
                    Frame.listed_types options).
  { rewrite Hprops. unfold SelectCardPrompt.resolve, Frame.listed_types. simpl.
    destruct (Options.cardType options) as [[type | types] |]; reflexivity. }
  assert (Hiff : SelectCardPrompt.checkCardCondition now g card = true <->
                 Card.getType (Game.cards g card) ∈ Frame.listed_types options
                 /\ SelectCardPrompt.callCardCondition now g card = true).
  { unfold SelectCardPrompt.checkCardCondition, SelectCardPrompt.includes.
    rewrite Hlisted, andb_true_iff, bool_decide_eq_true. reflexivity. }
  split; [exact Hiff |]. split.
  - intros type Htype Hcheck. apply Hiff in Hcheck. destruct Hcheck as [Hin _].
    unfold Frame.listed_types in Hin. rewrite Htype in Hin.
    apply list_elem_of_singleton in Hin. exact Hin.
  - intros Hout player. simpl.
    unfold SelectCardPrompt.onCardClicked.
    destruct (negb (bool_decide _)); [reflexivity |].
    destruct (SelectCardPrompt.checkCardCondition now g card) eqn:Hcheck;
      [| reflexivity].
    destruct (proj1 Hiff eq_refl) as [Hin _]. contradiction.
Qed.

(** The prompt wants creatures: the artifact 2 cannot be clicked. *)
Lemma type_filter_witness :
  (SelectCardPrompt.new MoreExamples.board 0 MoreExamples.titled_options =
     Returns MoreExamples.titled
   /\ Options.cardType MoreExamples.titled_options = Some (OneType "creature")
   /\ (Card.getType (Game.cards (snd MoreExamples.titled) 2)
       ∉ Frame.listed_types MoreExamples.titled_options))
  /\ Session.step (Session.CardClicked 0 2) MoreExamples.titled = MoreExamples.titled.
Proof.
  assert (Hout : Card.getType (Game.cards (snd MoreExamples.titled) 2)
                 ∉ Frame.listed_types MoreExamples.titled_options)
    by (vm_compute; unlisted).
  split; [split; [reflexivity | split; [reflexivity | exact Hout]] |].
  destruct (type_filter MoreExamples.board 0 MoreExamples.titled_options
              (fst MoreExamples.titled) (snd MoreExamples.titled) []
              (snd MoreExamples.titled) 2 eq_refl) as (_ & _ & Hskip).
  exact (Hskip Hout 0).
Defined.

(** ** SelectCardPrompt: highlighting *)

Lemma highlight_only_refl g : Frame.highlight_only g g.
Proof. repeat split. Qed.

Lemma highlight_only_trans a b c :
  Frame.highlight_only a b -> Frame.highlight_only b c -> Frame.highlight_only a c.
Proof.
  intros (Ha & Hp & Hc) (Ha' & Hp' & Hc').
  split; [congruence |]. split.
  - intros p. rewrite Hp'. apply Hp.
  - intros x. rewrite Hc'. apply Hc.
Qed.

Lemma highlight_only_type a b c :
  Frame.highlight_only a b ->
  Card.getType (Game.cards b c) = Card.getType (Game.cards a c).
Proof.
  intros (_ & _ & Hc). exact (f_equal Card.getType (Hc c)).
Qed.

Lemma set_selectable_highlight_only v card g :
  Frame.highlight_only g (Game.update_card (Card.set_selectable v) card g).
Proof.
  repeat split. intros c. rewrite cards_update_card.
  destruct (decide (card = c)); subst; reflexivity.
Qed.

Lemma visit_highlight_only this g card :
  Frame.highlight_only g (Frame.visit this g card).
Proof.
  unfold Frame.visit. destruct (SelectCardPrompt.includes _ _);
    [apply set_selectable_highlight_only | apply highlight_only_refl].
Qed.

Lemma visit_other this g card c :
  c <> card
  \/ SelectCardPrompt.includes
       (Properties.cardType (SelectCardPrompt.properties this))
       (Card.getType (Game.cards g c)) = false ->
  Game.cards (Frame.visit this g card) c = Game.cards g c.
Proof.
  intros Hother. unfold Frame.visit.
  destruct (SelectCardPrompt.includes _ (Card.getType (Game.cards g card)))
    eqn:Hlisted; [| reflexivity].
  rewrite cards_update_card.
  destruct (decide (card = c)) as [-> | _]; [| reflexivity].
  destruct Hother as [Hne | Hnot]; [contradiction | congruence].
Qed.

Lemma visits_frame this l g :
  Frame.highlight_only g (foldl (Frame.visit this) g l)
  /\ forall c,
       c ∉ l
       \/ SelectCardPrompt.includes
            (Properties.cardType (SelectCardPrompt.properties this))
            (Card.getType (Game.cards g c)) = false ->
       Game.cards (foldl (Frame.visit this) g l) c = Game.cards g c.
Proof.
  revert g. induction l as [| a l IH]; intros g; simpl.
  - split; [apply highlight_only_refl | reflexivity].
  - destruct (IH (Frame.visit this g a)) as [Honly Hsame]. split.
    + eapply highlight_only_trans; [apply visit_highlight_only | exact Honly].
    + intros c Hc. rewrite Hsame.
      * apply visit_other. destruct Hc as [Hc | Hc]; [left | right; exact Hc].
        intros ->. apply Hc. left.
      * destruct Hc as [Hc | Hc]; [left; intros Hin; apply Hc; right; exact Hin |].
        right. rewrite (highlight_only_type g (Frame.visit this g a));
          [exact Hc | apply visit_highlight_only].
Qed.

Lemma visits_set this g0 l g c :
  Frame.ignores_highlight (SelectCardPrompt.callCardCondition this) ->
  Frame.highlight_only g0 g ->
  c ∈ l ->
  SelectCardPrompt.includes
    (Properties.cardType (SelectCardPrompt.properties this))
    (Card.getType (Game.cards g0 c)) = true ->
  Card.selectable (Game.cards (foldl (Frame.visit this) g l) c) =
  SelectCardPrompt.callCardCondition this g0 c.
Proof.
  intros Hignores. revert g. induction l as [| a l IH]; intros g Honly Hin Hlisted.
  - apply elem_of_nil in Hin. contradiction.
  - simpl. destruct (decide (c ∈ l)) as [Hlater | Hlast].
    + apply IH; [| exact Hlater | exact Hlisted].
      eapply highlight_only_trans; [exact Honly | apply visit_highlight_only].
    + apply elem_of_cons in Hin. destruct Hin as [-> | Hin]; [| contradiction].
      destruct (visits_frame this l (Frame.visit this g a)) as [_ Hsame].
      rewrite Hsame by (left; exact Hlast).
      unfold Frame.visit. rewrite (highlight_only_type g0 g) by exact Honly.
      rewrite Hlisted, cards_update_card, decide_True by reflexivity. simpl.
      apply Hignores. exact Honly.
Qed.

(** X6.  One pass of [highlightSelectableCards] changes nothing but
    [selectable] flags.  Cards outside [game.allCards] and cards whose type
    is not listed keep their flag, whatever it was.  When the card condition
    does not look at [selectable] flags, every listed-type card of the
    collection ends with [selectable] equal to the card condition evaluated
    before the pass.  [continue] runs this pass exactly while the prompt is
    incomplete. *)
Theorem highlight_recomputed (this : SelectCardPrompt.t) (g : Game.t) :
  let listed c :=
    SelectCardPrompt.includes
      (Properties.cardType (SelectCardPrompt.properties this))
      (Card.getType (Game.cards g c)) in
  let g' := SelectCardPrompt.highlightSelectableCards this g in
  Frame.highlight_only g g'
  /\ (forall c, c ∉ Game.allCards g \/ listed c = false ->
        Game.cards g' c = Game.cards g c)
  /\ (Frame.ignores_highlight (SelectCardPrompt.callCardCondition this) ->
      forall c, c ∈ Game.allCards g -> listed c = true ->
        Card.selectable (Game.cards g' c) =
        SelectCardPrompt.callCardCondition this g c)
  /\ SelectCardPrompt.continue this g =
     (SelectCardPrompt.completed this,
      if SelectCardPrompt.completed this then g else g').
Proof.
  intros listed g'. subst listed g'.
  change (SelectCardPrompt.highlightSelectableCards this g)
    with (foldl (Frame.visit this) g (Game.allCards g)).
  destruct (visits_frame this (Game.allCards g) g) as [Honly Hsame].
  split; [exact Honly |]. split; [exact Hsame |]. split.
  - intros Hignores c Hin Hlisted.
    apply (visits_set this g);
      [exact Hignores | apply highlight_only_refl | assumption..].
  - unfold SelectCardPrompt.continue, SelectCardPrompt.super_continue,
      SelectCardPrompt.isComplete.
    destruct (SelectCardPrompt.completed this); reflexivity.
Qed.

Lemma constant_condition_ignores_highlight this :
  (forall selection g card, SelectCardPrompt.cardCondition this selection g card = true) ->
  Frame.ignores_highlight (SelectCardPrompt.callCardCondition this).
Proof.
  intros Hconst g g' card _. unfold SelectCardPrompt.callCardCondition.
  rewrite !Hconst. reflexivity.
Qed.

(** The creatures 0 and 1 become selectable; the artifact 2 keeps the
    highlight it had. *)
Lemma highlight_recomputed_witness :
  let this := fst MoreExamples.titled in
  let g := snd MoreExamples.titled in
  let g' := SelectCardPrompt.highlightSelectableCards this g in
  (Frame.ignores_highlight (SelectCardPrompt.callCardCondition this)
   /\ (0 ∈ Game.allCards g)
   /\ Card.getType (Game.cards g 2) = "artifact")
  /\ Card.selectable (Game.cards g 0) = false
  /\ Card.selectable (Game.cards g' 0) = true
  /\ Game.cards g' 2 = Game.cards g 2
  /\ Card.selectable (Game.cards g' 2) = true.
Proof.
  intros this g g'.
  assert (Hignores : Frame.ignores_highlight (SelectCardPrompt.callCardCondition this))
    by (apply constant_condition_ignores_highlight; reflexivity).
  assert (Hin : 0 ∈ Game.allCards g) by (vm_compute; listed).
  split; [split; [exact Hignores | split; [exact Hin | reflexivity]] |].
  destruct (highlight_recomputed this g) as (_ & Hsame & Hset & _).
  split; [reflexivity |].
  split; [exact (Hset Hignores 0 Hin eq_refl) |].
  assert (Hkept : Game.cards g' 2 = Game.cards g 2)
    by (apply Hsame; right; reflexivity).
  split; [exact Hkept | rewrite Hkept; reflexivity].
Defined.

(** ** SelectCardPrompt: who can act, and what completes a prompt *)

(** X7.  Interactions by players other than the deciding player are
    ignored: a script made of their clicks and menu commands, however long,
    leaves the prompt and the game exactly as they were. *)
Theorem spectators_ignored (s : SelectCardPrompt.t * Game.t)
    (script : list Session.Interaction) :
  Forall (Frame.spectator (SelectCardPrompt.choosingPlayer (fst s))) script ->
  Session.run script s = s.
Proof.
  intros Hall. induction Hall as [| i script Hi _ IH]; [reflexivity |].
  simpl. destruct s as [this g]. simpl in *.
  assert (Hstep : Session.step i (this, g) = (this, g)).
  { destruct i as [player card | player arg |]; simpl in Hi; [| | contradiction].
    - simpl. unfold SelectCardPrompt.onCardClicked.
      rewrite bool_decide_eq_false_2 by exact Hi. reflexivity.
    - simpl. unfold SelectCardPrompt.onMenuCommand.
      rewrite bool_decide_eq_false_2 by exact Hi. reflexivity. }
  rewrite Hstep. exact IH.
Qed.

Lemma spectators_ignored_witness :
  let script := [Session.CardClicked 1 1; Session.MenuCommand 1 "done";
                 Session.MenuCommand 2 "skip"] in
  Forall (Frame.spectator (SelectCardPrompt.choosingPlayer (fst MoreExamples.titled)))
    script
  /\ Session.run script MoreExamples.titled = MoreExamples.titled.
Proof.
  intros script.
  assert (Hall : Forall
            (Frame.spectator (SelectCardPrompt.choosingPlayer (fst MoreExamples.titled)))
            script).
  { repeat constructor; simpl; discriminate. }
  split; [exact Hall | exact (spectators_ignored MoreExamples.titled script Hall)].
Defined.

Lemma clearSelection_completed this g :
  SelectCardPrompt.completed (fst (SelectCardPrompt.clearSelection this g)) =
  SelectCardPrompt.completed this.
Proof. reflexivity. Qed.

Lemma complete_completed this g :
  SelectCardPrompt.completed (fst (SelectCardPrompt.complete this g)) = true.
Proof. reflexivity. Qed.

Lemma fireOnSelect_completed this g :
  SelectCardPrompt.completed (fst (SelectCardPrompt.fireOnSelect this g)) =
  Frame.accepted this g || SelectCardPrompt.completed this.
Proof.
  rewrite fireOnSelect_unfold. unfold Frame.accepted. cbv zeta.
  destruct (fst (Properties.onSelect _ _ _ _)); reflexivity.
Qed.

(** X8.  A prompt becomes complete on a step exactly for one of four
    reasons: a click by the deciding player that delivers and whose
    delivery [onSelect] accepts; a menu command other than "done" that the
    caller's handler answers with true; "done" with an empty selection; or
    "done" with a selection that [onSelect] accepts.  Nothing else completes
    it: not [continue], not a rejected delivery, not another player. *)
Theorem completion_causes (this : SelectCardPrompt.t) (g : Game.t)
    (i : Session.Interaction) :
  SelectCardPrompt.completed this = false ->
  (SelectCardPrompt.completed (fst (Session.step i (this, g))) = true
   <-> Frame.completes this g i).
Proof.
  intros Hopen.
  destruct i as [player card | player arg |]; simpl.
  - destruct (Session.delivers this player card g) eqn:Hdelivers.
    + rewrite (delivering_click _ _ _ _ Hdelivers), fireOnSelect_completed.
      rewrite selectCard_completed, Hopen, orb_false_r. tauto.
    + split; [| intros [? _]; discriminate].
      destruct (quiet_click _ _ _ _ Hdelivers) as [-> | ->]; simpl.
      * congruence.
      * rewrite selectCard_completed. congruence.
  - unfold SelectCardPrompt.onMenuCommand.
    destruct (decide (player = SelectCardPrompt.choosingPlayer this)) as [Hp | Hp].
    + rewrite (bool_decide_eq_true_2 _ Hp). simpl.
      destruct (String.eqb_spec arg "done") as [-> | Harg]; simpl.
      * destruct (SelectCardPrompt.selectedCards this) as [| c rest] eqn:Hsel.
        -- simpl. split; [intros _ | reflexivity].
           split; [exact Hp |]. right. left. split; reflexivity.
        -- rewrite bool_decide_eq_true_2 by (simpl; lia). simpl.
           rewrite fireOnSelect_completed, Hopen, orb_false_r. split.
           ++ intros Hacc. split; [exact Hp |]. right. right.
              split; [reflexivity |]. split; [discriminate | exact Hacc].
           ++ intros [_ [[Hne _] | [[_ Hnil] | (_ & _ & Hacc)]]];
                [contradiction | discriminate | exact Hacc].
      * destruct (Properties.onMenuCommand _ player arg g) as [finished g'] eqn:Hcb.
        simpl. destruct finished; simpl.
        -- split; [intros _ | reflexivity].
           split; [exact Hp |]. left. split; [exact Harg | reflexivity].
        -- rewrite Hopen. split; [discriminate |].
           intros [_ [[_ Habs] | [[Habs _] | (Habs & _)]]];
             [discriminate | contradiction | contradiction].
    + rewrite (bool_decide_eq_false_2 _ Hp). simpl. rewrite Hopen.
      split; [discriminate | intros [Habs _]; contradiction].
  - rewrite Hopen. split; [discriminate | contradiction].
Qed.

(** The refusing caller turns the delivery down: "done" with card 1
    selected does not complete the prompt; "done" with nothing selected
    does. *)
Lemma completion_causes_witness :
  let s0 := Examples.started Examples.refusing_options in
  let s1 := Session.step (Session.CardClicked 0 1) s0 in
  (SelectCardPrompt.completed (fst s0) = false
   /\ SelectCardPrompt.completed (fst s1) = false
   /\ Frame.completes (fst s0) (snd s0) (Session.MenuCommand 0 "done")
   /\ ~ Frame.completes (fst s1) (snd s1) (Session.MenuCommand 0 "done"))
  /\ SelectCardPrompt.completed
       (fst (Session.step (Session.MenuCommand 0 "done") s0)) = true
  /\ SelectCardPrompt.completed
       (fst (Session.step (Session.MenuCommand 0 "done") s1)) <> true.
Proof.
  intros s0 s1.
  assert (Hyes : Frame.completes (fst s0) (snd s0) (Session.MenuCommand 0 "done")).
  { split; [reflexivity |]. right. left. split; reflexivity. }
  assert (Hno : ~ Frame.completes (fst s1) (snd s1) (Session.MenuCommand 0 "done")).
  { intros [_ [[Habs _] | [[_ Habs] | (_ & _ & Habs)]]];
      [apply Habs; reflexivity | discriminate Habs | discriminate Habs]. }
  split; [split; [reflexivity | split; [reflexivity | split; assumption]] |].
  split.
  - exact (proj2 (completion_causes (fst s0) (snd s0)
                    (Session.MenuCommand 0 "done") eq_refl) Hyes).
  - intros Hdone. apply Hno.
    exact (proj1 (completion_causes (fst s1) (snd s1)
                    (Session.MenuCommand 0 "done") eq_refl) Hdone).
Defined.

(** ** SelectCardPrompt: a delivery that is turned down *)

Lemma tracked_run game chooser options this g1 script :
  SelectCardPrompt.new game chooser options = Returns (this, g1) ->
  Session.callbacks_keep_markers (SelectCardPrompt.resolve options) ->
  SelectCardPrompt.properties (fst (Session.run script (this, g1))) =
    SelectCardPrompt.resolve options
  /\ Session.tracked game (fst (Session.run script (this, g1)))
       (snd (Session.run script (this, g1))).
Proof.
  intros Hnew Hkeep.
  destruct (new_configuration _ _ _ _ _ Hnew) as (_ & Hprops & _).
  set (Inv := fun (x : SelectCardPrompt.t) (y : Game.t) =>
                SelectCardPrompt.properties x = SelectCardPrompt.resolve options
                /\ Session.tracked game x y).
  apply (stable_run Inv); unfold Inv.
  - intros x card y [Hp Ht]. split.
    + destruct (selectCard_configuration x card y) as (_ & Hsame & _). congruence.
    + apply selectCard_tracked; [rewrite Hp; exact Hkeep | exact Ht].
  - intros x param y [Hp Ht]. split; [exact Hp |]. rewrite Hp.
    destruct (Session.onSelect_keeps _ Hkeep (SelectCardPrompt.choosingPlayer x)
                param y).
    eapply tracked_ext; eassumption.
  - intros x player arg y [Hp Ht]. split; [exact Hp |]. rewrite Hp.
    destruct (Session.onMenuCommand_keeps _ Hkeep player arg y).
    eapply tracked_ext; eassumption.
  - intros x player y [Hp Ht]. split; [exact Hp |]. rewrite Hp.
    destruct (Session.onCancel_keeps _ Hkeep player y).
    eapply tracked_ext; eassumption.
  - intros x y [Hp Ht]. split; [exact Hp | apply clearSelection_tracked; exact Ht].
  - intros x y [Hp [Ha Hb Hc]]. split; [exact Hp | split; assumption].
  - intros x y [Hp Ht]. split; [exact Hp | apply highlight_tracked; exact Ht].
  - split; [exact Hprops | eapply new_tracked; exact Hnew].
Qed.

(** X9.  When the deciding player confirms a non-empty selection and
    [onSelect] turns it down, the prompt stays incomplete with an empty
    selection, and (callbacks leaving markers and the collection alone) the
    game is as at completion: every card of the collection has the markers
    it had before the prompt was built - markers the constructor had
    cleared are back while the prompt is still on - and none is
    highlighted. *)
Theorem rejected_delivery (game : Game.t) (chooser : PlayerRef)
    (options : Options.t) (this : SelectCardPrompt.t) (g1 : Game.t)
    (script : list Session.Interaction) :
  SelectCardPrompt.new game chooser options = Returns (this, g1) ->
  Session.callbacks_keep_markers (SelectCardPrompt.resolve options) ->
  let s := Session.run script (this, g1) in
  let s' := Session.step (Session.MenuCommand chooser "done") s in
  SelectCardPrompt.selectedCards (fst s) <> [] ->
  Frame.accepted (fst s) (snd s) = false ->
  SelectCardPrompt.selectedCards (fst s') = []
  /\ SelectCardPrompt.completed (fst s') = SelectCardPrompt.completed (fst s)
  /\ Session.restored game (snd s').
Proof.
  intros Hnew Hkeep s s' Hsel Hrejected. subst s'.
  destruct (tracked_run _ _ _ _ _ script Hnew Hkeep) as [Hprops Htracked].
  destruct (run_properties _ _ _ _ _ script Hnew) as [_ Hchooser].
  fold s in Hprops, Htracked, Hchooser.
  destruct s as [now g]. simpl in *.
  unfold SelectCardPrompt.onMenuCommand.
  rewrite bool_decide_eq_true_2 by congruence. simpl.
  rewrite bool_decide_eq_true_2
    by (destruct (SelectCardPrompt.selectedCards now); [contradiction | simpl; lia]).
  rewrite fireOnSelect_unfold. cbv zeta.
  unfold Frame.accepted in Hrejected. rewrite Hrejected. simpl.
  split; [reflexivity |]. split; [reflexivity |].
  apply clearSelection_restored.
  destruct (Session.onSelect_keeps _ Hkeep (SelectCardPrompt.choosingPlayer now)
              (SelectCardPrompt.cardParam now) g) as [Hmarkers Hcoll].
  rewrite Hprops. eapply tracked_ext; eassumption.
Qed.

Lemma refusing_callbacks_keep :
  Session.callbacks_keep_markers (SelectCardPrompt.resolve Examples.refusing_options).
Proof.
  split; simpl.
  - intros player param g. split; [intros c; split |]; reflexivity.
  - intros player arg g. split; [intros c; split |]; reflexivity.
  - intros player g. split; [intros c; split |]; reflexivity.
  - intros f player card g Hf. discriminate.
Qed.

(** Card 0 carried the opponent's marker before the prompt; after the
    refused "done" it carries it again and card 1, which was selected, is
    unmarked. *)
Lemma rejected_delivery_witness :
  let s := Session.run [Session.CardClicked 0 1]
             (Examples.started Examples.refusing_options) in
  let s' := Session.step (Session.MenuCommand 0 "done") s in
  (SelectCardPrompt.new Examples.table 0 Examples.refusing_options =
     Returns (Examples.started Examples.refusing_options)
   /\ SelectCardPrompt.selectedCards (fst s) <> []
   /\ Frame.accepted (fst s) (snd s) = false)
  /\ Card.opponentSelected (Game.cards (snd s) 0) = false
  /\ Card.opponentSelected (Game.cards (snd s') 0) = true
  /\ SelectCardPrompt.selectedCards (fst s') = []
  /\ SelectCardPrompt.completed (fst s') = false
  /\ Session.restored Examples.table (snd s').
Proof.
  intros s s'.
  assert (Hsel : SelectCardPrompt.selectedCards (fst s) <> [])
    by (vm_compute; discriminate).
  split; [split; [reflexivity | split; [exact Hsel | reflexivity]] |].
  do 2 (split; [reflexivity |]).
  destruct (rejected_delivery Examples.table 0 Examples.refusing_options
              (fst (Examples.started Examples.refusing_options))
              (snd (Examples.started Examples.refusing_options))
              [Session.CardClicked 0 1] eq_refl refusing_callbacks_keep
              Hsel eq_refl) as (Hempty & Hopen & Hrestored).
  split; [exact Hempty |]. split; [exact Hopen | exact Hrestored].
Defined.

(** ** SelectCardPrompt: prompts built on a game without markers *)

Lemma fresh_select this card g :
  Session.consistent this g ->
  card ∉ SelectCardPrompt.selectedCards this ->
  SelectCardPrompt.selectedCards (Session.relisted this card g) =
  SelectCardPrompt.selectedCards this ++ [card].
Proof.
  intros [_ _ Hothers _] Hnew. rewrite relisted_selection.
  destruct (toggled_on this card g (Hothers card Hnew)) as [_ ->]. reflexivity.
Qed.

Lemma single_fresh_delivers this player card g :
  Session.consistent this g ->
  SelectCardPrompt.selectedCards this = [] ->
  Properties.numCards (SelectCardPrompt.properties this) = 1%Z ->
  Properties.multiSelect (SelectCardPrompt.properties this) = false ->
  player = SelectCardPrompt.choosingPlayer this ->
  SelectCardPrompt.checkCardCondition this g card = true ->
  Session.blocked this card = false
  /\ SelectCardPrompt.selectedCards (Session.relisted this card g) = [card]
  /\ Session.delivers this player card g = true.
Proof.
  intros Hconsistent Hempty Hone Hsingle Hplayer Hcheck.
  assert (Hfree : Session.blocked this card = false).
  { unfold Session.blocked. rewrite Hone, Hempty. reflexivity. }
  assert (Hlisted : SelectCardPrompt.selectedCards (Session.relisted this card g)
                    = [card]).
  { rewrite fresh_select; [rewrite Hempty; reflexivity | exact Hconsistent |].
    rewrite Hempty. apply not_elem_of_nil. }
  split; [exact Hfree |]. split; [exact Hlisted |].
  unfold Session.delivers.
  rewrite (bool_decide_eq_true_2 _ Hplayer), Hcheck, (selectCard_taken _ _ _ Hfree).
  destruct (relisted_fields this card g) as (_ & -> & _).
  rewrite Hlisted, Hone, Hsingle. reflexivity.
Qed.

Lemma update_loop_nil {A : Type} (F : A -> Card.t -> Card.t) (K : A -> CardRef) g :
  update_loop F K g [] = g.
Proof. reflexivity. Qed.

Lemma unmarked_prior game :
  Frame.unmarked game -> Session.prior game = [].
Proof.
  intros Hclean. unfold Session.prior.
  induction (Game.allCards game) as [| c l IH]; [reflexivity |].
  rewrite filter_cons.
  destruct (decide _) as [Hmarked | _]; [| exact IH].
  rewrite (Hclean c) in Hmarked. destruct Hmarked.
Qed.

(** On a game without markers the constructor has nothing to save and
    nothing to clear. *)
Lemma new_steady game chooser options this g1 :
  SelectCardPrompt.new game chooser options = Returns (this, g1) ->
  Frame.unmarked game ->
  g1 = game /\ Frame.steady chooser options this g1.
Proof.
  intros Hnew Hclean.
  destruct (new_configuration _ _ _ _ _ Hnew) as (Hchooser & Hprops & Hsel & _).
  destruct (new_unfold _ _ _ _ _ Hnew) as [Hprev Hg].
  rewrite (unmarked_prior _ Hclean) in Hprev, Hg. rewrite update_loop_nil in Hg.
  split; [exact Hg |].
  split; [exact Hprops | exact Hchooser | exact Hprev |].
  split; rewrite ?Hsel.
  - apply NoDup_nil. exact I.
  - intros c Hc. apply elem_of_nil in Hc. contradiction.
  - intros c _. rewrite Hg. apply Hclean.
  - simpl. lia.
Qed.

(** With nothing to restore, [clearSelection] leaves no marker at all. *)
Lemma clearSelection_consistent this g :
  SelectCardPrompt.previouslySelectedCards this = [] ->
  Session.consistent this g ->
  Session.consistent (fst (SelectCardPrompt.clearSelection this g))
    (snd (SelectCardPrompt.clearSelection this g)).
Proof.
  intros Hprev [_ _ Hothers _]. rewrite clearSelection_unfold. simpl.
  rewrite Hprev, update_loop_nil.
  split; simpl.
  - apply NoDup_nil. exact I.
  - intros c Hc. apply elem_of_nil in Hc. contradiction.
  - intros c _.
    apply (update_loop_kept _ _ (fun card => SelectCardPrompt.marked card = false)).
    { intros x card _ _ Hcard. exact Hcard. }
    destruct (decide (c ∈ SelectCardPrompt.selectedCards this)) as [Hin | Hout].
    + apply (update_loop_set _ _ (fun card => SelectCardPrompt.marked card = false)).
      * intros x card _ _. reflexivity.
      * rewrite list_fmap_id. exact Hin.
    + rewrite update_loop_other; [apply Hothers; exact Hout |].
      intros x Hx Hkey. unfold id in Hkey. subst x. contradiction.
  - intros Hpos. lia.
Qed.

Lemma fireOnSelect_empties this g :
  SelectCardPrompt.selectedCards (fst (SelectCardPrompt.fireOnSelect this g)) = [].
Proof.
  rewrite fireOnSelect_unfold. cbv zeta.
  destruct (fst (Properties.onSelect _ _ _ _)); reflexivity.
Qed.

Lemma step_steady chooser options i s :
  Frame.callbacks_inert (SelectCardPrompt.resolve options) ->
  Frame.steady chooser options (fst s) (snd s) ->
  Frame.steady chooser options (fst (Session.step i s)) (snd (Session.step i s)).
Proof.
  intros Hinert.
  apply (stable_step (Frame.steady chooser options)).
  - intros x card y [Hp Hc Hprev Hcons].
    destruct (selectCard_configuration x card y) as (Hc' & Hp' & _ & Hprev').
    split; [congruence | congruence | congruence |].
    apply selectCard_consistent; [| exact Hcons].
    rewrite Hp. apply (Frame.onCardToggle_inert _ Hinert).
  - intros x param y [Hp Hc Hprev Hcons]. split; try assumption.
    rewrite Hp.
    destruct (Frame.onSelect_inert _ Hinert (SelectCardPrompt.choosingPlayer x)
                param y) as [Hmarkers Hcontrollers].
    eapply consistent_ext; eassumption.
  - intros x player arg y [Hp Hc Hprev Hcons]. split; try assumption.
    rewrite Hp.
    destruct (Frame.onMenuCommand_inert _ Hinert player arg y)
      as [Hmarkers Hcontrollers].
    eapply consistent_ext; eassumption.
  - intros x player y [Hp Hc Hprev Hcons]. split; try assumption.
    rewrite Hp.
    destruct (Frame.onCancel_inert _ Hinert player y) as [Hmarkers Hcontrollers].
    eapply consistent_ext; eassumption.
  - intros x y [Hp Hc Hprev Hcons].
    split; [exact Hp | exact Hc | exact Hprev |].
    apply clearSelection_consistent; assumption.
  - intros x y [Hp Hc Hprev [Hnodup Hmembers Hothers Hbound]].
    split; [exact Hp | exact Hc | exact Hprev |]. split; assumption.
  - intros x y [Hp Hc Hprev Hcons]. split; try assumption.
    destruct (highlight_frame x y) as [_ Hcards].
    eapply consistent_ext; [| | exact Hcons].
    + intros c. split; apply Hcards.
    + intros c. apply Hcards.
Qed.

Lemma steady_run chooser options script s :
  Frame.callbacks_inert (SelectCardPrompt.resolve options) ->
  Frame.steady chooser options (fst s) (snd s) ->
  Frame.steady chooser options (fst (Session.run script s))
    (snd (Session.run script s)).
Proof.
  intros Hinert. revert s.
  induction script as [| i script IH]; intros s Hs; simpl; [exact Hs |].
  apply IH. apply step_steady; assumption.
Qed.

(** On a game without markers, with callbacks that leave markers and
    controllers alone, selection and markers agree after any interactions,
    refused deliveries included. *)
Lemma run_steady game chooser options this g1 script :
  SelectCardPrompt.new game chooser options = Returns (this, g1) ->
  Frame.unmarked game ->
  Frame.callbacks_inert (SelectCardPrompt.resolve options) ->
  Frame.steady chooser options (fst (Session.run script (this, g1)))
    (snd (Session.run script (this, g1))).
Proof.
  intros Hnew Hclean Hinert. apply steady_run; [exact Hinert |].
  apply (new_steady _ _ _ _ _ Hnew Hclean).
Qed.

Lemma plain_unmarked : Frame.unmarked MoreExamples.plain.
Proof. intros c. reflexivity. Qed.

Lemma refusing_inert options :
  Options.onSelect options = Some MoreExamples.refuse ->
  Options.onMenuCommand options = None ->
  Options.onCancel options = None ->
  Options.onCardToggle options = None ->
  Frame.callbacks_inert (SelectCardPrompt.resolve options).
Proof.
  intros HonSelect HonMenu HonCancel Htoggle.
  split; simpl; rewrite ?HonSelect, ?HonMenu, ?HonCancel, ?Htoggle; simpl.
  - intros player param g. split; intros c; [split |]; reflexivity.
  - intros player arg g. split; intros c; [split |]; reflexivity.
  - intros player g. split; intros c; [split |]; reflexivity.
  - intros f player card g Hf. discriminate.
Qed.

(** ** SelectCardPrompt: one card as a single value *)

Lemma single_step_empty chooser options i this g :
  Frame.steady chooser options this g ->
  Properties.numCards (SelectCardPrompt.resolve options) = 1%Z ->
  Properties.multiSelect (SelectCardPrompt.resolve options) = false ->
  SelectCardPrompt.selectedCards this = [] ->
  SelectCardPrompt.selectedCards (fst (Session.step i (this, g))) = [].
Proof.
  intros [Hp Hc _ Hcons] Hone Hsingle Hempty.
  rewrite <- Hp in Hone, Hsingle.
  destruct i as [player card | player arg |]; simpl.
  - destruct (Session.delivers this player card g) eqn:Hdelivers.
    + rewrite (delivering_click _ _ _ _ Hdelivers). apply fireOnSelect_empties.
    + unfold SelectCardPrompt.onCardClicked.
      destruct (decide (player = SelectCardPrompt.choosingPlayer this)) as [Hpl | Hpl];
        [| rewrite (bool_decide_eq_false_2 _ Hpl); exact Hempty].
      rewrite (bool_decide_eq_true_2 _ Hpl). simpl.
      destruct (SelectCardPrompt.checkCardCondition this g card) eqn:Hcheck;
        [| exact Hempty].
      destruct (single_fresh_delivers this player card g Hcons Hempty Hone Hsingle
                  Hpl Hcheck) as (_ & _ & Habs).
      congruence.
  - unfold SelectCardPrompt.onMenuCommand.
    destruct (negb (bool_decide _)); [exact Hempty |].
    destruct (negb (String.eqb arg "done")).
    + destruct (Properties.onMenuCommand _ _ _ g) as [[] g'];
        [reflexivity | exact Hempty].
    + rewrite Hempty. reflexivity.
  - exact Hempty.
Qed.

Lemma single_run_empty chooser options script s :
  Frame.callbacks_inert (SelectCardPrompt.resolve options) ->
  Properties.numCards (SelectCardPrompt.resolve options) = 1%Z ->
  Properties.multiSelect (SelectCardPrompt.resolve options) = false ->
  Frame.steady chooser options (fst s) (snd s) ->
  SelectCardPrompt.selectedCards (fst s) = [] ->
  SelectCardPrompt.selectedCards (fst (Session.run script s)) = [].
Proof.
  intros Hinert Hone Hsingle. revert s.
  induction script as [| i script IH]; intros s Hs Hempty; simpl; [exact Hempty |].
  apply IH.
  - apply step_steady; assumption.
  - destruct s as [this g]. eapply single_step_empty; eassumption.
Qed.

(** X10.  A prompt for one card as a single value, built on a game in which
    no card carries a selection marker, with callbacks that leave markers
    and controllers alone: whatever clicks, menu commands and [continue]
    calls it has received, accepted or refused deliveries included, its
    working selection is empty.  No selected card is ever left pending. *)
Theorem single_pick_never_pending (game : Game.t) (chooser : PlayerRef)
    (options : Options.t) (this : SelectCardPrompt.t) (g1 : Game.t)
    (script : list Session.Interaction) :
  SelectCardPrompt.new game chooser options = Returns (this, g1) ->
  Frame.unmarked game ->
  Frame.callbacks_inert (SelectCardPrompt.resolve options) ->
  Properties.numCards (SelectCardPrompt.resolve options) = 1%Z ->
  Properties.multiSelect (SelectCardPrompt.resolve options) = false ->
  SelectCardPrompt.selectedCards (fst (Session.run script (this, g1))) = [].
Proof.
  intros Hnew Hclean Hinert Hone Hsingle.
  apply (single_run_empty chooser options); try assumption.
  - apply (new_steady _ _ _ _ _ Hnew Hclean).
  - apply (new_configuration _ _ _ _ _ Hnew).
Qed.

(** The click on card 1 is taken and delivers; the caller refuses, and
    nothing is pending afterwards, nor after the next click. *)
Lemma single_pick_never_pending_witness :
  let start := MoreExamples.begun MoreExamples.single_refusing in
  let script := [Session.CardClicked 0 1; Session.Continue; Session.CardClicked 0 2] in
  (SelectCardPrompt.new MoreExamples.plain 0 MoreExamples.single_refusing =
     Returns start
   /\ Frame.unmarked MoreExamples.plain
   /\ Frame.callbacks_inert (SelectCardPrompt.resolve MoreExamples.single_refusing)
   /\ Properties.numCards (SelectCardPrompt.resolve MoreExamples.single_refusing) = 1%Z
   /\ Properties.multiSelect (SelectCardPrompt.resolve MoreExamples.single_refusing)
      = false)
  /\ Session.delivers (fst start) 0 1 (snd start) = true
  /\ SelectCardPrompt.completed (fst (Session.run script start)) = false
  /\ SelectCardPrompt.selectedCards (fst (Session.run script start)) = [].
Proof.
  intros start script.
  assert (Hinert : Frame.callbacks_inert
                     (SelectCardPrompt.resolve MoreExamples.single_refusing))
    by (apply refusing_inert; reflexivity).
  split.
  - split; [reflexivity |]. split; [exact plain_unmarked |].
    split; [exact Hinert |]. split; reflexivity.
  - split; [reflexivity |]. split; [reflexivity |].
    exact (single_pick_never_pending MoreExamples.plain 0 MoreExamples.single_refusing
             (fst start) (snd start) script eq_refl plain_unmarked Hinert
             eq_refl eq_refl).
Defined.

(** X11.  A prompt for one card as a single value, built on a game in which
    no card carries a selection marker, with callbacks that leave markers
    and controllers alone.  At any moment, whatever came before, a click of
    the deciding player on a card that passes the type filter and the card
    condition delivers at once: the card is toggled, it is the whole
    selection, and the click ends with [onSelect] being handed that card
    itself and the prompt completed or cleared according to the answer. *)
Theorem single_click_delivers (game : Game.t) (chooser : PlayerRef)
    (options : Options.t) (this : SelectCardPrompt.t) (g1 : Game.t)
    (script : list Session.Interaction) (card : CardRef) :
  SelectCardPrompt.new game chooser options = Returns (this, g1) ->
  Frame.unmarked game ->
  Frame.callbacks_inert (SelectCardPrompt.resolve options) ->
  Properties.numCards (SelectCardPrompt.resolve options) = 1%Z ->
  Properties.multiSelect (SelectCardPrompt.resolve options) = false ->
  let s := Session.run script (this, g1) in
  SelectCardPrompt.checkCardCondition (fst s) (snd s) card = true ->
  let picked := snd (SelectCardPrompt.selectCard (fst s) card (snd s)) in
  Session.delivers (fst s) chooser card (snd s) = true
  /\ SelectCardPrompt.selectedCards (fst picked) = [card]
  /\ Session.step (Session.CardClicked chooser card) s =
     (let answer := Properties.onSelect (SelectCardPrompt.resolve options) chooser
                      (Single (Some card)) (snd picked) in
      if fst answer then SelectCardPrompt.complete (fst picked) (snd answer)
      else SelectCardPrompt.clearSelection (fst picked) (snd answer)).
Proof.
  intros Hnew Hclean Hinert Hone Hsingle s Hcheck picked. subst picked.
  pose proof (run_steady _ _ _ _ _ script Hnew Hclean Hinert) as Hsteady.
  pose proof (single_run_empty chooser options script (this, g1) Hinert Hone Hsingle
                (proj2 (new_steady _ _ _ _ _ Hnew Hclean))
                (proj1 (proj2 (proj2 (new_configuration _ _ _ _ _ Hnew))))) as Hempty.
  fold s in Hsteady, Hempty.
  destruct s as [now g]. cbn [fst snd Session.step] in *.
  destruct Hsteady as [Hprops Hchooser _ Hconsistent].
  rewrite <- Hprops in Hone, Hsingle.
  destruct (single_fresh_delivers now chooser card g Hconsistent Hempty Hone Hsingle
              (eq_sym Hchooser) Hcheck) as (Hfree & Hlisted & Hdelivers).
  split; [exact Hdelivers |].
  rewrite (delivering_click _ _ _ _ Hdelivers).
  rewrite (selectCard_taken _ _ _ Hfree). cbn [fst snd].
  split; [exact Hlisted |].
  rewrite fireOnSelect_unfold.
  destruct (relisted_fields now card g) as (Hc' & Hp' & _).
  unfold SelectCardPrompt.cardParam.
  rewrite Hp', Hc', Hone, Hsingle, Hlisted, Hchooser, Hprops. reflexivity.
Qed.

(** After one delivery that the caller refused, a click on card 2 hands
    card 2 to [onSelect]. *)
Lemma single_click_delivers_witness :
  let start := MoreExamples.begun MoreExamples.single_refusing in
  let s := Session.run [Session.CardClicked 0 1] start in
  let picked := snd (SelectCardPrompt.selectCard (fst s) 2 (snd s)) in
  (SelectCardPrompt.new MoreExamples.plain 0 MoreExamples.single_refusing =
     Returns start
   /\ Frame.unmarked MoreExamples.plain
   /\ Frame.callbacks_inert (SelectCardPrompt.resolve MoreExamples.single_refusing)
   /\ SelectCardPrompt.checkCardCondition (fst s) (snd s) 2 = true)
  /\ Session.delivers (fst start) 0 1 (snd start) = true
  /\ Session.delivers (fst s) 0 2 (snd s) = true
  /\ SelectCardPrompt.selectedCards (fst picked) = [2]
  /\ Session.step (Session.CardClicked 0 2) s =
     SelectCardPrompt.clearSelection (fst picked)
       (snd (MoreExamples.refuse 0 (Single (Some 2)) (snd picked))).
Proof.
  intros start s picked.
  assert (Hinert : Frame.callbacks_inert
                     (SelectCardPrompt.resolve MoreExamples.single_refusing))
    by (apply refusing_inert; reflexivity).
  split.
  - split; [reflexivity |]. split; [exact plain_unmarked |].
    split; [exact Hinert | reflexivity].
  - split; [reflexivity |].
    destruct (single_click_delivers MoreExamples.plain 0 MoreExamples.single_refusing
                (fst start) (snd start) [Session.CardClicked 0 1] 2 eq_refl
                plain_unmarked Hinert eq_refl eq_refl eq_refl)
      as (Hdelivers & Hlisted & Hstep).
    split; [exact Hdelivers |]. split; [exact Hlisted | exact Hstep].
Defined.

(** ** SelectCardPrompt: the bound over a session *)

Lemma negative_bound_blocks this card :
  (Properties.numCards (SelectCardPrompt.properties this) < 0)%Z ->
  SelectCardPrompt.selectedCards this = [] ->
  Session.blocked this card = true.
Proof.
  intros Hneg Hempty. unfold Session.blocked. rewrite Hempty.
  rewrite bool_decide_eq_false_2 by apply not_elem_of_nil.
  set (N := Properties.numCards (SelectCardPrompt.properties this)) in *.
  assert (Hzero : (N =? 0)%Z = false) by (apply Z.eqb_neq; lia).
  assert (Hfull : (N <=? Z.of_nat (length (@nil CardRef)))%Z = true)
    by (apply Z.leb_le; simpl; lia).
  rewrite Hzero, Hfull. reflexivity.
Qed.

Lemma negative_bound_run options script s :
  (Properties.numCards (SelectCardPrompt.resolve options) < 0)%Z ->
  SelectCardPrompt.properties (fst s) = SelectCardPrompt.resolve options ->
  SelectCardPrompt.selectedCards (fst s) = [] ->
  SelectCardPrompt.selectedCards (fst (Session.run script s)) = [].
Proof.
  intros Hneg Hprops Hempty.
  set (Inv := fun (x : SelectCardPrompt.t) (_ : Game.t) =>
                SelectCardPrompt.properties x = SelectCardPrompt.resolve options
                /\ SelectCardPrompt.selectedCards x = []).
  apply (stable_run Inv); unfold Inv; try (intros; assumption).
  - intros x card y [Hp He].
    rewrite selectCard_blocked; [split; assumption |].
    apply negative_bound_blocks; [rewrite Hp; exact Hneg | exact He].
  - intros x y [Hp He]. split; [exact Hp | reflexivity].
  - split; assumption.
Qed.

(** X12.  A negative [numCards] keeps the working selection empty whatever
    happens: every card is turned away.  On a game in which no card carries
    a selection marker, with callbacks that leave markers and controllers
    alone, the working selection never lists a card twice and never holds
    more cards than a positive [numCards], whatever clicks, menu commands
    and [continue] calls the prompt has received, refused deliveries
    included. *)
Theorem selection_within_bound (game : Game.t) (chooser : PlayerRef)
    (options : Options.t) (this : SelectCardPrompt.t) (g1 : Game.t)
    (script : list Session.Interaction) :
  SelectCardPrompt.new game chooser options = Returns (this, g1) ->
  let selection := SelectCardPrompt.selectedCards (fst (Session.run script (this, g1))) in
  let numCards := Properties.numCards (SelectCardPrompt.resolve options) in
  ((numCards < 0)%Z -> selection = [])
  /\ (Frame.unmarked game ->
      Frame.callbacks_inert (SelectCardPrompt.resolve options) ->
      NoDup selection
      /\ ((0 < numCards)%Z -> (Z.of_nat (length selection) <= numCards)%Z)).
Proof.
  intros Hnew selection numCards. subst selection numCards.
  destruct (new_configuration _ _ _ _ _ Hnew) as (_ & Hprops & Hempty & _).
  split.
  - intros Hneg. apply (negative_bound_run options); assumption.
  - intros Hclean Hinert.
    destruct (run_steady _ _ _ _ _ script Hnew Hclean Hinert)
      as [Hp _ _ [Hnodup _ _ Hbound]].
    split; [exact Hnodup |]. rewrite <- Hp. exact Hbound.
Qed.

(** Two cards wanted: after a refused delivery of cards 0 and 1, cards 2
    and 3 are selected and card 0 is turned away.  With -1 cards wanted a
    click selects nothing. *)
Lemma selection_within_bound_witness :
  let start := MoreExamples.begun MoreExamples.pair_refusing in
  let script := [Session.CardClicked 0 0; Session.CardClicked 0 1;
                 Session.MenuCommand 0 "done"; Session.CardClicked 0 2;
                 Session.CardClicked 0 3; Session.CardClicked 0 0] in
  let unwanted := MoreExamples.begun MoreExamples.negative_options in
  (SelectCardPrompt.new MoreExamples.plain 0 MoreExamples.pair_refusing = Returns start
   /\ Frame.unmarked MoreExamples.plain
   /\ Frame.callbacks_inert (SelectCardPrompt.resolve MoreExamples.pair_refusing)
   /\ (0 < Properties.numCards (SelectCardPrompt.resolve MoreExamples.pair_refusing))%Z
   /\ SelectCardPrompt.new MoreExamples.plain 0 MoreExamples.negative_options =
      Returns unwanted
   /\ (Properties.numCards (SelectCardPrompt.resolve MoreExamples.negative_options)
       < 0)%Z)
  /\ SelectCardPrompt.selectedCards (fst (Session.run script start)) = [2; 3]
  /\ NoDup (SelectCardPrompt.selectedCards (fst (Session.run script start)))
  /\ (Z.of_nat (length (SelectCardPrompt.selectedCards (fst (Session.run script start))))
      <= 2)%Z
  /\ SelectCardPrompt.selectedCards
       (fst (Session.run [Session.CardClicked 0 0] unwanted)) = [].
Proof.
  intros start script unwanted.
  assert (Hinert : Frame.callbacks_inert
                     (SelectCardPrompt.resolve MoreExamples.pair_refusing))
    by (apply refusing_inert; reflexivity).
  split.
  - split; [reflexivity |]. split; [exact plain_unmarked |].
    split; [exact Hinert |]. split; [reflexivity |]. split; reflexivity.
  - split; [reflexivity |].
    destruct (selection_within_bound MoreExamples.plain 0 MoreExamples.pair_refusing
                (fst start) (snd start) script eq_refl) as [_ Hpositive].
    destruct (Hpositive plain_unmarked Hinert) as [Hnodup Hbound].
    split; [exact Hnodup |]. split; [exact (Hbound eq_refl) |].
    destruct (selection_within_bound MoreExamples.plain 0 MoreExamples.negative_options
                (fst unwanted) (snd unwanted) [Session.CardClicked 0 0] eq_refl)
      as [Hnegative _].
    exact (Hnegative eq_refl).
Defined.

(** ** SelectCardPrompt: selecting and deselecting *)

Lemma filter_other_id (card : CardRef) (l : list CardRef) :
  card ∉ l -> filter (fun c => c <> card) l = l.
Proof.
  induction l as [| a l IH]; intros Hnot; [reflexivity |].
  apply not_elem_of_cons in Hnot. destruct Hnot as [Hne Hnot].
  rewrite filter_cons_True by congruence. rewrite IH by exact Hnot. reflexivity.
Qed.

Lemma length_filter_other (card : CardRef) (l : list CardRef) :
  NoDup l -> card ∈ l -> S (length (filter (fun c => c <> card) l)) = length l.
Proof.
  induction l as [| a l IH]; intros Hnodup Hin.
  - apply elem_of_nil in Hin. contradiction.
  - apply NoDup_cons in Hnodup. destruct Hnodup as [Hnot Hnodup].
    destruct (decide (a = card)) as [-> | Hne].
    + rewrite filter_cons_False by (intros Habs; apply Habs; reflexivity).
      rewrite filter_other_id by exact Hnot. reflexivity.
    + rewrite filter_cons_True by exact Hne. simpl. f_equal.
      apply IH; [exact Hnodup |].
      apply elem_of_cons in Hin. destruct Hin as [-> | Hin];
        [contradiction | exact Hin].
Qed.

Lemma steady_toggle_inert chooser options this g :
  Frame.callbacks_inert (SelectCardPrompt.resolve options) ->
  Frame.steady chooser options this g ->
  forall f player card g,
    Properties.onCardToggle (SelectCardPrompt.properties this) = Some f ->
    Session.markers_kept g (f player card g)
    /\ Session.controllers_kept g (f player card g).
Proof.
  intros Hinert [Hp _ _ _]. rewrite Hp. apply (Frame.onCardToggle_inert _ Hinert).
Qed.

(** [selectCard] on a member that carries exactly its own marker. *)
Lemma member_dropped this card g :
  (forall f player card g,
     Properties.onCardToggle (SelectCardPrompt.properties this) = Some f ->
     Session.markers_kept g (f player card g)
     /\ Session.controllers_kept g (f player card g)) ->
  Session.consistent this g ->
  card ∈ SelectCardPrompt.selectedCards this ->
  let result := SelectCardPrompt.selectCard this card g in
  fst result = true
  /\ SelectCardPrompt.selectedCards (fst (snd result)) =
     filter (fun c => c <> card) (SelectCardPrompt.selectedCards this)
  /\ SelectCardPrompt.marked (Game.cards (snd (snd result)) card) = false
  /\ forall c, c <> card ->
       Card.selected (Game.cards (snd (snd result)) c) = Card.selected (Game.cards g c)
       /\ Card.opponentSelected (Game.cards (snd (snd result)) c) =
          Card.opponentSelected (Game.cards g c).
Proof.
  intros Hquiet [_ Hmembers _ _] Hin result. subst result.
  assert (Hfree : Session.blocked this card = false).
  { unfold Session.blocked. rewrite (bool_decide_eq_true_2 _ Hin).
    apply andb_false_r. }
  rewrite (selectCard_taken _ _ _ Hfree). cbn [fst snd].
  pose proof (toggled_off this card g (Hmembers card Hin)) as Hoff.
  destruct (notified_inert this card (Session.toggled this card g) Hquiet)
    as [Hkept _].
  assert (Hmarked : forall c,
            SelectCardPrompt.marked
              (Game.cards (Session.notified this card (Session.toggled this card g)) c) =
            SelectCardPrompt.marked (Game.cards (Session.toggled this card g) c)).
  { intros c. unfold SelectCardPrompt.marked. destruct (Hkept c) as [-> ->].
    reflexivity. }
  split; [reflexivity |].
  split; [rewrite relisted_selection, Hoff; reflexivity |].
  split; [rewrite Hmarked; exact Hoff |].
  intros c Hne. destruct (Hkept c) as [-> ->].
  rewrite toggled_other by exact Hne. split; reflexivity.
Qed.

(** [selectCard] on a card outside the selection, the bound leaving room. *)
Lemma outsider_added this card g :
  (forall f player card g,
     Properties.onCardToggle (SelectCardPrompt.properties this) = Some f ->
     Session.markers_kept g (f player card g)
     /\ Session.controllers_kept g (f player card g)) ->
  Session.consistent this g ->
  card ∉ SelectCardPrompt.selectedCards this ->
  Session.blocked this card = false ->
  let result := SelectCardPrompt.selectCard this card g in
  fst result = true
  /\ SelectCardPrompt.selectedCards (fst (snd result)) =
     SelectCardPrompt.selectedCards this ++ [card]
  /\ SelectCardPrompt.properties (fst (snd result)) = SelectCardPrompt.properties this
  /\ Session.consistent (fst (snd result)) (snd (snd result))
  /\ forall c, c <> card ->
       Card.selected (Game.cards (snd (snd result)) c) = Card.selected (Game.cards g c)
       /\ Card.opponentSelected (Game.cards (snd (snd result)) c) =
          Card.opponentSelected (Game.cards g c).
Proof.
  intros Hquiet Hconsistent Hnew Hfree result. subst result.
  pose proof (selectCard_consistent this card g Hquiet Hconsistent) as Hnext.
  rewrite (selectCard_taken _ _ _ Hfree) in *. cbn [fst snd] in *.
  destruct (notified_inert this card (Session.toggled this card g) Hquiet)
    as [Hkept _].
  split; [reflexivity |].
  split; [apply fresh_select; assumption |].
  split; [apply relisted_fields |].
  split; [exact Hnext |].
  intros c Hne. destruct (Hkept c) as [-> ->].
  rewrite toggled_other by exact Hne. split; reflexivity.
Qed.

Lemma room_free this card :
  Properties.numCards (SelectCardPrompt.properties this) = 0%Z
  \/ (Z.of_nat (length (SelectCardPrompt.selectedCards this))
      < Properties.numCards (SelectCardPrompt.properties this))%Z ->
  Session.blocked this card = false.
Proof.
  intros Hroom. unfold Session.blocked. destruct Hroom as [-> | Hroom]; [reflexivity |].
  apply Z.leb_gt in Hroom. rewrite Hroom, andb_false_r. reflexivity.
Qed.

(** X13.  On a game in which no card carries a selection marker, with
    callbacks that leave markers and controllers alone, at any moment of
    the prompt's life: [selectCard] on a card that is not selected, the
    bound leaving room, appends it at the end of the working selection, and
    [selectCard] on it once more takes it out again.  After the two calls
    the selection is exactly what it was, and so are the markers of every
    card. *)
Theorem select_then_deselect (game : Game.t) (chooser : PlayerRef)
    (options : Options.t) (this : SelectCardPrompt.t) (g1 : Game.t)
    (script : list Session.Interaction) (card : CardRef) :
  SelectCardPrompt.new game chooser options = Returns (this, g1) ->
  Frame.unmarked game ->
  Frame.callbacks_inert (SelectCardPrompt.resolve options) ->
  let s := Session.run script (this, g1) in
  card ∉ SelectCardPrompt.selectedCards (fst s) ->
  Properties.numCards (SelectCardPrompt.resolve options) = 0%Z
  \/ (Z.of_nat (length (SelectCardPrompt.selectedCards (fst s)))
      < Properties.numCards (SelectCardPrompt.resolve options))%Z ->
  let first := SelectCardPrompt.selectCard (fst s) card (snd s) in
  let second :=
    SelectCardPrompt.selectCard (fst (snd first)) card (snd (snd first)) in
  fst first = true /\ fst second = true
  /\ SelectCardPrompt.selectedCards (fst (snd first)) =
     SelectCardPrompt.selectedCards (fst s) ++ [card]
  /\ SelectCardPrompt.selectedCards (fst (snd second)) =
     SelectCardPrompt.selectedCards (fst s)
  /\ Session.markers_kept (snd s) (snd (snd second)).
Proof.
  intros Hnew Hclean Hinert s Hout Hroom first second. subst second first.
  pose proof (run_steady _ _ _ _ _ script Hnew Hclean Hinert) as Hsteady.
  fold s in Hsteady. destruct s as [now g]. cbn [fst snd] in *.
  pose proof (steady_toggle_inert _ _ _ _ Hinert Hsteady) as Hquiet.
  destruct Hsteady as [Hprops _ _ Hconsistent].
  rewrite <- Hprops in Hroom.
  destruct (outsider_added now card g Hquiet Hconsistent Hout (room_free _ _ Hroom))
    as (Hfirst & Hlisted & Hprops1 & Hconsistent1 & Hothers1).
  set (first := SelectCardPrompt.selectCard now card g) in *.
  assert (Hmember : card ∈ SelectCardPrompt.selectedCards (fst (snd first))).
  { rewrite Hlisted. apply elem_of_app. right. apply list_elem_of_singleton.
    reflexivity. }
  assert (Hquiet1 : forall f player card g,
            Properties.onCardToggle (SelectCardPrompt.properties (fst (snd first)))
            = Some f ->
            Session.markers_kept g (f player card g)
            /\ Session.controllers_kept g (f player card g))
    by (rewrite Hprops1; exact Hquiet).
  destruct (member_dropped (fst (snd first)) card (snd (snd first)) Hquiet1
              Hconsistent1 Hmember) as (Hsecond & Hdropped & Hoff & Hothers2).
  split; [exact Hfirst |]. split; [exact Hsecond |]. split; [exact Hlisted |].
  split.
  - rewrite Hdropped, Hlisted, filter_app.
    rewrite filter_other_id by exact Hout.
    rewrite filter_cons_False by (intros Habs; apply Habs; reflexivity).
    rewrite filter_nil. apply app_nil_r.
  - intros c. destruct (decide (c = card)) as [-> | Hne].
    + destruct Hconsistent as [_ _ Hothers _].
      pose proof (Hothers card Hout) as Hclean0.
      apply marked_false in Hoff, Hclean0.
      destruct Hoff as [-> ->], Hclean0 as [-> ->]. split; reflexivity.
    + destruct (Hothers2 c Hne) as [-> ->]. apply Hothers1. exact Hne.
Qed.

(** Two cards wanted: after a refused delivery card 2 is selected;
    selecting card 3 and selecting it again leaves card 2 alone. *)
Lemma select_then_deselect_witness :
  let start := MoreExamples.begun MoreExamples.pair_refusing in
  let s := Session.run [Session.CardClicked 0 0; Session.CardClicked 0 1;
                        Session.MenuCommand 0 "done"; Session.CardClicked 0 2] start in
  let first := SelectCardPrompt.selectCard (fst s) 3 (snd s) in
  let second := SelectCardPrompt.selectCard (fst (snd first)) 3 (snd (snd first)) in
  (SelectCardPrompt.new MoreExamples.plain 0 MoreExamples.pair_refusing = Returns start
   /\ Frame.unmarked MoreExamples.plain
   /\ Frame.callbacks_inert (SelectCardPrompt.resolve MoreExamples.pair_refusing)
   /\ (3 ∉ SelectCardPrompt.selectedCards (fst s))
   /\ (Z.of_nat (length (SelectCardPrompt.selectedCards (fst s)))
       < Properties.numCards (SelectCardPrompt.resolve MoreExamples.pair_refusing))%Z)
  /\ SelectCardPrompt.selectedCards (fst s) = [2]
  /\ SelectCardPrompt.selectedCards (fst (snd first)) = [2; 3]
  /\ SelectCardPrompt.selectedCards (fst (snd second)) = [2]
  /\ Session.markers_kept (snd s) (snd (snd second)).
Proof.
  intros start s first second.
  assert (Hinert : Frame.callbacks_inert
                     (SelectCardPrompt.resolve MoreExamples.pair_refusing))
    by (apply refusing_inert; reflexivity).
  assert (Hout : 3 ∉ SelectCardPrompt.selectedCards (fst s)) by (vm_compute; unlisted).
  assert (Hroom : (Z.of_nat (length (SelectCardPrompt.selectedCards (fst s)))
                   < Properties.numCards
                       (SelectCardPrompt.resolve MoreExamples.pair_refusing))%Z)
    by reflexivity.
  split.
  - split; [reflexivity |]. split; [exact plain_unmarked |].
    split; [exact Hinert |]. split; assumption.
  - split; [reflexivity |].
    destruct (select_then_deselect MoreExamples.plain 0 MoreExamples.pair_refusing
                (fst start) (snd start)
                [Session.CardClicked 0 0; Session.CardClicked 0 1;
                 Session.MenuCommand 0 "done"; Session.CardClicked 0 2] 3 eq_refl
                plain_unmarked Hinert Hout (or_intror Hroom))
      as (_ & _ & Hfirst & Hsecond & Hmarkers).
    split; [exact Hfirst |]. split; [exact Hsecond | exact Hmarkers].
Defined.

(** X18.  The admission rule of [selectCard], at any moment of a prompt's
    life.  With a nonzero [numCards] that the selection has reached, a card
    outside the selection is turned away: the call returns [false] and
    changes nothing.  A member is never turned away, and with [numCards] 0
    no card is.  On a game in which no card carried a selection marker when
    the prompt was built, with callbacks that leave markers and controllers
    alone, the call on a member takes exactly that member out: the other
    members stay in their order, the selection is one shorter, the card
    carries no marker and no other card's markers change. *)
Theorem admission_rule (game : Game.t) (chooser : PlayerRef)
    (options : Options.t) (this : SelectCardPrompt.t) (g1 : Game.t)
    (script : list Session.Interaction) (card : CardRef) :
  SelectCardPrompt.new game chooser options = Returns (this, g1) ->
  let s := Session.run script (this, g1) in
  let numCards := Properties.numCards (SelectCardPrompt.resolve options) in
  let selection := SelectCardPrompt.selectedCards (fst s) in
  let result := SelectCardPrompt.selectCard (fst s) card (snd s) in
  (numCards <> 0%Z -> (numCards <= Z.of_nat (length selection))%Z ->
   card ∉ selection -> result = (false, s))
  /\ (card ∈ selection -> fst result = true)
  /\ (numCards = 0%Z -> fst result = true)
  /\ (Frame.unmarked game ->
      Frame.callbacks_inert (SelectCardPrompt.resolve options) ->
      card ∈ selection ->
      SelectCardPrompt.selectedCards (fst (snd result)) =
        filter (fun c => c <> card) selection
      /\ (card ∉ SelectCardPrompt.selectedCards (fst (snd result)))
      /\ S (length (SelectCardPrompt.selectedCards (fst (snd result)))) =
         length selection
      /\ SelectCardPrompt.marked (Game.cards (snd (snd result)) card) = false
      /\ forall c, c <> card ->
           Card.selected (Game.cards (snd (snd result)) c) =
             Card.selected (Game.cards (snd s) c)
           /\ Card.opponentSelected (Game.cards (snd (snd result)) c) =
              Card.opponentSelected (Game.cards (snd s) c)).
Proof.
  intros Hnew s numCards selection result. subst numCards selection result.
  destruct (run_properties _ _ _ _ _ script Hnew) as [Hprops _].
  pose proof (fun Hclean Hinert => run_steady _ _ _ _ _ script Hnew Hclean Hinert)
    as Hsteady.
  fold s in Hprops, Hsteady. destruct s as [now g]. cbn [fst snd] in *.
  split; [| split; [| split]].
  - intros Hnonzero Hfull Hout. rewrite <- Hprops in Hnonzero, Hfull.
    apply selectCard_blocked.
    unfold Session.blocked.
    rewrite (bool_decide_eq_false_2 _ Hout).
    apply Z.eqb_neq in Hnonzero. apply Z.leb_le in Hfull.
    rewrite Hnonzero, Hfull. reflexivity.
  - intros Hin.
    assert (Hfree : Session.blocked now card = false).
    { unfold Session.blocked. rewrite (bool_decide_eq_true_2 _ Hin).
      apply andb_false_r. }
    rewrite (selectCard_taken _ _ _ Hfree). reflexivity.
  - intros Hzero. rewrite <- Hprops in Hzero.
    assert (Hfree : Session.blocked now card = false)
      by (apply room_free; left; exact Hzero).
    rewrite (selectCard_taken _ _ _ Hfree). reflexivity.
  - intros Hclean Hinert Hin. specialize (Hsteady Hclean Hinert).
    pose proof (steady_toggle_inert _ _ _ _ Hinert Hsteady) as Hquiet.
    destruct Hsteady as [_ _ _ Hconsistent].
    destruct (member_dropped now card g Hquiet Hconsistent Hin)
      as (_ & Hdropped & Hoff & Hothers).
    split; [exact Hdropped |]. rewrite Hdropped.
    split.
    { intros Hc. apply list_elem_of_filter in Hc. destruct Hc as [Hc _].
      apply Hc. reflexivity. }
    split; [| split; [exact Hoff | exact Hothers]].
    apply length_filter_other; [apply Hconsistent | exact Hin].
Qed.

(** Two cards wanted: after a refused delivery cards 2 and 3 are selected.
    Card 0 is turned away, and member 2 is taken out. *)
Lemma admission_rule_witness :
  let start := MoreExamples.begun MoreExamples.pair_refusing in
  let script := [Session.CardClicked 0 0; Session.CardClicked 0 1;
                 Session.MenuCommand 0 "done"; Session.CardClicked 0 2;
                 Session.CardClicked 0 3] in
  let s := Session.run script start in
  (SelectCardPrompt.new MoreExamples.plain 0 MoreExamples.pair_refusing = Returns start
   /\ Frame.unmarked MoreExamples.plain
   /\ Frame.callbacks_inert (SelectCardPrompt.resolve MoreExamples.pair_refusing)
   /\ (0 ∉ SelectCardPrompt.selectedCards (fst s))
   /\ (2 ∈ SelectCardPrompt.selectedCards (fst s)))
  /\ SelectCardPrompt.selectedCards (fst s) = [2; 3]
  /\ SelectCardPrompt.selectCard (fst s) 0 (snd s) = (false, s)
  /\ fst (SelectCardPrompt.selectCard (fst s) 2 (snd s)) = true
  /\ SelectCardPrompt.selectedCards
       (fst (snd (SelectCardPrompt.selectCard (fst s) 2 (snd s)))) = [3].
Proof.
  intros start script s.
  assert (Hinert : Frame.callbacks_inert
                     (SelectCardPrompt.resolve MoreExamples.pair_refusing))
    by (apply refusing_inert; reflexivity).
  assert (Hout : 0 ∉ SelectCardPrompt.selectedCards (fst s)) by (vm_compute; unlisted).
  assert (Hin : 2 ∈ SelectCardPrompt.selectedCards (fst s)) by (vm_compute; listed).
  split.
  - split; [reflexivity |]. split; [exact plain_unmarked |].
    split; [exact Hinert |]. split; assumption.
  - split; [reflexivity |].
    destruct (admission_rule MoreExamples.plain 0 MoreExamples.pair_refusing
                (fst start) (snd start) script 0 eq_refl) as (Hturned & _).
    destruct (admission_rule MoreExamples.plain 0 MoreExamples.pair_refusing
                (fst start) (snd start) script 2 eq_refl)
      as (_ & Htaken & _ & Hremoved).
    split; [apply Hturned; [vm_compute; discriminate | vm_compute; discriminate
                            | exact Hout] |].
    split; [exact (Htaken Hin) |].
    destruct (Hremoved plain_unmarked Hinert Hin) as (Hdropped & _).
    etransitivity; [exact Hdropped | reflexivity].
Defined.

(** ** SelectCardPrompt: the stat cap over a session *)

Lemma stat_total_app cardStat g l card :
  Session.stat_total cardStat g (l ++ [card]) =
  (Session.stat_total cardStat g l + cardStat g card)%Z.
Proof.
  unfold Session.stat_total. induction l as [| a l IH]; simpl; [lia |].
  rewrite IH. lia.
Qed.

Lemma stat_total_filter_le cardStat g (P : CardRef -> Prop)
    `{forall c, Decision (P c)} l :
  (forall c, (0 <= cardStat g c)%Z) ->
  (Session.stat_total cardStat g (filter P l) <= Session.stat_total cardStat g l)%Z.
Proof.
  intros Hnonneg. unfold Session.stat_total.
  induction l as [| a l IH]; [reflexivity |].
  rewrite filter_cons. destruct (decide (P a)); simpl.
  - lia.
  - specialize (Hnonneg a). lia.
Qed.

Lemma stat_total_fixed cardStat g g' l :
  (forall c, cardStat g' c = cardStat g c) ->
  Session.stat_total cardStat g' l = Session.stat_total cardStat g l.
Proof.
  intros Hfixed. unfold Session.stat_total.
  induction l as [| a l IH]; simpl; [reflexivity |]. rewrite IH, Hfixed. reflexivity.
Qed.

Lemma new_closure game chooser options this g1 maxStat cardStat :
  SelectCardPrompt.new game chooser options = Returns (this, g1) ->
  Options.maxStat options = Some maxStat ->
  Options.cardStat options = Some cardStat ->
  SelectCardPrompt.cardCondition this =
  SelectCardPrompt.createMaxStatCardCondition (SelectCardPrompt.resolve options)
    maxStat cardStat.
Proof.
  intros Hnew Hmax Hstat. rewrite new_returns in Hnew.
  unfold SelectCardPrompt.savePreviouslySelectedCards in Hnew.
  injection Hnew as <- _. simpl. rewrite Hmax, Hstat. reflexivity.
Qed.

Lemma unchecked_click this player card g :
  SelectCardPrompt.checkCardCondition this g card = false ->
  snd (SelectCardPrompt.onCardClicked this player card g) = (this, g).
Proof.
  intros Hcheck. unfold SelectCardPrompt.onCardClicked. rewrite Hcheck.
  destruct (negb (bool_decide _)); reflexivity.
Qed.

Lemma cap_step chooser options maxStat cardStat i this g :
  Frame.fixed_stats maxStat cardStat ->
  Frame.steady chooser options this g ->
  SelectCardPrompt.cardCondition this =
    SelectCardPrompt.createMaxStatCardCondition (SelectCardPrompt.resolve options)
      maxStat cardStat ->
  Frame.within_cap maxStat cardStat this g ->
  Frame.within_cap maxStat cardStat (fst (Session.step i (this, g)))
    (snd (Session.step i (this, g))).
Proof.
  intros [Hcap Hfixed Hnonneg] [_ _ _ Hconsistent] Hclosure IH.
  assert (Hmove : forall (l : list CardRef) (y y' : Game.t),
            (Session.stat_total cardStat y l <= maxStat y)%Z ->
            (Session.stat_total cardStat y' l <= maxStat y')%Z).
  { intros l y y' Hy.
    rewrite (stat_total_fixed cardStat y y') by (intros c; apply Hfixed).
    rewrite (Hcap y y'). exact Hy. }
  assert (Hvoid : forall x y, SelectCardPrompt.selectedCards x = [] ->
            Frame.within_cap maxStat cardStat x y)
    by (intros x y Hnil Hne; contradiction).
  unfold Frame.within_cap in *.
  destruct i as [player card | player arg |]; cbn [Session.step fst snd].
  - destruct (Session.delivers this player card g) eqn:Hdelivers.
    { rewrite (delivering_click _ _ _ _ Hdelivers).
      apply Hvoid, fireOnSelect_empties. }
    destruct (SelectCardPrompt.checkCardCondition this g card) eqn:Hcheck;
      [| rewrite (unchecked_click _ _ _ _ Hcheck); exact IH].
    destruct (quiet_click _ _ _ _ Hdelivers) as [-> | ->]; [exact IH |].
    destruct (selectCard_cases this card g) as [[_ ->] | [Hfree ->]];
      [exact IH |].
    cbn [fst snd]. rewrite relisted_selection. intros Hne. apply (Hmove _ g).
    destruct (decide (card ∈ SelectCardPrompt.selectedCards this)) as [Hin | Hout].
    + destruct Hconsistent as [_ Hmembers _ _].
      rewrite (toggled_off this card g (Hmembers card Hin)).
      etransitivity; [apply stat_total_filter_le; apply Hnonneg |].
      apply IH. intros Hnil. rewrite Hnil in Hin.
      apply elem_of_nil in Hin. exact Hin.
    + destruct Hconsistent as [_ _ Hothers _].
      destruct (toggled_on this card g (Hothers card Hout)) as [_ ->].
      rewrite stat_total_app.
      unfold SelectCardPrompt.checkCardCondition in Hcheck.
      apply andb_true_iff in Hcheck. destruct Hcheck as [_ Hcond].
      unfold SelectCardPrompt.callCardCondition in Hcond.
      rewrite Hclosure in Hcond.
      apply createMaxStatCardCondition_spec in Hcond.
      destruct Hcond as [_ [Hle | Hin]]; [lia | contradiction].
  - unfold SelectCardPrompt.onMenuCommand.
    destruct (negb (bool_decide _)); [exact IH |].
    destruct (negb (String.eqb arg "done")).
    + destruct (Properties.onMenuCommand _ _ _ g) as [[] g']; cbn [fst snd].
      * apply Hvoid. reflexivity.
      * intros Hne. apply (Hmove _ g). apply IH. exact Hne.
    + destruct (bool_decide _); cbn [fst snd].
      * apply Hvoid, fireOnSelect_empties.
      * apply Hvoid. reflexivity.
  - intros Hne. apply (Hmove _ g). apply IH. exact Hne.
Qed.

Lemma cap_run chooser options maxStat cardStat script s :
  Frame.callbacks_inert (SelectCardPrompt.resolve options) ->
  Frame.fixed_stats maxStat cardStat ->
  Frame.steady chooser options (fst s) (snd s) ->
  SelectCardPrompt.cardCondition (fst s) =
    SelectCardPrompt.createMaxStatCardCondition (SelectCardPrompt.resolve options)
      maxStat cardStat ->
  Frame.within_cap maxStat cardStat (fst s) (snd s) ->
  Frame.within_cap maxStat cardStat (fst (Session.run script s)) (snd (Session.run script s)).
Proof.
  intros Hinert Hstats. revert s.
  induction script as [| i script IH]; intros s Hsteady Hclosure Hcap; simpl;
    [exact Hcap |].
  apply IH.
  - apply step_steady; assumption.
  - destruct (step_configuration i s) as (_ & _ & Hsame & _). congruence.
  - destruct s as [this g]. eapply cap_step; eassumption.
Qed.

(** X14.  With both stat options configured, stats and cap that do not
    depend on the state of the game and no negative stat, on a game in
    which no card carries a selection marker and with callbacks that leave
    markers and controllers alone: whatever clicks, menu commands and
    [continue] calls the prompt has received, refused deliveries included,
    the stat total of a non-empty working selection does not exceed the
    cap. *)
Theorem cap_respected (game : Game.t) (chooser : PlayerRef) (options : Options.t)
    (maxStat : Game.t -> Z) (cardStat : Game.t -> CardRef -> Z)
    (this : SelectCardPrompt.t) (g1 : Game.t) (script : list Session.Interaction) :
  Options.maxStat options = Some maxStat ->
  Options.cardStat options = Some cardStat ->
  Frame.fixed_stats maxStat cardStat ->
  SelectCardPrompt.new game chooser options = Returns (this, g1) ->
  Frame.unmarked game ->
  Frame.callbacks_inert (SelectCardPrompt.resolve options) ->
  let s := Session.run script (this, g1) in
  SelectCardPrompt.selectedCards (fst s) <> [] ->
  (Session.stat_total cardStat (snd s) (SelectCardPrompt.selectedCards (fst s))
   <= maxStat (snd s))%Z.
Proof.
  intros Hmax Hstat Hstats Hnew Hclean Hinert s. subst s.
  apply (cap_run chooser options); try assumption.
  - apply (new_steady _ _ _ _ _ Hnew Hclean).
  - apply (new_closure _ _ _ _ _ _ _ Hnew Hmax Hstat).
  - intros Hne. destruct (new_configuration _ _ _ _ _ Hnew) as (_ & _ & Hnil & _).
    contradiction.
Qed.

Lemma power_fixed : Frame.fixed_stats (fun _ => 3%Z) Examples.power.
Proof. split; [reflexivity | reflexivity | intros g c; unfold Examples.power; lia]. Qed.

(** Cap 3, the card number as stat.  Card 2 is delivered and refused; then
    cards 1 and 2 are selected and use the cap up, and card 3 is turned
    away. *)
Lemma cap_respected_witness :
  let start := MoreExamples.begun MoreExamples.capped_refusing in
  let script := [Session.CardClicked 0 2; Session.MenuCommand 0 "done";
                 Session.CardClicked 0 1; Session.CardClicked 0 2;
                 Session.CardClicked 0 3] in
  let s := Session.run script start in
  (Options.maxStat MoreExamples.capped_refusing = Some (fun _ => 3%Z)
   /\ Options.cardStat MoreExamples.capped_refusing = Some Examples.power
   /\ Frame.fixed_stats (fun _ => 3%Z) Examples.power
   /\ SelectCardPrompt.new MoreExamples.plain 0 MoreExamples.capped_refusing =
      Returns start
   /\ Frame.unmarked MoreExamples.plain
   /\ Frame.callbacks_inert (SelectCardPrompt.resolve MoreExamples.capped_refusing)
   /\ SelectCardPrompt.selectedCards (fst s) <> [])
  /\ SelectCardPrompt.selectedCards (fst s) = [1; 2]
  /\ (Session.stat_total Examples.power (snd s) (SelectCardPrompt.selectedCards (fst s))
      <= 3)%Z.
Proof.
  intros start script s.
  assert (Hinert : Frame.callbacks_inert
                     (SelectCardPrompt.resolve MoreExamples.capped_refusing))
    by (apply refusing_inert; reflexivity).
  assert (Hne : SelectCardPrompt.selectedCards (fst s) <> [])
    by (vm_compute; discriminate).
  split.
  - split; [reflexivity |]. split; [reflexivity |].
    split; [exact power_fixed |]. split; [reflexivity |].
    split; [exact plain_unmarked |]. split; [exact Hinert | exact Hne].
  - split; [reflexivity |].
    exact (cap_respected MoreExamples.plain 0 MoreExamples.capped_refusing
             (fun _ => 3%Z) Examples.power (fst start) (snd start) script
             eq_refl eq_refl power_fixed eq_refl plain_unmarked Hinert Hne).
Defined.

(** ** SelectCardPrompt: one card as an array *)

(** X19.  A prompt for one card delivered as an array, built on a game in
    which no card carries a selection marker, with callbacks that leave
    markers and controllers alone: at any moment at which its working
    selection is not empty the selection is one card, and "done" from the
    deciding player hands [onSelect] the one-element array of that card and
    completes or clears the prompt according to the answer. *)
Theorem one_element_delivery (game : Game.t) (chooser : PlayerRef)
    (options : Options.t) (this : SelectCardPrompt.t) (g1 : Game.t)
    (script : list Session.Interaction) :
  SelectCardPrompt.new game chooser options = Returns (this, g1) ->
  Frame.unmarked game ->
  Frame.callbacks_inert (SelectCardPrompt.resolve options) ->
  Properties.numCards (SelectCardPrompt.resolve options) = 1%Z ->
  Properties.multiSelect (SelectCardPrompt.resolve options) = true ->
  let s := Session.run script (this, g1) in
  SelectCardPrompt.selectedCards (fst s) <> [] ->
  exists c,
    SelectCardPrompt.selectedCards (fst s) = [c]
    /\ SelectCardPrompt.cardParam (fst s) = Collection [c]
    /\ Session.step (Session.MenuCommand chooser "done") s =
       (let answer := Properties.onSelect (SelectCardPrompt.resolve options) chooser
                        (Collection [c]) (snd s) in
        if fst answer then SelectCardPrompt.complete (fst s) (snd answer)
        else SelectCardPrompt.clearSelection (fst s) (snd answer)).
Proof.
  intros Hnew Hclean Hinert Hone Hmulti s Hne.
  pose proof (run_steady _ _ _ _ _ script Hnew Hclean Hinert) as Hsteady.
  fold s in Hsteady. destruct s as [now g]. cbn [fst snd Session.step] in *.
  destruct Hsteady as [Hprops Hchooser _ [_ _ _ Hbound]].
  rewrite Hprops, Hone in Hbound. specialize (Hbound ltac:(lia)).
  destruct (SelectCardPrompt.selectedCards now) as [| c [| c' rest]] eqn:Hsel;
    [contradiction | | simpl in Hbound; lia].
  exists c. split; [reflexivity |].
  assert (Hparam : SelectCardPrompt.cardParam now = Collection [c]).
  { unfold SelectCardPrompt.cardParam. rewrite Hprops, Hone, Hmulti, Hsel.
    reflexivity. }
  split; [exact Hparam |].
  unfold SelectCardPrompt.onMenuCommand.
  rewrite bool_decide_eq_true_2 by congruence.
  rewrite Hsel. cbn [negb String.eqb length bool_decide].
  rewrite bool_decide_eq_true_2 by (simpl; lia). cbn [snd].
  rewrite fireOnSelect_unfold, Hparam, Hprops, Hchooser. reflexivity.
Qed.

(** Card 1 is delivered and refused, then card 0 is selected: "done" would
    hand over the array of card 0 alone. *)
Lemma one_element_delivery_witness :
  let start := MoreExamples.begun MoreExamples.array_refusing in
  let script := [Session.CardClicked 0 1; Session.MenuCommand 0 "done";
                 Session.CardClicked 0 0] in
  let s := Session.run script start in
  (SelectCardPrompt.new MoreExamples.plain 0 MoreExamples.array_refusing = Returns start
   /\ Frame.unmarked MoreExamples.plain
   /\ Frame.callbacks_inert (SelectCardPrompt.resolve MoreExamples.array_refusing)
   /\ Properties.numCards (SelectCardPrompt.resolve MoreExamples.array_refusing) = 1%Z
   /\ Properties.multiSelect (SelectCardPrompt.resolve MoreExamples.array_refusing)
      = true
   /\ SelectCardPrompt.selectedCards (fst s) <> [])
  /\ exists c,
       SelectCardPrompt.selectedCards (fst s) = [c]
       /\ SelectCardPrompt.cardParam (fst s) = Collection [c].
Proof.
  intros start script s.
  assert (Hinert : Frame.callbacks_inert
                     (SelectCardPrompt.resolve MoreExamples.array_refusing))
    by (apply refusing_inert; reflexivity).
  assert (Hne : SelectCardPrompt.selectedCards (fst s) <> [])
    by (vm_compute; discriminate).
  split.
  - split; [reflexivity |]. split; [exact plain_unmarked |].
    split; [exact Hinert |]. split; [reflexivity |]. split; [reflexivity | exact Hne].
  - destruct (one_element_delivery MoreExamples.plain 0 MoreExamples.array_refusing
                (fst start) (snd start) script eq_refl plain_unmarked Hinert
                eq_refl eq_refl Hne) as (c & Hsel & Hparam & _).
    exists c. split; [exact Hsel | exact Hparam].
Defined.

(** ** SelectCardPrompt: what the prompt leaves alone *)

Lemma flags_only_refl g : Frame.flags_only g g.
Proof. repeat split. Qed.

Lemma flags_only_trans a b c :
  Frame.flags_only a b -> Frame.flags_only b c -> Frame.flags_only a c.
Proof.
  intros (Ha & Hp & Hc) (Ha' & Hp' & Hc').
  split; [congruence |]. split.
  - intros p. rewrite Hp'. apply Hp.
  - intros x. rewrite Hc'. apply Hc.
Qed.

Lemma update_loop_flags_only {A : Type} (F : A -> Card.t -> Card.t)
    (K : A -> CardRef) g l :
  (forall x card, Frame.fixed_part (F x card) = Frame.fixed_part card) ->
  Frame.flags_only g (update_loop F K g l).
Proof.
  intros Hfixed. split; [apply update_loop_allCards |]. split.
  - intros p. rewrite update_loop_players. reflexivity.
  - intros c.
    apply (update_loop_kept F K
             (fun card => Frame.fixed_part card = Frame.fixed_part (Game.cards g c)));
      [| reflexivity].
    intros x card _ _ Hcard. rewrite Hfixed. exact Hcard.
Qed.

Lemma highlight_only_flags_only g g' :
  Frame.highlight_only g g' -> Frame.flags_only g g'.
Proof.
  intros (Ha & Hp & Hc). split; [exact Ha |]. split; [exact Hp |].
  intros c. exact (f_equal Frame.fixed_part (Hc c)).
Qed.

Lemma toggled_flags_only this card g :
  Frame.flags_only g (Session.toggled this card g).
Proof.
  unfold Session.toggled.
  destruct (negb (bool_decide _)); (split; [reflexivity |]);
    (split; [reflexivity |]); intros c; rewrite cards_update_card;
    destruct (decide (card = c)); subst; reflexivity.
Qed.

Lemma clearSelection_flags_only this g :
  Frame.flags_only g (snd (SelectCardPrompt.clearSelection this g)).
Proof.
  rewrite clearSelection_unfold. simpl.
  eapply flags_only_trans; [| apply update_loop_flags_only; reflexivity].
  eapply flags_only_trans; [| apply update_loop_flags_only; reflexivity].
  apply update_loop_flags_only. reflexivity.
Qed.

(** X15.  Building a prompt changes nothing in the game but the two
    selection markers of cards of [game.allCards]: the collection, the
    players, every other field of every card, the [selectable] flags and
    the cards outside the collection are as before.  The snapshot holds
    exactly the marked cards of the collection with the values they had, and
    the prompt starts incomplete with an empty selection. *)
Theorem construction_frame (game : Game.t) (chooser : PlayerRef)
    (options : Options.t) (this : SelectCardPrompt.t) (g1 : Game.t) :
  SelectCardPrompt.new game chooser options = Returns (this, g1) ->
  Frame.flags_only game g1
  /\ (forall c, Card.selectable (Game.cards g1 c) = Card.selectable (Game.cards game c))
  /\ (forall c, c ∉ Game.allCards game -> Game.cards g1 c = Game.cards game c)
  /\ (forall s, s ∈ SelectCardPrompt.previouslySelectedCards this <->
        exists c, c ∈ Game.allCards game
                  /\ SelectCardPrompt.marked (Game.cards game c) = true
                  /\ s = Selection.mk c (Card.selected (Game.cards game c))
                           (Card.opponentSelected (Game.cards game c)))
  /\ SelectCardPrompt.selectedCards this = []
  /\ SelectCardPrompt.completed this = false.
Proof.
  intros Hnew.
  destruct (new_unfold _ _ _ _ _ Hnew) as [Hprev Hg].
  destruct (new_cleared _ _ _ _ _ Hnew) as (_ & _ & Hout & _).
  destruct (new_configuration _ _ _ _ _ Hnew) as (_ & _ & Hsel & Hopen).
  split; [rewrite Hg; apply update_loop_flags_only; reflexivity |].
  split.
  { intros c. rewrite Hg.
    apply (update_loop_kept _ _
             (fun card => Card.selectable card = Card.selectable (Game.cards game c)));
      [| reflexivity].
    intros x card _ _ Hcard. exact Hcard. }
  split; [exact Hout |].
  split; [| split; assumption].
  intros s. rewrite Hprev. unfold Session.prior. rewrite list_elem_of_fmap. split.
  - intros (c & -> & Hin). apply list_elem_of_filter in Hin.
    destruct Hin as [Hmarked Hin]. exists c.
    split; [exact Hin |]. split; [apply Is_true_true; exact Hmarked | reflexivity].
  - intros (c & Hin & Hmarked & ->). exists c. split; [reflexivity |].
    apply list_elem_of_filter. split; [apply Is_true_true; exact Hmarked | exact Hin].
Qed.

Lemma construction_frame_witness :
  let s := Examples.started Examples.two_card_options in
  SelectCardPrompt.new Examples.table 0 Examples.two_card_options = Returns s
  /\ Frame.flags_only Examples.table (snd s)
  /\ SelectCardPrompt.previouslySelectedCards (fst s) = [Selection.mk 0 false true].
Proof.
  intros s. split; [reflexivity |].
  destruct (construction_frame Examples.table 0 Examples.two_card_options
              (fst s) (snd s) eq_refl) as (Hframe & _).
  split; [exact Hframe | reflexivity].
Defined.

Lemma flags_run game chooser options this g1 script :
  SelectCardPrompt.new game chooser options = Returns (this, g1) ->
  Frame.callbacks_write_flags_only (SelectCardPrompt.resolve options) ->
  SelectCardPrompt.properties (fst (Session.run script (this, g1))) =
    SelectCardPrompt.resolve options
  /\ Frame.flags_only game (snd (Session.run script (this, g1))).
Proof.
  intros Hnew Hkeep.
  destruct (new_configuration _ _ _ _ _ Hnew) as (_ & Hprops & _).
  destruct (new_unfold _ _ _ _ _ Hnew) as [_ Hg].
  set (Inv := fun (x : SelectCardPrompt.t) (y : Game.t) =>
                SelectCardPrompt.properties x = SelectCardPrompt.resolve options
                /\ Frame.flags_only game y).
  apply (stable_run Inv); unfold Inv.
  - intros x card y [Hp Hf].
    destruct (selectCard_cases x card y) as [[_ ->] | [_ ->]]; simpl;
      [split; assumption |].
    split; [destruct (relisted_fields x card y) as (_ & -> & _); exact Hp |].
    eapply flags_only_trans; [exact Hf |].
    eapply flags_only_trans; [apply toggled_flags_only |].
    unfold Session.notified.
    destruct (Properties.onCardToggle _) as [f |] eqn:Htoggle;
      [| apply flags_only_refl].
    rewrite Hp in Htoggle.
    exact (Frame.onCardToggle_flags _ Hkeep f _ _ _ Htoggle).
  - intros x param y [Hp Hf]. split; [exact Hp |]. rewrite Hp.
    eapply flags_only_trans; [exact Hf | apply (Frame.onSelect_flags _ Hkeep)].
  - intros x player arg y [Hp Hf]. split; [exact Hp |]. rewrite Hp.
    eapply flags_only_trans; [exact Hf | apply (Frame.onMenuCommand_flags _ Hkeep)].
  - intros x player y [Hp Hf]. split; [exact Hp |]. rewrite Hp.
    eapply flags_only_trans; [exact Hf | apply (Frame.onCancel_flags _ Hkeep)].
  - intros x y [Hp Hf]. split; [exact Hp |].
    eapply flags_only_trans; [exact Hf | apply clearSelection_flags_only].
  - intros x y [Hp Hf]. split; assumption.
  - intros x y [Hp Hf]. split; [exact Hp |].
    eapply flags_only_trans; [exact Hf |].
    apply highlight_only_flags_only.
    change (SelectCardPrompt.highlightSelectableCards x y)
      with (foldl (Frame.visit x) y (Game.allCards y)).
    apply visits_frame.
  - split; [exact Hprops |]. rewrite Hg.
    apply update_loop_flags_only. reflexivity.
Qed.

(** X16.  Whatever the players do, a prompt writes nothing but the flags
    [selected], [opponentSelected] and [selectable]: when the caller's
    callbacks change no more than those flags, then after any script of
    clicks, menu commands and [continue] calls the card collection, the
    players (their purged lists included) and the type, owner, controller,
    location, gigantic flag, composed part and purge stamp of every card are
    as they were before the prompt was built. *)
Theorem prompt_writes_flags_only (game : Game.t) (chooser : PlayerRef)
    (options : Options.t) (this : SelectCardPrompt.t) (g1 : Game.t)
    (script : list Session.Interaction) :
  SelectCardPrompt.new game chooser options = Returns (this, g1) ->
  Frame.callbacks_write_flags_only (SelectCardPrompt.resolve options) ->
  Frame.flags_only game (snd (Session.run script (this, g1))).
Proof.
  intros Hnew Hkeep. apply (flags_run _ _ _ _ _ script Hnew Hkeep).
Qed.

Lemma default_callbacks_write_flags_only options :
  Options.onSelect options = None ->
  Options.onMenuCommand options = None ->
  Options.onCancel options = None ->
  Options.onCardToggle options = None ->
  Frame.callbacks_write_flags_only (SelectCardPrompt.resolve options).
Proof.
  intros HonSelect HonMenu HonCancel Htoggle.
  split; simpl; rewrite ?HonSelect, ?HonMenu, ?HonCancel, ?Htoggle; simpl;
    try (intros; apply flags_only_refl).
  intros f player card g Hf. discriminate.
Qed.

Lemma prompt_writes_flags_only_witness :
  let script := Examples.picking ++ [Session.MenuCommand 0 "done"] in
  (SelectCardPrompt.new Examples.table 0 Examples.two_card_options =
     Returns (Examples.started Examples.two_card_options)
   /\ Frame.callbacks_write_flags_only
        (SelectCardPrompt.resolve Examples.two_card_options))
  /\ Frame.flags_only Examples.table
       (snd (Session.run script (Examples.started Examples.two_card_options))).
Proof.
  intros script.
  assert (Hkeep : Frame.callbacks_write_flags_only
                    (SelectCardPrompt.resolve Examples.two_card_options))
    by (apply default_callbacks_write_flags_only; reflexivity).
  split; [split; [reflexivity | exact Hkeep] |].
  exact (prompt_writes_flags_only Examples.table 0 Examples.two_card_options
           (fst (Examples.started Examples.two_card_options))
           (snd (Examples.started Examples.two_card_options)) script eq_refl Hkeep).
Defined.

(** ** SelectCardPrompt: prompts that wait for "done" *)

(** X17.  When [numCards] is not 1 or [multiSelect] is set, no click
    delivers: [onSelect] is not reached, a click does at most what
    [selectCard] does and never completes the prompt.  Delivery waits for
    the "done" command. *)
Theorem clicks_wait_for_done (this : SelectCardPrompt.t) (player : PlayerRef)
    (card : CardRef) (g : Game.t) :
  Properties.numCards (SelectCardPrompt.properties this) <> 1%Z
  \/ Properties.multiSelect (SelectCardPrompt.properties this) = true ->
  let clicked := snd (SelectCardPrompt.onCardClicked this player card g) in
  Session.delivers this player card g = false
  /\ (clicked = (this, g) \/ clicked = snd (SelectCardPrompt.selectCard this card g))
  /\ SelectCardPrompt.completed (fst clicked) = SelectCardPrompt.completed this.
Proof.
  intros Hmulti clicked. subst clicked.
  assert (Hquiet : Session.delivers this player card g = false).
  { unfold Session.delivers.
    destruct (selectCard_cases this card g) as [[_ ->] | [_ ->]];
      [rewrite andb_false_r; reflexivity |].
    destruct (relisted_fields this card g) as (_ & -> & _).
    destruct Hmulti as [Hne | ->].
    - apply Z.eqb_neq in Hne. rewrite Hne. simpl. apply andb_false_r.
    - simpl. rewrite !andb_false_r. reflexivity. }
  split; [exact Hquiet |].
  destruct (quiet_click _ _ _ _ Hquiet) as [Hsame | Hsel].
  - split; [left; exact Hsame | rewrite Hsame; reflexivity].
  - split; [right; exact Hsel | rewrite Hsel; apply selectCard_completed].
Qed.

Lemma clicks_wait_for_done_witness :
  let s := Examples.started Examples.two_card_options in
  Properties.numCards (SelectCardPrompt.properties (fst s)) <> 1%Z
  /\ Session.delivers (fst s) 0 1 (snd s) = false
  /\ SelectCardPrompt.completed
       (fst (snd (SelectCardPrompt.onCardClicked (fst s) 0 1 (snd s)))) = false.
Proof.
  intros s.
  assert (Hne : Properties.numCards (SelectCardPrompt.properties (fst s)) <> 1%Z)
    by (vm_compute; discriminate).
  destruct (clicks_wait_for_done (fst s) 0 1 (snd s) (or_introl Hne))
    as (Hquiet & _ & Hopen).
  split; [exact Hne |]. split; [exact Hquiet | exact Hopen].
Defined.
